(** * A shallow embedding of the chip-go CHIP-8 interpreter

    The Go package [chip8] (interpreter.go, keypad.go) is a fetch-decode-execute
    interpreter working on one mutable [Interpreter] struct.  Here the struct is
    a record, every method is a computation in a small state monad whose
    outcomes are normal return, return of an error value, and a Go run-time
    panic (an array index out of range).  Unsigned machine integers are
    integers of [Z] with the wrap-around written out. *)

From stdpp Require Import base numbers list list_numbers.

Local Open Scope Z_scope.

(** ** Machine integers *)

(** Truncation to [uint8] and [uint16]. *)
Definition u8 (v : Z) : Z := v mod 256.
Definition u16 (v : Z) : Z := v mod 65536.

(** ** Constants of interpreter.go *)

Definition DisplayWidth : Z := 64.
Definition DisplayHeight : Z := 32.

Definition CPUFrequency : Z := 850.
Definition ClockFrequency : Z := 60.

Definition V0 : Z := 0.
Definition VF : Z := 15.

Definition digitSprites : list Z :=
  [ 0xf0; 0x90; 0x90; 0x90; 0xf0;
    0x20; 0x60; 0x20; 0x20; 0x70;
    0xf0; 0x10; 0xf0; 0x80; 0xf0;
    0xf0; 0x10; 0xf0; 0x10; 0xf0;
    0x90; 0x90; 0xf0; 0x10; 0x10;
    0xf0; 0x80; 0xf0; 0x10; 0xf0;
    0xf0; 0x80; 0xf0; 0x90; 0xf0;
    0xf0; 0x10; 0x20; 0x40; 0x40;
    0xf0; 0x90; 0xf0; 0x90; 0xf0;
    0xf0; 0x90; 0xf0; 0x10; 0xf0;
    0xf0; 0x90; 0xf0; 0x90; 0x90;
    0xe0; 0x90; 0xe0; 0x90; 0xe0;
    0xf0; 0x80; 0x80; 0x80; 0xf0;
    0xe0; 0x90; 0x90; 0x90; 0xe0;
    0xf0; 0x80; 0xf0; 0x80; 0xf0;
    0xf0; 0x80; 0xf0; 0x80; 0x80 ].

(** The only error value of the package. *)
Inductive error : Type := ErrUnknownOpcode.

(** keypad.go: [type Key uint8] with the constants [Key0] .. [KeyF] = 0 .. 15. *)
Abbreviation Key := Z (only parsing).

(** ** The machine state

    The fields of the Go struct, in its order.  The table [dispatch] is a
    constant of the program and is a definition below.  The callback [beep]
    acts on the outside world only: [beeps] records the arguments of the calls
    made to it so far, oldest first. *)
Record Interpreter : Type := mkInterpreter {
  pc : Z;
  sp : Z;
  dt : Z;
  st : Z;
  vx : list Z;
  i : Z;
  stack : list Z;
  memory : list Z;
  display : list (list Z);
  keys : list bool;
  lastReleasedKey : option Key;
  opcode : Z;
  clockCycleCounter : Z;
  beeps : list bool;
  isSoundPlaying : bool
}.

Definition set_pc (v : Z) (s : Interpreter) : Interpreter :=
  mkInterpreter v (sp s) (dt s) (st s) (vx s) (i s) (stack s) (memory s)
    (display s) (keys s) (lastReleasedKey s) (opcode s) (clockCycleCounter s)
    (beeps s) (isSoundPlaying s).
Definition set_sp (v : Z) (s : Interpreter) : Interpreter :=
  mkInterpreter (pc s) v (dt s) (st s) (vx s) (i s) (stack s) (memory s)
    (display s) (keys s) (lastReleasedKey s) (opcode s) (clockCycleCounter s)
    (beeps s) (isSoundPlaying s).
Definition set_dt (v : Z) (s : Interpreter) : Interpreter :=
  mkInterpreter (pc s) (sp s) v (st s) (vx s) (i s) (stack s) (memory s)
    (display s) (keys s) (lastReleasedKey s) (opcode s) (clockCycleCounter s)
    (beeps s) (isSoundPlaying s).
Definition set_st (v : Z) (s : Interpreter) : Interpreter :=
  mkInterpreter (pc s) (sp s) (dt s) v (vx s) (i s) (stack s) (memory s)
    (display s) (keys s) (lastReleasedKey s) (opcode s) (clockCycleCounter s)
    (beeps s) (isSoundPlaying s).
Definition set_vx (v : list Z) (s : Interpreter) : Interpreter :=
  mkInterpreter (pc s) (sp s) (dt s) (st s) v (i s) (stack s) (memory s)
    (display s) (keys s) (lastReleasedKey s) (opcode s) (clockCycleCounter s)
    (beeps s) (isSoundPlaying s).
Definition set_i (v : Z) (s : Interpreter) : Interpreter :=
  mkInterpreter (pc s) (sp s) (dt s) (st s) (vx s) v (stack s) (memory s)
    (display s) (keys s) (lastReleasedKey s) (opcode s) (clockCycleCounter s)
    (beeps s) (isSoundPlaying s).
Definition set_stack (v : list Z) (s : Interpreter) : Interpreter :=
  mkInterpreter (pc s) (sp s) (dt s) (st s) (vx s) (i s) v (memory s)
    (display s) (keys s) (lastReleasedKey s) (opcode s) (clockCycleCounter s)
    (beeps s) (isSoundPlaying s).
Definition set_memory (v : list Z) (s : Interpreter) : Interpreter :=
  mkInterpreter (pc s) (sp s) (dt s) (st s) (vx s) (i s) (stack s) v
    (display s) (keys s) (lastReleasedKey s) (opcode s) (clockCycleCounter s)
    (beeps s) (isSoundPlaying s).
Definition set_display (v : list (list Z)) (s : Interpreter) : Interpreter :=
  mkInterpreter (pc s) (sp s) (dt s) (st s) (vx s) (i s) (stack s) (memory s)
    v (keys s) (lastReleasedKey s) (opcode s) (clockCycleCounter s)
    (beeps s) (isSoundPlaying s).
Definition set_keys (v : list bool) (s : Interpreter) : Interpreter :=
  mkInterpreter (pc s) (sp s) (dt s) (st s) (vx s) (i s) (stack s) (memory s)
    (display s) v (lastReleasedKey s) (opcode s) (clockCycleCounter s)
    (beeps s) (isSoundPlaying s).
Definition set_lastReleasedKey (v : option Key) (s : Interpreter) : Interpreter :=
  mkInterpreter (pc s) (sp s) (dt s) (st s) (vx s) (i s) (stack s) (memory s)
    (display s) (keys s) v (opcode s) (clockCycleCounter s)
    (beeps s) (isSoundPlaying s).
Definition set_opcode (v : Z) (s : Interpreter) : Interpreter :=
  mkInterpreter (pc s) (sp s) (dt s) (st s) (vx s) (i s) (stack s) (memory s)
    (display s) (keys s) (lastReleasedKey s) v (clockCycleCounter s)
    (beeps s) (isSoundPlaying s).
Definition set_clockCycleCounter (v : Z) (s : Interpreter) : Interpreter :=
  mkInterpreter (pc s) (sp s) (dt s) (st s) (vx s) (i s) (stack s) (memory s)
    (display s) (keys s) (lastReleasedKey s) (opcode s) v
    (beeps s) (isSoundPlaying s).
Definition set_beeps (v : list bool) (s : Interpreter) : Interpreter :=
  mkInterpreter (pc s) (sp s) (dt s) (st s) (vx s) (i s) (stack s) (memory s)
    (display s) (keys s) (lastReleasedKey s) (opcode s) (clockCycleCounter s)
    v (isSoundPlaying s).
Definition set_isSoundPlaying (v : bool) (s : Interpreter) : Interpreter :=
  mkInterpreter (pc s) (sp s) (dt s) (st s) (vx s) (i s) (stack s) (memory s)
    (display s) (keys s) (lastReleasedKey s) (opcode s) (clockCycleCounter s)
    (beeps s) v.

(** ** The monad of methods

    A method of [*Interpreter] mutates the struct in place and then returns
    [nil] ([Done]), returns an error with the mutations made so far still in
    place ([Fault]), or dies in a run-time panic ([Panic]); nothing in the
    package recovers from a panic. *)
Inductive result (A : Type) : Type :=
  | Done (a : A) (s : Interpreter)
  | Fault (e : error) (s : Interpreter)
  | Panic.
Arguments Done {A} a s.
Arguments Fault {A} e s.
Arguments Panic {A}.

Definition M (A : Type) : Type := Interpreter -> result A.

#[global] Instance M_ret : MRet M := fun A a s => Done a s.
#[global] Instance M_bind : MBind M := fun A B k m s =>
  match m s with
  | Done a s' => k a s'
  | Fault e s' => Fault e s'
  | Panic => Panic
  end.

Definition get {A : Type} (f : Interpreter -> A) : M A := fun s => Done (f s) s.
Definition modify (f : Interpreter -> Interpreter) : M unit := fun s => Done tt (f s).
Definition fail {A : Type} (e : error) : M A := fun s => Fault e s.

(** [a[k]] for reading: an index outside the array panics. *)
Definition index {A : Type} (a : list A) (k : Z) : M A := fun s =>
  match a !! Z.to_nat k with
  | Some v => Done v s
  | None => Panic
  end.

(** [a[k] = v]: the new array, or a panic outside the array. *)
Definition store {A : Type} (a : list A) (k : Z) (v : A) : M (list A) := fun s =>
  if bool_decide (Z.to_nat k < length a)%nat
  then Done (<[Z.to_nat k := v]> a) s
  else Panic.

Definition read_vx (k : Z) : M Z := a ← get vx; index a k.
Definition write_vx (k v : Z) : M unit :=
  a ← get vx; a' ← store a k v; modify (set_vx a').
Definition read_memory (k : Z) : M Z := a ← get memory; index a k.
Definition write_memory (k v : Z) : M unit :=
  a ← get memory; a' ← store a k v; modify (set_memory a').
Definition read_stack (k : Z) : M Z := a ← get stack; index a k.
Definition write_stack (k v : Z) : M unit :=
  a ← get stack; a' ← store a k v; modify (set_stack a').
Definition read_keys (k : Z) : M bool := a ← get keys; index a k.
Definition write_keys (k : Z) (v : bool) : M unit :=
  a ← get keys; a' ← store a k v; modify (set_keys a').
Definition read_display (r c : Z) : M Z :=
  d ← get display; row ← index d r; index row c.
Definition write_display (r c v : Z) : M unit :=
  d ← get display; row ← index d r; row' ← store row c v;
  d' ← store d r row'; modify (set_display d').

(** [i.pc += 2] on a [uint16]. *)
Definition advance_pc : M unit := modify (fun s => set_pc (u16 (pc s + 2)) s).

(** [body] run for each element of [ks] in turn. *)
Fixpoint for_each {A : Type} (body : A -> M unit) (ks : list A) : M unit :=
  match ks with
  | [] => mret tt
  | k :: ks' => body k;; for_each body ks'
  end.
(** [for k := range cnt { body }]: [k] runs over 0, 1, .., cnt-1. *)
Definition for_range (cnt : Z) (body : Z -> M unit) : M unit :=
  for_each body (seqZ 0 cnt).

(** ** Operand fields of an instruction word *)
Module Op.
Definition addr (word : Z) : Z := Z.land word 0x0fff.
Definition x (word : Z) : Z := u8 (Z.shiftr (Z.land word 0x0f00) 8).
Definition y (word : Z) : Z := u8 (Z.shiftr (Z.land word 0x00f0) 4).
Definition n (word : Z) : Z := u8 (Z.land word 0x000f).
Definition byte (word : Z) : Z := u8 (Z.land word 0x00ff).
End Op.

(** ** Construction, loading and the external interface *)

(** [NewInterpreter]: every field has Go's zero value except [pc]. *)
Definition NewInterpreter : Interpreter :=
  {| pc := 0x200; sp := 0; dt := 0; st := 0;
     vx := replicate 16 0; i := 0;
     stack := replicate 16 0;
     memory := replicate 4096 0;
     display := replicate 32 (replicate 64 0);
     keys := replicate 16 false;
     lastReleasedKey := None;
     opcode := 0; clockCycleCounter := 0;
     beeps := []; isSoundPlaying := false |}.

(** [copy(dst, src)] on byte arrays: the first [min (len dst) (len src)] cells
    of [dst] are overwritten. *)
Definition copy (dst src : list Z) : list Z :=
  take (length dst) src ++ drop (length src) dst.

(** [Load], for a reader whose single [Read] delivers [image] (at most as many
    bytes as fit behind 0x200); the error value of the reader is not modelled. *)
Definition Load (image : list Z) (s : Interpreter) : Interpreter :=
  let m := copy (memory s) digitSprites in
  set_memory (take 0x200 m ++ copy (drop 0x200 m) image) s.

Definition Display (s : Interpreter) : list (list Z) := display s.

Definition SetKeyState (key : Key) (pressed : bool) : M unit :=
  write_keys key pressed;;
  if negb pressed then modify (set_lastReleasedKey (Some key)) else mret tt.

(** ** Opcode handlers *)

(** [clear(i.display[:])]: every row becomes the zero array. *)
Definition clear (d : list (list Z)) : list (list Z) :=
  map (fun row : list Z => map (fun _ : Z => 0) row) d.

Definition opHandler0 : M unit :=
  op ← get opcode;
  (if Z.land op 0x00ff =? 0x00e0 then
     modify (fun s => set_display (clear (display s)) s)
   else if Z.land op 0x00ff =? 0x00ee then
     modify (fun s => set_sp (u16 (sp s - 1)) s);;
     k ← get sp;
     ra ← read_stack k;
     modify (set_pc ra)
   else fail ErrUnknownOpcode);;
  advance_pc.

Definition opHandler1 : M unit :=
  op ← get opcode;
  modify (set_pc (Op.addr op)).

Definition opHandler2 : M unit :=
  op ← get opcode;
  k ← get sp;
  ra ← get pc;
  write_stack k ra;;
  modify (fun s => set_sp (u16 (sp s + 1)) s);;
  modify (set_pc (Op.addr op)).

Definition opHandler3 : M unit :=
  op ← get opcode;
  advance_pc;;
  a ← read_vx (Op.x op);
  if a =? Op.byte op then advance_pc else mret tt.

Definition opHandler4 : M unit :=
  op ← get opcode;
  advance_pc;;
  a ← read_vx (Op.x op);
  if negb (a =? Op.byte op) then advance_pc else mret tt.

Definition opHandler5 : M unit :=
  op ← get opcode;
  if negb (Z.land op 0x000f =? 0) then fail ErrUnknownOpcode
  else
    advance_pc;;
    a ← read_vx (Op.x op);
    b ← read_vx (Op.y op);
    if a =? b then advance_pc else mret tt.

Definition opHandler6 : M unit :=
  op ← get opcode;
  write_vx (Op.x op) (Op.byte op);;
  advance_pc.

Definition opHandler7 : M unit :=
  op ← get opcode;
  a ← read_vx (Op.x op);
  write_vx (Op.x op) (u8 (a + Op.byte op));;
  advance_pc.

Definition opHandler8 : M unit :=
  op ← get opcode;
  let k := Z.land op 0x000f in
  (if k =? 0x0000 then
     b ← read_vx (Op.y op);
     write_vx (Op.x op) b
   else if k =? 0x0001 then
     a ← read_vx (Op.x op);
     b ← read_vx (Op.y op);
     write_vx (Op.x op) (Z.lor a b)
   else if k =? 0x0002 then
     a ← read_vx (Op.x op);
     b ← read_vx (Op.y op);
     write_vx (Op.x op) (Z.land a b)
   else if k =? 0x0003 then
     a ← read_vx (Op.x op);
     b ← read_vx (Op.y op);
     write_vx (Op.x op) (Z.lxor a b)
   else if k =? 0x0004 then
     a ← read_vx (Op.x op);
     b ← read_vx (Op.y op);
     let sum := u16 (a + b) in
     write_vx (Op.x op) (u8 sum);;
     if 255 <? sum then write_vx VF 1 else write_vx VF 0
   else if k =? 0x0005 then
     a ← read_vx (Op.x op);
     b ← read_vx (Op.y op);
     let flag := if b <=? a then 1 else 0 in
     write_vx (Op.x op) (u8 (a - b));;
     write_vx VF flag
   else if k =? 0x0006 then
     a ← read_vx (Op.x op);
     let flag := Z.land a 0x0001 in
     write_vx (Op.x op) (Z.shiftr a 1);;
     write_vx VF flag
   else if k =? 0x0007 then
     b ← read_vx (Op.y op);
     a ← read_vx (Op.x op);
     let flag := if a <=? b then 1 else 0 in
     write_vx (Op.x op) (u8 (b - a));;
     write_vx VF flag
   else if k =? 0x000E then
     a ← read_vx (Op.x op);
     let flag := Z.shiftr a 7 in
     write_vx (Op.x op) (u8 (Z.shiftl a 1));;
     write_vx VF flag
   else fail ErrUnknownOpcode);;
  advance_pc.

Definition opHandler9 : M unit :=
  op ← get opcode;
  advance_pc;;
  a ← read_vx (Op.x op);
  b ← read_vx (Op.y op);
  if negb (a =? b) then advance_pc else mret tt.

Definition opHandlerA : M unit :=
  op ← get opcode;
  modify (set_i (Op.addr op));;
  advance_pc.

Definition opHandlerB : M unit :=
  op ← get opcode;
  a ← read_vx V0;
  modify (set_pc (u16 (Op.addr op + a))).

(** [rnd] is the value [rand.Intn(256)] returns in this call. *)
Definition opHandlerC (rnd : Z) : M unit :=
  op ← get opcode;
  write_vx (Op.x op) (Z.land (u8 rnd) (Op.byte op));;
  advance_pc.

(** The body of the inner loop of [opHandlerD], for sprite row [y] and
    column [x]. *)
Definition draw_pixel (startX startY y x : Z) : M unit :=
  let r := u8 (startY + y) mod DisplayHeight in
  let c := u8 (startX + x) mod DisplayWidth in
  old ← read_display r c;
  base ← get i;
  b ← read_memory (u16 (base + y));
  let new := Z.lxor old (Z.land (Z.shiftr b (7 - x)) 1) in
  write_display r c new;;
  if (old =? 1) && (new =? 0) then write_vx VF 1 else mret tt.

Definition opHandlerD : M unit :=
  op ← get opcode;
  startX ← read_vx (Op.x op);
  startY ← read_vx (Op.y op);
  let height := Op.n op in
  write_vx VF 0;;
  for_range height (fun y =>
    for_range 8 (fun x => draw_pixel startX startY y x));;
  advance_pc.

Definition opHandlerE : M unit :=
  op ← get opcode;
  advance_pc;;
  if Z.land op 0x00ff =? 0x009e then
    a ← read_vx (Op.x op);
    down ← read_keys (Z.land a 0x0f);
    if (down : bool) then advance_pc else mret tt
  else if Z.land op 0x00ff =? 0x00a1 then
    a ← read_vx (Op.x op);
    down ← read_keys (Z.land a 0x0f);
    if negb (down : bool) then advance_pc else mret tt
  else fail ErrUnknownOpcode.

(** In [opHandlerF] the case 0x0a returns [nil] from inside the switch when no
    key release is pending; every other case falls out of the switch to the
    final [i.pc += 2], written here at the end of each case. *)
Definition opHandlerF : M unit :=
  op ← get opcode;
  let k := Z.land op 0x00ff in
  if k =? 0x0007 then
    d ← get dt;
    write_vx (Op.x op) d;;
    advance_pc
  else if k =? 0x000a then
    released ← get lastReleasedKey;
    match (released : option Key) with
    | None => mret tt
    | Some key =>
        write_vx (Op.x op) key;;
        modify (set_lastReleasedKey None);;
        advance_pc
    end
  else if k =? 0x0015 then
    a ← read_vx (Op.x op);
    modify (set_dt a);;
    advance_pc
  else if k =? 0x0018 then
    a ← read_vx (Op.x op);
    modify (set_st a);;
    advance_pc
  else if k =? 0x001e then
    a ← read_vx (Op.x op);
    modify (fun s => set_i (u16 (i s + a)) s);;
    advance_pc
  else if k =? 0x0029 then
    a ← read_vx (Op.x op);
    modify (set_i (u8 (Z.land a 0x0f * 5)));;
    advance_pc
  else if k =? 0x0033 then
    value ← read_vx (Op.x op);
    base ← get i;
    write_memory base (value / 100);;
    write_memory (u16 (base + 1)) ((value / 10) mod 10);;
    write_memory (u16 (base + 2)) (value mod 10);;
    advance_pc
  else if k =? 0x0055 then
    for_range (u8 (Op.x op + 1)) (fun n =>
      base ← get i;
      a ← read_vx n;
      write_memory (u16 (base + n)) a);;
    advance_pc
  else if k =? 0x0065 then
    for_range (u8 (Op.x op + 1)) (fun n =>
      base ← get i;
      b ← read_memory (u16 (base + n));
      write_vx n b);;
    advance_pc
  else fail ErrUnknownOpcode.

(** ** The cycle driver *)

(** The table built by [NewInterpreter]. *)
Definition dispatch (rnd : Z) : list (M unit) :=
  [ opHandler0; opHandler1; opHandler2; opHandler3;
    opHandler4; opHandler5; opHandler6; opHandler7;
    opHandler8; opHandler9; opHandlerA; opHandlerB;
    opHandlerC rnd; opHandlerD; opHandlerE; opHandlerF ].

(** A call [i.beep(on)] of the callback (assumed not nil). *)
Definition beep (on : bool) : M unit :=
  modify (fun s => set_beeps (beeps s ++ [on]) s).

Definition Cycle (rnd : Z) : M unit :=
  a ← get pc;
  hi ← read_memory a;
  lo ← read_memory (u16 (a + 1));
  modify (set_opcode (Z.lor (u16 (Z.shiftl hi 8)) lo));;
  op ← get opcode;
  handler ← index (dispatch rnd) (Z.shiftr op 12);
  handler;;
  ticks ← get clockCycleCounter;
  if ticks =? CPUFrequency / ClockFrequency then
    d ← get dt;
    (if 0 <? d then modify (set_dt (u8 (d - 1))) else mret tt);;
    t ← get st;
    (if 0 <? t then
       playing ← get isSoundPlaying;
       (if negb (playing : bool)
        then beep true;; modify (set_isSoundPlaying true)
        else mret tt);;
       modify (fun s => set_st (u8 (st s - 1)) s)
     else
       playing ← get isSoundPlaying;
       if (playing : bool)
       then beep false;; modify (set_isSoundPlaying false)
       else mret tt);;
    modify (set_clockCycleCounter 0)
  else
    modify (fun s => set_clockCycleCounter (u8 (clockCycleCounter s + 1)) s).

(** Successive calls of [Cycle], one random byte per call. *)
Fixpoint Cycles (rnds : list Z) : M unit :=
  match rnds with
  | [] => mret tt
  | rnd :: rnds' => Cycle rnd;; Cycles rnds'
  end.

(** ** Well-formed states

    The arrays of the struct have the sizes of their Go types and the
    16-bit registers used as indices hold 16-bit values. *)
Definition wf (s : Interpreter) : bool :=
  (0 <=? pc s) && (pc s <? 65536) &&
  (0 <=? sp s) && (sp s <? 65536) &&
  (0 <=? i s) && (i s <? 65536) &&
  (length (vx s) =? 16)%nat &&
  (length (stack s) =? 16)%nat &&
  (length (memory s) =? 4096)%nat &&
  (length (keys s) =? 16)%nat &&
  (length (display s) =? 32)%nat &&
  forallb (fun row => (length row =? 64)%nat) (display s).

(** The display cell in row [r] and column [c]. *)
Definition cell (d : list (list Z)) (r c : Z) : option Z :=
  row ← d !! Z.to_nat r; row !! Z.to_nat c.

(** The instruction word with the nibbles [t], [x], [y], [n]. *)
Definition word (t x y n : Z) : Z := 4096 * t + 256 * x + 16 * y + n.

(** The timer part of [Cycle]: everything after the handler has returned. *)
Definition timers : M unit :=
  ticks ← get clockCycleCounter;
  if ticks =? CPUFrequency / ClockFrequency then
    d ← get dt;
    (if 0 <? d then modify (set_dt (u8 (d - 1))) else mret tt);;
    t ← get st;
    (if 0 <? t then
       playing ← get isSoundPlaying;
       (if negb (playing : bool)
        then beep true;; modify (set_isSoundPlaying true)
        else mret tt);;
       modify (fun s => set_st (u8 (st s - 1)) s)
     else
       playing ← get isSoundPlaying;
       if (playing : bool)
       then beep false;; modify (set_isSoundPlaying false)
       else mret tt);;
    modify (set_clockCycleCounter 0)
  else
    modify (fun s => set_clockCycleCounter (u8 (clockCycleCounter s + 1)) s).

(** The fetch and dispatch part of [Cycle]. *)
Definition fetch_execute (rnd : Z) : M unit :=
  a ← get pc;
  hi ← read_memory a;
  lo ← read_memory (u16 (a + 1));
  modify (set_opcode (Z.lor (u16 (Z.shiftl hi 8)) lo));;
  op ← get opcode;
  handler ← index (dispatch rnd) (Z.shiftr op 12);
  handler.

(** ** Flags of the ALU family, as the specification words them *)

(** 1 iff the unsigned sum exceeds a byte. *)
Definition carry (a b : Z) : Z := if 255 <? a + b then 1 else 0.
(** 1 iff the subtraction [a - b] needs no borrow. *)
Definition not_borrow (a b : Z) : Z := if b <=? a then 1 else 0.

(** ** Example machines *)

(** A machine fresh from [NewInterpreter] whose registers and fetched
    instruction word have been set. *)
Definition with_regs (op : Z) (regs : list Z) : Interpreter :=
  set_opcode op (set_vx regs NewInterpreter).

(** A program waiting for a key: [LD V3, K] at 0x200. *)
Definition wait_machine : Interpreter := Load [0xF3; 0x0A] NewInterpreter.

(** A program calling a subroutine that returns at once:
    [CALL 0x204] at 0x200 and [RET] at 0x204. *)
Definition call_machine : Interpreter :=
  Load [0x22; 0x04; 0x00; 0x00; 0x00; 0xEE] NewInterpreter.

(** The fetched word of [s] is RET (00EE). *)
Definition opcode_is_ret (s : Interpreter) : Prop :=
  memory s !! Z.to_nat (pc s) = Some 0x00 /\
  memory s !! Z.to_nat (pc s + 1) = Some 0xEE.

(** ** The display as a grid of pixels *)

(** The shape of [[DisplayHeight][DisplayWidth]uint8]. *)
Definition grid (d : list (list Z)) : Prop :=
  length d = 32%nat /\ Forall (fun row => length row = 64%nat) d.

(** The value of the pixel in row [r], column [c] (0 outside the grid). *)
Definition pixel (d : list (list Z)) (r c : Z) : Z := default 0 (cell d r c).

(** The display after [d[r][c] = v]. *)
Definition update (d : list (list Z)) (r c v : Z) : list (list Z) :=
  match d !! Z.to_nat r with
  | Some row => <[Z.to_nat r := <[Z.to_nat c := v]> row]> d
  | None => d
  end.

(** The memory byte at address [a] (0 outside the memory). *)
Definition byte_at (mem : list Z) (a : Z) : Z := default 0 (mem !! Z.to_nat a).

(** Bit [col] of a sprite row [b], counted from the most significant bit. *)
Definition sprite_bit (b col : Z) : Z := Z.land (Z.shiftr b (7 - col)) 1.

(** The (row, column) pairs of a sprite of height [n], in drawing order. *)
Definition pixels (n : Z) : list (Z * Z) :=
  seqZ 0 n ≫= (fun row => pair row <$> seqZ 0 8).

(** The display cell that the sprite pixel [p] = (row, column) lands on for a
    sprite drawn at ([sx], [sy]): the row wraps modulo 32, the column
    modulo 64. *)
Definition pos (sx sy : Z) (p : Z * Z) : Z * Z :=
  ((sy + p.1) mod 32, (sx + p.2) mod 64).

(** Drawing pixel [p] erases a set pixel: the cell holds 1 and the sprite bit
    is 1. *)
Definition collides (d : list (list Z)) (mem : list Z) (base sx sy : Z)
    (p : Z * Z) : bool :=
  (pixel d (pos sx sy p).1 (pos sx sy p).2 =? 1) &&
  (sprite_bit (byte_at mem (base + p.1)) p.2 =? 1).

(** Between [s] and [s'] the display cell ([r], [c]) has been XORed with bit
    [col] of sprite row [row], read at address I + [row]. *)
Definition xored (s s' : Interpreter) (row col r c : Z) : Prop :=
  exists old b,
    cell (display s) r c = Some old /\
    memory s !! Z.to_nat (i s + row) = Some b /\
    cell (display s') r c = Some (Z.lxor old (sprite_bit b col)).

(** Some pixel of the sprite of height [n] drawn at ([sx], [sy]) went from set
    in display [d] to unset in display [d']. *)
Definition erases (d d' : list (list Z)) (sx sy n : Z) : Prop :=
  exists row col,
    0 <= row < n /\ 0 <= col < 8 /\
    cell d ((sy + row) mod 32) ((sx + col) mod 64) = Some 1 /\
    cell d' ((sy + row) mod 32) ((sx + col) mod 64) = Some 0.

(** A machine about to draw the two-row sprite of digit 0 (0xF0, 0x90), read
    from the font table at address 0, at column 63 and row 31. *)
Definition draw_machine : Interpreter :=
  set_i 0 (set_opcode 0xD012
    (set_vx [63; 31; 0; 0; 0; 0; 0; 0; 0; 0; 0; 0; 0; 0; 0; 0]
       (Load [] NewInterpreter))).

(** A program drawing, at column 63 of row 0, a one-row sprite whose only set
    bit is the rightmost one: [LD V0, 63], [LD I, 0x208], [DRW V0, V1, 1],
    a jump to itself, and the sprite byte 0x01 at 0x208. *)
Definition edge_machine : Interpreter :=
  Load [0x60; 0x3F; 0xA2; 0x08; 0xD0; 0x11; 0x12; 0x06; 0x01] NewInterpreter.

(** A program whose sprite runs past the end of the memory: [LD I, 0xFFF],
    [DRW V0, V0, 2]; the second sprite row would be read at 0x1000. *)
Definition past_end_machine : Interpreter :=
  Load [0xAF; 0xFF; 0xD0; 0x02] NewInterpreter.

(** ** Sound notifications *)

(** The calls [calls] of the callback, made in this order from a moment when
    the flag [isSoundPlaying] was [playing], each reverse the status reported
    by the call before (or [playing] for the first). *)
Fixpoint alternates (playing : bool) (calls : list bool) : Prop :=
  match calls with
  | [] => True
  | on :: rest => on = negb playing /\ alternates on rest
  end.

(** The status reported last. *)
Definition status_after (playing : bool) (calls : list bool) : bool :=
  List.last calls playing.

(** The calls of the callback that the timer part of [Cycle] makes when
    entered in state [s]: none unless this cycle is a timer tick; on a tick,
    [true] if the sound timer is nonzero and no sound is playing, [false] if
    the sound timer is zero and sound is playing. *)
Definition sound_calls (s : Interpreter) : list bool :=
  if clockCycleCounter s =? CPUFrequency / ClockFrequency then
    if 0 <? st s then (if isSoundPlaying s then [] else [true])
    else (if isSoundPlaying s then [false] else [])
  else [].

(** A program that starts the sound timer and stops it again before the next
    timer tick: [LD V0, 5], [LD ST, V0], [LD V0, 0], [LD ST, V0], then a jump
    to itself. *)
Definition blip_machine : Interpreter :=
  Load [0x60; 0x05; 0xF0; 0x18; 0x60; 0x00; 0xF0; 0x18; 0x12; 0x08] NewInterpreter.

(** A program that sets the sound timer to 1 and then loops:
    [LD V0, 1], [LD ST, V0], then a jump to itself. *)
Definition tone_machine : Interpreter :=
  Load [0x60; 0x01; 0xF0; 0x18; 0x12; 0x04] NewInterpreter.

(** The state in which a run ended ([s] if it ended in a panic). *)
Definition final (r : result unit) (s : Interpreter) : Interpreter :=
  match r with
  | Done _ s' => s'
  | Fault _ s' => s'
  | Panic => s
  end.

(** The calls of the callback made by the cycles [rnds] started in [s]: for
    each cycle whose handler returns normally, the calls [sound_calls] of its
    timer part, in order. *)
Fixpoint run_calls (rnds : list Z) (s : Interpreter) : list bool :=
  match rnds with
  | [] => []
  | rnd :: rnds' =>
      match fetch_execute rnd s with
      | Done _ s1 => sound_calls s1 ++ run_calls rnds' (final (timers s1) s1)
      | _ => []
      end
  end.

(** ** Reachable states and array extents *)

(** The states a caller can bring the machine into: load a program image into
    a new machine, then run cycles that return normally and report key
    events. *)
Inductive reachable : Interpreter -> Prop :=
  | reach_load image :
      Forall (fun b => 0 <= b < 256) image ->
      reachable (Load image NewInterpreter)
  | reach_cycle rnd s s' :
      reachable s -> 0 <= rnd < 256 -> Cycle rnd s = Done tt s' -> reachable s'
  | reach_key key pressed s s' :
      reachable s -> 0 <= key < 16 -> SetKeyState key pressed s = Done tt s' ->
      reachable s'.

(** The arrays of [s'] have the extents of those of [s]. *)
Definition same_shape (s s' : Interpreter) : Prop :=
  length (vx s') = length (vx s) /\
  length (stack s') = length (stack s) /\
  length (memory s') = length (memory s) /\
  length (keys s') = length (keys s) /\
  length <$> display s' = length <$> display s.

(** A subroutine that calls itself: [CALL 0x200] at 0x200. *)
Definition deep_machine : Interpreter := Load [0x22; 0x00] NewInterpreter.

(** A return with nothing on the stack: [RET] at 0x200. *)
Definition bare_ret_machine : Interpreter := Load [0x00; 0xEE] NewInterpreter.

(** BCD at the end of memory: [LD I, 0xFFF] and [LD B, V0]. *)
Definition bcd_machine : Interpreter := Load [0xAF; 0xFF; 0xF0; 0x33] NewInterpreter.

(** ** Relations between the state before and after a method *)

(** [respects R m]: whenever [m] returns, normally or with an error, the state
    it leaves is related by [R] to the state it started in. *)
Definition respects (R : Interpreter -> Interpreter -> Prop) {A : Type}
    (m : M A) : Prop :=
  forall s,
    match m s with
    | Done _ s' => R s s'
    | Fault _ s' => R s s'
    | Panic => True
    end.

(** The sound bookkeeping is the same in both states. *)
Definition quiet (s s' : Interpreter) : Prop :=
  beeps s' = beeps s /\ isSoundPlaying s' = isSoundPlaying s.

(** What the loops of Fx55 and Fx65 need of a state: I inside the memory,
    arrays of the right size. *)
Definition loop_inv (s : Interpreter) : Prop :=
  0 <= i s < 4096 /\ length (vx s) = 16%nat /\ length (memory s) = 4096%nat.

(** A program that jumps to the last memory cell: [JP 0xFFF]. *)
Definition jump_end_machine : Interpreter := Load [0x1F; 0xFF] NewInterpreter.

(** The cycle counter is the same in both states. *)
Definition same_clock (s s' : Interpreter) : Prop :=
  clockCycleCounter s' = clockCycleCounter s.

(** The font table is in place at the bottom of the memory. *)
Definition font_installed (s : Interpreter) : Prop :=
  forall k : nat, (k < 80)%nat -> memory s !! k = digitSprites !! k.

(** ** Values of the Go types *)

Definition byte (v : Z) : Prop := 0 <= v < 256.
Definition word16 (v : Z) : Prop := 0 <= v < 65536.
Definition bit (v : Z) : Prop := v = 0 \/ v = 1.

(** Every field of the struct holds a value of its Go type, the stack pointer
    is at most 16, the cycle counter at most 14, the marker names a key of the
    keypad and every display cell is 0 or 1. *)
Record typed (s : Interpreter) : Prop := mkTyped {
  ty_pc : word16 (pc s);
  ty_sp : 0 <= sp s <= 16;
  ty_dt : byte (dt s);
  ty_st : byte (st s);
  ty_vx_len : length (vx s) = 16%nat;
  ty_vx : Forall byte (vx s);
  ty_i : word16 (i s);
  ty_stack_len : length (stack s) = 16%nat;
  ty_stack : Forall word16 (stack s);
  ty_memory_len : length (memory s) = 4096%nat;
  ty_memory : Forall byte (memory s);
  ty_display : grid (display s);
  ty_pixels : Forall (Forall bit) (display s);
  ty_keys : length (keys s) = 16%nat;
  ty_released : forall key, lastReleasedKey s = Some key -> 0 <= key < 16;
  ty_opcode : word16 (opcode s);
  ty_clock : 0 <= clockCycleCounter s <= 14
}.

(** [wp m Q E s]: if [m] started in [s] returns normally, its result and
    final state satisfy [Q]; if it returns an error, the state satisfies [E]. *)
Definition wp {A : Type} (m : M A) (Q : A -> Interpreter -> Prop)
    (E : Interpreter -> Prop) (s : Interpreter) : Prop :=
  match m s with
  | Done a s' => Q a s'
  | Fault _ s' => E s'
  | Panic => True
  end.

(** The handler leaves the delay timer and the cycle counter alone. *)
Definition same_timer (s s' : Interpreter) : Prop :=
  dt s' = dt s /\ clockCycleCounter s' = clockCycleCounter s.

(** * Properties *)

(** ** Words and fields *)

Lemma wf_elim s :
  wf s = true ->
  0 <= pc s < 65536 /\ 0 <= sp s < 65536 /\ 0 <= i s < 65536 /\
  length (vx s) = 16%nat /\ length (stack s) = 16%nat /\
  length (memory s) = 4096%nat /\ length (keys s) = 16%nat /\
  length (display s) = 32%nat /\
  (forall r row, display s !! r = Some row -> length row = 64%nat).
Proof.
  unfold wf. intros H.
  repeat match type of H with
         | (_ && _) = true =>
             let H' := fresh "H" in apply andb_true_iff in H as [H H']
         end.
  repeat match goal with
         | H : (_ <=? _) = true |- _ => apply Z.leb_le in H
         | H : (_ <? _) = true |- _ => apply Z.ltb_lt in H
         | H : (_ =? _)%nat = true |- _ => apply Nat.eqb_eq in H
         end.
  repeat split; try assumption.
  intros r row Hr.
  match goal with
  | Hrows : forallb _ _ = true |- _ => rewrite forallb_forall in Hrows;
      apply Nat.eqb_eq, Hrows
  end.
  apply list_elem_of_In. by apply list_elem_of_lookup_2 in Hr.
Qed.

(** Linear arithmetic with division and remainder by constants. *)
Ltac dlia := unfold u8, u16 in *; Z.div_mod_to_equations; lia.

Lemma land_15 a : Z.land a 15 = a mod 16.
Proof. exact (Z.land_ones a 4 ltac:(lia)). Qed.

Lemma land_255 a : Z.land a 255 = a mod 256.
Proof. exact (Z.land_ones a 8 ltac:(lia)). Qed.

Lemma land_4095 a : Z.land a 4095 = a mod 4096.
Proof. exact (Z.land_ones a 12 ltac:(lia)). Qed.

Lemma Op_addr_spec w : Op.addr w = w mod 4096.
Proof. apply land_4095. Qed.

Lemma Op_byte_spec w : Op.byte w = w mod 256.
Proof. unfold Op.byte, u8. rewrite land_255. dlia. Qed.

Lemma Op_n_spec w : Op.n w = w mod 16.
Proof. unfold Op.n, u8. rewrite land_15. dlia. Qed.

Lemma Op_x_spec w : Op.x w = (w / 256) mod 16.
Proof.
  unfold Op.x, u8. rewrite Z.shiftr_land.
  change (Z.shiftr 3840 8) with 15. rewrite land_15.
  rewrite Z.shiftr_div_pow2 by lia. change (2 ^ 8) with 256. dlia.
Qed.

Lemma Op_y_spec w : Op.y w = (w / 16) mod 16.
Proof.
  unfold Op.y, u8. rewrite Z.shiftr_land.
  change (Z.shiftr 240 4) with 15. rewrite land_15.
  rewrite Z.shiftr_div_pow2 by lia. change (2 ^ 4) with 16. dlia.
Qed.

Section Fields.
Variables t x y n : Z.
Hypothesis Ht : 0 <= t < 16.
Hypothesis Hx : 0 <= x < 16.
Hypothesis Hy : 0 <= y < 16.
Hypothesis Hn : 0 <= n < 16.

Lemma word_family : Z.shiftr (word t x y n) 12 = t.
Proof.
  rewrite Z.shiftr_div_pow2 by lia. change (2 ^ 12) with 4096.
  unfold word. dlia.
Qed.

Lemma word_x : Op.x (word t x y n) = x.
Proof. rewrite Op_x_spec. unfold word. dlia. Qed.

Lemma word_y : Op.y (word t x y n) = y.
Proof. rewrite Op_y_spec. unfold word. dlia. Qed.

Lemma word_n : Op.n (word t x y n) = n.
Proof. rewrite Op_n_spec. unfold word. dlia. Qed.

Lemma word_byte : Op.byte (word t x y n) = 16 * y + n.
Proof. rewrite Op_byte_spec. unfold word. dlia. Qed.

Lemma word_addr : Op.addr (word t x y n) = 256 * x + 16 * y + n.
Proof. rewrite Op_addr_spec. unfold word. dlia. Qed.

Lemma word_low_nibble : Z.land (word t x y n) 0x000f = n.
Proof. rewrite land_15. unfold word. dlia. Qed.

Lemma word_low_byte : Z.land (word t x y n) 0x00ff = 16 * y + n.
Proof. rewrite land_255. unfold word. dlia. Qed.
End Fields.

(** ** Running monadic code *)

Ltac unfold_m :=
  unfold read_vx, write_vx, read_memory, write_memory, read_stack, write_stack,
    read_keys, write_keys, read_display, write_display, advance_pc, beep,
    index, store, get, modify, fail, mbind, M_bind, mret, M_ret.

Lemma bind_run {A B : Type} (m : M A) (k : A -> M B) s :
  (m ≫= k) s =
  match m s with
  | Done a s' => k a s'
  | Fault e s' => Fault e s'
  | Panic => Panic
  end.
Proof. reflexivity. Qed.

(** Decide the bounds check of a [store] that is in range. *)
Ltac in_range :=
  rewrite bool_decide_eq_true_2 by (rewrite ?length_insert; unfold VF; lia).

(** ** The ALU family *)

(** C2.  ADD Vx, Vy (8xy4), for all register indices including x = 0xF and
    all bytes a = Vx, b = Vy: the handler first stores (a+b) mod 256 into Vx
    and then, as its final register write, overwrites VF with the carry
    computed from a and b as they were before.  Hence VF ends as 1 iff
    a+b > 255, and Vx ends as (a+b) mod 256 unless Vx is VF itself. *)
Theorem op8xy4_add_carry s x y a b :
  wf s = true ->
  0 <= x < 16 -> 0 <= y < 16 ->
  opcode s = word 8 x y 4 ->
  vx s !! Z.to_nat x = Some a -> vx s !! Z.to_nat y = Some b ->
  0 <= a < 256 -> 0 <= b < 256 ->
  exists s',
    opHandler8 s = Done tt s' /\
    vx s' = <[Z.to_nat VF := carry a b]> (<[Z.to_nat x := (a + b) mod 256]> (vx s)) /\
    vx s' !! Z.to_nat VF = Some (carry a b) /\
    (carry a b = 1 <-> a + b > 255) /\
    (carry a b = 0 <-> ~ a + b > 255) /\
    (x <> VF -> vx s' !! Z.to_nat x = Some ((a + b) mod 256)).
Proof.
  intros Hwf Hx Hy Hop Ha Hb Hra Hrb.
  apply wf_elim in Hwf as (_ & _ & _ & Hvx & _).
  assert (Hsum : u8 (u16 (a + b)) = (a + b) mod 256) by dlia.
  assert (Hcmp : (255 <? u16 (a + b)) = (255 <? a + b)).
  { replace (u16 (a + b)) with (a + b) by dlia. reflexivity. }
  exists (set_pc (u16 (pc s + 2))
    (set_vx (<[Z.to_nat VF := carry a b]>
              (<[Z.to_nat x := (a + b) mod 256]> (vx s))) s)).
  split; [| split; [reflexivity | split; [| split; [| split]]]].
  - unfold opHandler8. unfold_m.
    rewrite Hop, word_low_nibble, word_x, word_y by lia. simpl.
    rewrite Ha, Hb. simpl. in_range. simpl.
    rewrite Hsum, Hcmp. unfold carry.
    destruct (255 <? a + b); simpl; in_range; reflexivity.
  - simpl. apply list_lookup_insert_eq. rewrite length_insert. unfold VF. lia.
  - unfold carry. destruct (Z.ltb_spec 255 (a + b)); split; (lia || discriminate).
  - unfold carry. destruct (Z.ltb_spec 255 (a + b)); split; (lia || discriminate).
  - intros Hne. simpl. rewrite list_lookup_insert_ne by (unfold VF in *; lia).
    apply list_lookup_insert_eq. lia.
Qed.

Lemma op8xy4_add_carry_witness :
  exists s',
    opHandler8 (with_regs 0x8F04 [100; 0; 0; 0; 0; 0; 0; 0; 0; 0; 0; 0; 0; 0; 0; 200])
      = Done tt s' /\
    vx s' !! Z.to_nat VF = Some 1.
Proof.
  destruct (op8xy4_add_carry
              (with_regs 0x8F04 [100; 0; 0; 0; 0; 0; 0; 0; 0; 0; 0; 0; 0; 0; 0; 200])
              15 0 200 100) as (s' & Hrun & _ & Hflag & _);
    [reflexivity | lia | lia | reflexivity | reflexivity | reflexivity | lia | lia |].
  exists s'. split; [exact Hrun | exact Hflag].
Defined.

(** C3.  SUB Vx, Vy (8xy5), for all bytes a = Vx and b = Vy: the handler
    stores (a-b) mod 256 into Vx and then sets VF to 1 iff a >= b (so also
    when a = b), else to 0.  With a=5, b=3 the flag is 1 and the result 2; with
    a=3, b=5 the flag is 0 and the result 254. *)
Theorem op8xy5_sub_not_borrow s x y a b :
  wf s = true ->
  0 <= x < 16 -> 0 <= y < 16 ->
  opcode s = word 8 x y 5 ->
  vx s !! Z.to_nat x = Some a -> vx s !! Z.to_nat y = Some b ->
  0 <= a < 256 -> 0 <= b < 256 ->
  exists s',
    opHandler8 s = Done tt s' /\
    vx s' = <[Z.to_nat VF := not_borrow a b]> (<[Z.to_nat x := (a - b) mod 256]> (vx s)) /\
    vx s' !! Z.to_nat VF = Some (not_borrow a b) /\
    (not_borrow a b = 1 <-> a >= b) /\
    (not_borrow a b = 0 <-> ~ a >= b) /\
    (x <> VF -> vx s' !! Z.to_nat x = Some ((a - b) mod 256)) /\
    (a = 5 -> b = 3 -> not_borrow a b = 1 /\ (a - b) mod 256 = 2) /\
    (a = 3 -> b = 5 -> not_borrow a b = 0 /\ (a - b) mod 256 = 254).
Proof.
  intros Hwf Hx Hy Hop Ha Hb Hra Hrb.
  apply wf_elim in Hwf as (_ & _ & _ & Hvx & _).
  exists (set_pc (u16 (pc s + 2))
    (set_vx (<[Z.to_nat VF := not_borrow a b]>
              (<[Z.to_nat x := (a - b) mod 256]> (vx s))) s)).
  split; [| split; [reflexivity | split; [| split; [| split; [| split; [| split]]]]]].
  - unfold opHandler8. unfold_m.
    rewrite Hop, word_low_nibble, word_x, word_y by lia. simpl.
    rewrite Ha, Hb. simpl. in_range. simpl. in_range. reflexivity.
  - simpl. apply list_lookup_insert_eq. rewrite length_insert. unfold VF. lia.
  - unfold not_borrow. destruct (Z.leb_spec b a); split; (lia || discriminate).
  - unfold not_borrow. destruct (Z.leb_spec b a); split; (lia || discriminate).
  - intros Hne. simpl. rewrite list_lookup_insert_ne by (unfold VF in *; lia).
    apply list_lookup_insert_eq. lia.
  - intros -> ->. split; reflexivity.
  - intros -> ->. split; reflexivity.
Qed.

Lemma op8xy5_sub_not_borrow_witness :
  exists s',
    opHandler8 (with_regs 0x8125 [0; 3; 5; 0; 0; 0; 0; 0; 0; 0; 0; 0; 0; 0; 0; 9])
      = Done tt s' /\
    vx s' !! Z.to_nat VF = Some 0 /\
    vx s' !! 1%nat = Some 254.
Proof.
  destruct (op8xy5_sub_not_borrow
              (with_regs 0x8125 [0; 3; 5; 0; 0; 0; 0; 0; 0; 0; 0; 0; 0; 0; 0; 9])
              1 2 3 5) as (s' & Hrun & _ & Hflag & _ & _ & Hres & _);
    [reflexivity | lia | lia | reflexivity | reflexivity | reflexivity | lia | lia |].
  exists s'. split; [exact Hrun | split; [exact Hflag |]].
  apply Hres. unfold VF. lia.
Defined.

(** ** Fetching *)

Lemma lor_bytes hi lo :
  0 <= hi < 256 -> 0 <= lo < 256 ->
  Z.lor (u16 (Z.shiftl hi 8)) lo = 256 * hi + lo.
Proof.
  intros Hhi Hlo.
  assert (Hsh : u16 (Z.shiftl hi 8) = hi * 2 ^ 8).
  { rewrite Z.shiftl_mul_pow2 by lia. dlia. }
  rewrite Hsh.
  assert (Hdisj : Z.land (hi * 2 ^ 8) lo = 0).
  { apply Z.bits_inj'. intros k Hk. rewrite Z.land_spec, Z.bits_0.
    destruct (Z.lt_ge_cases k 8) as [Hlt | Hge].
    - rewrite Z.mul_pow2_bits_low by lia. reflexivity.
    - replace lo with (lo mod 2 ^ 8) by (apply Z.mod_small; lia).
      rewrite Z.mod_pow2_bits_high by lia. apply andb_false_r. }
  rewrite <- Z.lxor_lor by exact Hdisj.
  rewrite <- Z.add_nocarry_lxor by exact Hdisj. lia.
Qed.

Lemma Cycle_split rnd s : Cycle rnd s = (fetch_execute rnd;; timers) s.
Proof.
  unfold Cycle, fetch_execute, timers. unfold_m. cbn beta iota.
  repeat case_match; try reflexivity; congruence.
Qed.

Lemma fetch_execute_word rnd s t x y n (handler : M unit) :
  wf s = true ->
  0 <= t < 16 -> 0 <= x < 16 -> 0 <= y < 16 -> 0 <= n < 16 ->
  memory s !! Z.to_nat (pc s) = Some (16 * t + x) ->
  memory s !! Z.to_nat (pc s + 1) = Some (16 * y + n) ->
  dispatch rnd !! Z.to_nat t = Some handler ->
  fetch_execute rnd s = handler (set_opcode (word t x y n) s).
Proof.
  intros Hwf Ht Hx Hy Hn Hhi Hlo Hh.
  apply wf_elim in Hwf as (Hpc & _ & _ & _ & _ & Hmem & _).
  assert (Hnext : u16 (pc s + 1) = pc s + 1).
  { apply lookup_lt_Some in Hlo. dlia. }
  unfold fetch_execute. unfold_m. cbn beta iota.
  rewrite Hhi, Hnext, Hlo. cbn beta iota.
  change (opcode (set_opcode ?w s)) with w.
  rewrite lor_bytes by lia.
  replace (256 * (16 * t + x) + (16 * y + n)) with (word t x y n)
    by (unfold word; lia).
  rewrite word_family by lia. rewrite Hh. reflexivity.
Qed.

(** The timer part always returns, and touches nothing but the two timers,
    the cycle counter and the sound bookkeeping. *)
Lemma timers_frame s :
  exists s',
    timers s = Done tt s' /\
    pc s' = pc s /\ sp s' = sp s /\ vx s' = vx s /\ i s' = i s /\
    stack s' = stack s /\ memory s' = memory s /\ display s' = display s /\
    keys s' = keys s /\ lastReleasedKey s' = lastReleasedKey s /\
    opcode s' = opcode s.
Proof.
  unfold timers. unfold_m. simpl.
  repeat match goal with
         | |- context [if ?b then _ else _] => destruct b; simpl
         end;
    eexists; (split; [reflexivity |]); simpl; tauto.
Qed.

Lemma timers_wf s : wf s = true -> forall s', timers s = Done tt s' -> wf s' = true.
Proof.
  intros Hwf s' Hrun.
  destruct (timers_frame s) as (s1 & Hs1 & Hpc & Hsp & Hvx & Hi & Hst & Hm & Hd & Hk & _).
  assert (s1 = s') by congruence. subst s1.
  unfold wf in *. by rewrite Hpc, Hsp, Hvx, Hi, Hst, Hm, Hd, Hk.
Qed.

(** ** Unknown encodings *)


Lemma opHandler5_unknown s :
  Z.land (opcode s) 0x000f <> 0 -> opHandler5 s = Fault ErrUnknownOpcode s.
Proof.
  intros H1. unfold opHandler5. unfold_m. simpl.
  apply Z.eqb_neq in H1. by rewrite H1.
Qed.

Lemma opHandler8_unknown s :
  ~ 0 <= Z.land (opcode s) 0x000f <= 7 -> Z.land (opcode s) 0x000f <> 0xE ->
  opHandler8 s = Fault ErrUnknownOpcode s.
Proof.
  intros H1 H2. unfold opHandler8. unfold_m. simpl.
  repeat (rewrite (proj2 (Z.eqb_neq _ _)) by lia). reflexivity.
Qed.


(** Family E is the one family that has already moved the program counter
    when it finds the encoding unknown. *)
Lemma opHandlerE_unknown s :
  Z.land (opcode s) 0x00ff <> 0x009e -> Z.land (opcode s) 0x00ff <> 0x00a1 ->
  opHandlerE s = Fault ErrUnknownOpcode (set_pc (u16 (pc s + 2)) s).
Proof.
  intros H1 H2. unfold opHandlerE. unfold_m. simpl.
  apply Z.eqb_neq in H1, H2. by rewrite H1, H2.
Qed.

(** A cycle whose handler returns an error returns that error at once, with
    the state as the handler left it: the timer part is skipped. *)
Lemma Cycle_handler_fault rnd s t x y n (handler : M unit) e s1 :
  wf s = true ->
  0 <= t < 16 -> 0 <= x < 16 -> 0 <= y < 16 -> 0 <= n < 16 ->
  memory s !! Z.to_nat (pc s) = Some (16 * t + x) ->
  memory s !! Z.to_nat (pc s + 1) = Some (16 * y + n) ->
  dispatch rnd !! Z.to_nat t = Some handler ->
  handler (set_opcode (word t x y n) s) = Fault e s1 ->
  Cycle rnd s = Fault e s1.
Proof.
  intros Hwf Ht Hx Hy Hn Hhi Hlo Hh Hrun.
  rewrite Cycle_split, bind_run.
  rewrite (fetch_execute_word rnd s t x y n handler) by assumption.
  by rewrite Hrun.
Qed.

(** Under [Cycle], an unknown word of family 8 leaves everything as it was
    but for the fetched word itself, kept in [opcode]. *)
Lemma Cycle_unknown_8 rnd s x y n :
  wf s = true -> 0 <= x < 16 -> 0 <= y < 16 -> 8 <= n < 16 -> n <> 14 ->
  memory s !! Z.to_nat (pc s) = Some (0x80 + x) ->
  memory s !! Z.to_nat (pc s + 1) = Some (16 * y + n) ->
  Cycle rnd s = Fault ErrUnknownOpcode (set_opcode (word 8 x y n) s).
Proof.
  intros Hwf Hx Hy Hn Hn' Hhi Hlo.
  apply (Cycle_handler_fault rnd s 8 x y n opHandler8); try assumption; try lia;
    try reflexivity.
  apply (opHandler8_unknown (set_opcode (word 8 x y n) s));
    simpl; rewrite word_low_nibble by lia; lia.
Qed.

(** Under [Cycle], an unknown word of family E leaves the program counter
    advanced by 2 as well. *)
Lemma Cycle_unknown_E rnd s x y n :
  wf s = true -> 0 <= x < 16 -> 0 <= y < 16 -> 0 <= n < 16 ->
  16 * y + n <> 0x9e -> 16 * y + n <> 0xa1 ->
  memory s !! Z.to_nat (pc s) = Some (0xE0 + x) ->
  memory s !! Z.to_nat (pc s + 1) = Some (16 * y + n) ->
  Cycle rnd s =
    Fault ErrUnknownOpcode (set_pc (u16 (pc s + 2)) (set_opcode (word 14 x y n) s)).
Proof.
  intros Hwf Hx Hy Hn H1 H2 Hhi Hlo.
  apply (Cycle_handler_fault rnd s 14 x y n opHandlerE); try assumption; try lia;
    try reflexivity.
  apply (opHandlerE_unknown (set_opcode (word 14 x y n) s));
    simpl; rewrite word_low_byte by lia; lia.
Qed.

(** C1.  The word 0xE000 matches no encoding of family E.  Fetched at 0x200
    it makes [Cycle] return the unknown-opcode error, but with the program
    counter already advanced to 0x202; the unknown word 0x8008 of family 8,
    fetched at the same place, returns the error with the program counter
    still 0x200. *)
Theorem unknown_opcode_family_E_moves_pc :
  (exists s', Cycle 0 (Load [0xE0; 0x00] NewInterpreter) = Fault ErrUnknownOpcode s' /\
              pc (Load [0xE0; 0x00] NewInterpreter) = 0x200 /\ pc s' = 0x202) /\
  (exists s', Cycle 0 (Load [0x80; 0x08] NewInterpreter) = Fault ErrUnknownOpcode s' /\
              pc (Load [0x80; 0x08] NewInterpreter) = 0x200 /\ pc s' = 0x200).
Proof.
  split; eexists; (split; [vm_compute; reflexivity | split; reflexivity]).
Qed.

Lemma wf_set_opcode w s : wf (set_opcode w s) = wf s.
Proof. reflexivity. Qed.

(** A cycle whose handler returns normally is that handler followed by the
    timer part. *)
Lemma Cycle_handler rnd s t x y n (handler : M unit) s1 :
  wf s = true ->
  0 <= t < 16 -> 0 <= x < 16 -> 0 <= y < 16 -> 0 <= n < 16 ->
  memory s !! Z.to_nat (pc s) = Some (16 * t + x) ->
  memory s !! Z.to_nat (pc s + 1) = Some (16 * y + n) ->
  dispatch rnd !! Z.to_nat t = Some handler ->
  handler (set_opcode (word t x y n) s) = Done tt s1 ->
  Cycle rnd s = timers s1.
Proof.
  intros Hwf Ht Hx Hy Hn Hhi Hlo Hh Hrun.
  rewrite Cycle_split. unfold mbind, M_bind.
  rewrite (fetch_execute_word rnd s t x y n handler) by assumption.
  by rewrite Hrun.
Qed.

(** ** Waiting for a key release *)

Lemma opHandlerF_wait_blocked s x :
  0 <= x < 16 -> opcode s = word 15 x 0 10 -> lastReleasedKey s = None ->
  opHandlerF s = Done tt s.
Proof.
  intros Hx Hop Hnone. unfold opHandlerF. unfold_m.
  rewrite Hop, word_low_byte by lia. simpl. by rewrite Hnone.
Qed.

Lemma opHandlerF_wait_released s x key :
  wf s = true ->
  0 <= x < 16 -> opcode s = word 15 x 0 10 -> lastReleasedKey s = Some key ->
  opHandlerF s =
    Done tt (set_pc (u16 (pc s + 2))
              (set_lastReleasedKey None
                (set_vx (<[Z.to_nat x := key]> (vx s)) s))).
Proof.
  intros Hwf Hx Hop Hkey.
  apply wf_elim in Hwf as (_ & _ & _ & Hvx & _).
  unfold opHandlerF. unfold_m.
  rewrite Hop, word_low_byte, word_x by lia. simpl. rewrite Hkey. simpl.
  in_range. reflexivity.
Qed.

Lemma fx0a_blocked_cycle rnd s x :
  wf s = true -> 0 <= x < 16 ->
  memory s !! Z.to_nat (pc s) = Some (0xF0 + x) ->
  memory s !! Z.to_nat (pc s + 1) = Some 0x0A ->
  lastReleasedKey s = None ->
  exists s',
    Cycle rnd s = Done tt s' /\ wf s' = true /\
    pc s' = pc s /\ sp s' = sp s /\ vx s' = vx s /\ i s' = i s /\
    stack s' = stack s /\ memory s' = memory s /\ display s' = display s /\
    keys s' = keys s /\ lastReleasedKey s' = None.
Proof.
  intros Hwf Hx Hhi Hlo Hnone.
  destruct (timers_frame (set_opcode (word 15 x 0 10) s))
    as (s' & Hrun & Hpc & Hsp & Hvx & Hi & Hst & Hm & Hd & Hk & Hl & _).
  exists s'. split.
  - rewrite <- Hrun.
    apply (Cycle_handler rnd s 15 x 0 10 opHandlerF); try assumption; try lia;
      try reflexivity.
    by apply (opHandlerF_wait_blocked _ x).
  - split; [by apply (timers_wf (set_opcode (word 15 x 0 10) s)) |].
    simpl in *. rewrite Hl. tauto.
Qed.

(** C5.  LD Vx, K (Fx0A) under [Cycle].  While no key release is pending,
    any number of cycles leaves the program counter, the registers and the
    memory as they are, so each cycle fetches the same instruction again.
    With a released key pending, one cycle stores the key's code in Vx, clears
    the marker and advances the program counter by 2. *)
Theorem fx0a_waits_for_key_release s x :
  wf s = true -> 0 <= x < 16 ->
  memory s !! Z.to_nat (pc s) = Some (0xF0 + x) ->
  memory s !! Z.to_nat (pc s + 1) = Some 0x0A ->
  (lastReleasedKey s = None ->
   forall rnds, exists s',
     Cycles rnds s = Done tt s' /\
     pc s' = pc s /\ vx s' = vx s /\ i s' = i s /\ sp s' = sp s /\
     stack s' = stack s /\ memory s' = memory s /\
     lastReleasedKey s' = None) /\
  (forall key, lastReleasedKey s = Some key ->
   forall rnd, exists s',
     Cycle rnd s = Done tt s' /\
     vx s' = <[Z.to_nat x := key]> (vx s) /\
     vx s' !! Z.to_nat x = Some key /\
     lastReleasedKey s' = None /\
     pc s' = pc s + 2).
Proof.
  intros Hwf Hx Hhi Hlo. split.
  - intros Hnone rnds. revert s Hwf Hhi Hlo Hnone.
    induction rnds as [| rnd rnds IH]; intros s Hwf Hhi Hlo Hnone.
    + exists s. repeat split; (reflexivity || assumption).
    + destruct (fx0a_blocked_cycle rnd s x Hwf Hx Hhi Hlo Hnone)
        as (s1 & Hrun & Hwf1 & Hpc & Hsp & Hvx & Hi & Hst & Hm & _ & _ & Hl).
      destruct (IH s1)
        as (s' & Hrun' & Hpc' & Hvx' & Hi' & Hsp' & Hst' & Hm' & Hl');
        try assumption; try (by rewrite Hm, Hpc).
      exists s'. split.
      * simpl. unfold mbind, M_bind. by rewrite Hrun.
      * repeat split; congruence.
  - intros key Hkey rnd.
    pose proof (wf_elim s Hwf) as (Hpc & _ & _ & Hvx & _ & Hmem & _).
    destruct (timers_frame
                (set_pc (u16 (pc s + 2))
                  (set_lastReleasedKey None
                    (set_vx (<[Z.to_nat x := key]> (vx (set_opcode (word 15 x 0 10) s)))
                      (set_opcode (word 15 x 0 10) s)))))
      as (s' & Hrun & Hpc' & _ & Hvx' & _ & _ & _ & _ & _ & Hl & _).
    exists s'. split; [| split; [| split; [| split]]].
    + rewrite <- Hrun.
      apply (Cycle_handler rnd s 15 x 0 10 opHandlerF); try assumption; try lia;
        try reflexivity.
      exact (opHandlerF_wait_released (set_opcode (word 15 x 0 10) s) x key
               Hwf Hx eq_refl Hkey).
    + exact Hvx'.
    + rewrite Hvx'. simpl. apply list_lookup_insert_eq. lia.
    + exact Hl.
    + rewrite Hpc'. simpl. apply lookup_lt_Some in Hlo. dlia.
Qed.

Lemma fx0a_waits_for_key_release_witness :
  (exists s', Cycles [0; 0; 0] wait_machine = Done tt s' /\ pc s' = 0x200) /\
  (exists s', Cycle 0 (set_lastReleasedKey (Some 7) wait_machine) = Done tt s' /\
              vx s' !! 3%nat = Some 7 /\ lastReleasedKey s' = None /\ pc s' = 0x202).
Proof.
  split.
  - destruct (fx0a_waits_for_key_release wait_machine 3) as [Hblocked _];
      [reflexivity | lia | reflexivity | reflexivity |].
    destruct (Hblocked eq_refl [0; 0; 0]) as (s' & Hrun & Hpc & _).
    exists s'. split; [exact Hrun | exact Hpc].
  - destruct (fx0a_waits_for_key_release (set_lastReleasedKey (Some 7) wait_machine) 3)
      as [_ Hreleased]; [reflexivity | lia | reflexivity | reflexivity |].
    destruct (Hreleased 7 eq_refl 0) as (s' & Hrun & _ & Hvx & Hl & Hpc).
    exists s'. split; [exact Hrun | split; [exact Hvx | split; [exact Hl | exact Hpc]]].
Defined.

(** ** Subroutines *)

Lemma wf_intro s :
  0 <= pc s < 65536 -> 0 <= sp s < 65536 -> 0 <= i s < 65536 ->
  length (vx s) = 16%nat -> length (stack s) = 16%nat ->
  length (memory s) = 4096%nat -> length (keys s) = 16%nat ->
  length (display s) = 32%nat ->
  (forall r row, display s !! r = Some row -> length row = 64%nat) ->
  wf s = true.
Proof.
  intros Hpc Hsp Hi Hvx Hst Hm Hk Hd Hrows. unfold wf.
  rewrite Hvx, Hst, Hm, Hk, Hd.
  repeat (apply andb_true_intro; split); try reflexivity;
    try (apply Z.leb_le; lia); try (apply Z.ltb_lt; lia).
  apply forallb_forall. intros row Hin. apply Nat.eqb_eq.
  apply list_elem_of_In, list_elem_of_lookup_1 in Hin as [r Hr]. eauto.
Qed.

Lemma opHandler2_run s :
  wf s = true -> sp s < 16 ->
  opHandler2 s =
    Done tt (set_pc (Op.addr (opcode s))
              (set_sp (u16 (sp s + 1))
                (set_stack (<[Z.to_nat (sp s) := pc s]> (stack s)) s))).
Proof.
  intros Hwf Hsp. apply wf_elim in Hwf as (_ & Hsp0 & _ & _ & Hst & _).
  unfold opHandler2. unfold_m. simpl. in_range. reflexivity.
Qed.

Lemma opHandler0_ret_run s ra :
  Z.land (opcode s) 0x00ff = 0x00ee ->
  1 <= sp s <= 16 ->
  stack s !! Z.to_nat (sp s - 1) = Some ra ->
  opHandler0 s = Done tt (set_pc (u16 (ra + 2)) (set_sp (sp s - 1) s)).
Proof.
  intros Hop Hsp Hra.
  assert (Hdec : u16 (sp s - 1) = sp s - 1) by dlia.
  unfold opHandler0. unfold_m. simpl. rewrite Hop. simpl.
  rewrite Hdec, Hra. reflexivity.
Qed.

(** C6.  CALL addr (2nnn) followed at once by RET (00EE), under [Cycle], from
    any state with stack pointer below 16: the call pushes the address of the
    CALL itself and jumps; the return leaves the program counter at the
    address after the CALL (old PC + 2) and the stack pointer at its value
    before the call. *)
Theorem call_then_ret_round_trip s x y n r1 r2 :
  wf s = true -> sp s < 16 ->
  0 <= x < 16 -> 0 <= y < 16 -> 0 <= n < 16 ->
  memory s !! Z.to_nat (pc s) = Some (0x20 + x) ->
  memory s !! Z.to_nat (pc s + 1) = Some (16 * y + n) ->
  memory s !! Z.to_nat (256 * x + 16 * y + n) = Some 0x00 ->
  memory s !! Z.to_nat (256 * x + 16 * y + n + 1) = Some 0xEE ->
  exists s1 s2,
    Cycle r1 s = Done tt s1 /\
    pc s1 = 256 * x + 16 * y + n /\ sp s1 = sp s + 1 /\
    stack s1 !! Z.to_nat (sp s) = Some (pc s) /\
    Cycle r2 s1 = Done tt s2 /\
    pc s2 = pc s + 2 /\ sp s2 = sp s.
Proof.
  intros Hwf Hsp Hx Hy Hn Hhi Hlo Hhi' Hlo'.
  pose proof (wf_elim s Hwf) as (Hpc & Hsp0 & Hi & Hvx & Hst & Hmem & Hk & Hd & Hrows).
  set (w := word 2 x y n).
  set (h1 := set_pc (Op.addr w)
               (set_sp (u16 (sp s + 1))
                 (set_stack (<[Z.to_nat (sp s) := pc s]> (stack s)) (set_opcode w s)))).
  assert (Haddr : Op.addr w = 256 * x + 16 * y + n) by (apply word_addr; lia).
  assert (Hinc : u16 (sp s + 1) = sp s + 1) by dlia.
  assert (Hwf1 : wf h1 = true).
  { apply wf_intro; simpl; rewrite ?length_insert; try assumption; try lia. }
  destruct (timers_frame h1)
    as (s1 & Hrun1 & Hpc1 & Hsp1 & Hvx1 & Hi1 & Hst1 & Hm1 & Hd1 & Hk1 & Hl1 & Hop1).
  assert (Hwfs1 : wf s1 = true) by (by apply (timers_wf h1)).
  simpl in Hpc1, Hsp1, Hst1, Hm1.
  rewrite Haddr in Hpc1. rewrite Hinc in Hsp1.
  set (h2 := set_pc (u16 (pc s + 2))
               (set_sp (sp (set_opcode (word 0 0 14 14) s1) - 1)
                 (set_opcode (word 0 0 14 14) s1))).
  destruct (timers_frame h2) as (s2 & Hrun2 & Hpc2 & Hsp2 & _).
  exists s1, s2. split; [| split; [| split; [| split; [| split; [| split]]]]].
  - rewrite <- Hrun1.
    apply (Cycle_handler r1 s 2 x y n opHandler2); try assumption; try lia;
      try reflexivity.
    exact (opHandler2_run (set_opcode w s) Hwf Hsp).
  - exact Hpc1.
  - exact Hsp1.
  - rewrite Hst1. apply list_lookup_insert_eq. lia.
  - rewrite <- Hrun2.
    apply (Cycle_handler r2 s1 0 0 14 14 opHandler0); try assumption; try lia;
      try reflexivity.
    + rewrite Hm1, Hpc1. exact Hhi'.
    + rewrite Hm1, Hpc1. exact Hlo'.
    + apply opHandler0_ret_run.
      * apply word_low_byte; lia.
      * simpl. lia.
      * simpl. rewrite Hst1, Hsp1.
        replace (sp s + 1 - 1) with (sp s) by lia.
        apply list_lookup_insert_eq. lia.
  - rewrite Hpc2. simpl. apply lookup_lt_Some in Hlo. dlia.
  - rewrite Hsp2. simpl. lia.
Qed.

Lemma call_then_ret_round_trip_witness :
  exists s1 s2,
    Cycle 0 call_machine = Done tt s1 /\
    pc s1 = 0x204 /\ sp s1 = 1 /\
    stack s1 !! 0%nat = Some 0x200 /\
    Cycle 0 s1 = Done tt s2 /\
    pc s2 = 0x202 /\ sp s2 = 0.
Proof.
  apply (call_then_ret_round_trip call_machine 2 0 4 0 0);
    first [reflexivity | lia].
Defined.

(** C7, as the code has it.  RET (00EE) decrements the stack pointer and sets
    the program counter to the value of the popped slot plus 2 (on 16 bits):
    the slot holds the address of the CALL instruction itself, and the
    handler's final PC increment steps over it. *)
Theorem ret_pops_slot_plus_two s ra :
  Z.land (opcode s) 0x00ff = 0x00ee ->
  1 <= sp s <= 16 ->
  stack s !! Z.to_nat (sp s - 1) = Some ra ->
  exists s',
    opHandler0 s = Done tt s' /\
    sp s' = sp s - 1 /\
    pc s' = (ra + 2) mod 65536 /\
    stack s' = stack s.
Proof.
  intros Hop Hsp Hra. eexists. split.
  - by apply opHandler0_ret_run.
  - repeat split.
Qed.

Lemma ret_pops_slot_plus_two_witness :
  exists s',
    opHandler0 (set_opcode 0x00EE (set_sp 1 (set_stack [0x300] NewInterpreter)))
      = Done tt s' /\
    sp s' = 0 /\ pc s' = 0x302 /\ stack s' = [0x300].
Proof.
  apply (ret_pops_slot_plus_two
           (set_opcode 0x00EE (set_sp 1 (set_stack [0x300] NewInterpreter))) 0x300);
    first [reflexivity | simpl; lia].
Defined.

(** C7 as stated fails: after [CALL 0x204] the popped slot holds 0x200, and
    the RET at 0x204 leaves the program counter at 0x202, not 0x200. *)
Lemma ret_pc_is_not_the_slot_value :
  exists s1 s2,
    Cycle 0 call_machine = Done tt s1 /\
    stack s1 !! Z.to_nat (sp s1 - 1) = Some 0x200 /\
    opcode_is_ret s1 /\
    Cycle 0 s1 = Done tt s2 /\
    sp s2 = sp s1 - 1 /\
    pc s2 = 0x202 /\ pc s2 <> 0x200.
Proof.
  do 2 eexists. split; [vm_compute; reflexivity |].
  split; [reflexivity |]. split; [split; reflexivity |].
  split; [vm_compute; reflexivity |].
  split; [reflexivity |]. split; [reflexivity | discriminate].
Qed.

(** ** The keypad *)

(** C8, as the code has it.  [SetKeyState (key, false)] records [key] as the
    last released key whatever the key's state was before, also when it was
    already up; [SetKeyState (key, true)] leaves the marker alone. *)
Theorem SetKeyState_marks_every_release s key :
  wf s = true -> 0 <= key < 16 ->
  (exists s',
     SetKeyState key false s = Done tt s' /\
     keys s' = <[Z.to_nat key := false]> (keys s) /\
     lastReleasedKey s' = Some key) /\
  (exists s',
     SetKeyState key true s = Done tt s' /\
     keys s' = <[Z.to_nat key := true]> (keys s) /\
     lastReleasedKey s' = lastReleasedKey s).
Proof.
  intros Hwf Hkey.
  apply wf_elim in Hwf as (_ & _ & _ & _ & _ & _ & Hk & _).
  split; eexists;
    (split; [unfold SetKeyState; unfold_m; simpl; in_range; reflexivity |]);
    split; reflexivity.
Qed.

Lemma SetKeyState_marks_every_release_witness :
  (exists s',
     SetKeyState 3 false NewInterpreter = Done tt s' /\
     keys s' = <[3%nat := false]> (keys NewInterpreter) /\
     lastReleasedKey s' = Some 3) /\
  (exists s',
     SetKeyState 3 true NewInterpreter = Done tt s' /\
     keys s' = <[3%nat := true]> (keys NewInterpreter) /\
     lastReleasedKey s' = lastReleasedKey NewInterpreter).
Proof.
  apply (SetKeyState_marks_every_release NewInterpreter 3); [reflexivity | lia].
Defined.

(** C8 as stated fails: on a fresh machine key 3 is up and no release is
    recorded; [SetKeyState (3, false)] on the key that is already up records
    key 3 as released. *)
Lemma release_of_up_key_sets_marker :
  exists s',
    keys NewInterpreter !! 3%nat = Some false /\
    lastReleasedKey NewInterpreter = None /\
    SetKeyState 3 false NewInterpreter = Done tt s' /\
    lastReleasedKey s' = Some 3 /\
    lastReleasedKey s' <> lastReleasedKey NewInterpreter.
Proof.
  eexists. split; [reflexivity |]. split; [reflexivity |].
  split; [vm_compute; reflexivity |]. split; [reflexivity | discriminate].
Qed.

(** ** Loops *)

Lemma for_each_app {A : Type} (body : A -> M unit) l1 l2 s :
  for_each body (l1 ++ l2) s = (for_each body l1;; for_each body l2) s.
Proof.
  revert s. induction l1 as [| k l1 IH]; intros s; [reflexivity |].
  simpl. unfold mbind, M_bind in *. destruct (body k s); try reflexivity. apply IH.
Qed.

Lemma for_each_fmap {A B : Type} (body : B -> M unit) (g : A -> B) l s :
  for_each body (g <$> l) s = for_each (fun k => body (g k)) l s.
Proof.
  revert s. induction l as [| k l IH]; intros s; [reflexivity |].
  simpl. unfold mbind, M_bind in *. destruct (body (g k) s); try reflexivity. apply IH.
Qed.

(** Two nested loops run their body over the pairs in lexicographic order. *)
Lemma for_each_nested (body : Z -> Z -> M unit) rows cols s :
  for_each (fun y => for_each (fun x => body y x) cols) rows s =
  for_each (fun p => body p.1 p.2) (rows ≫= (fun y => pair y <$> cols)) s.
Proof.
  revert s. induction rows as [| y rows IH]; intros s; [reflexivity |].
  csimpl. rewrite for_each_app, !bind_run, for_each_fmap. simpl.
  destruct (for_each (fun x => body y x) cols s); try reflexivity. apply IH.
Qed.

(** ** Drawing *)

Lemma sprite_bit_cases b col : sprite_bit b col = 0 \/ sprite_bit b col = 1.
Proof.
  unfold sprite_bit. rewrite (Z.land_ones _ 1) by lia. change (2 ^ 1) with 2. dlia.
Qed.

Lemma grid_lookup d r :
  grid d -> 0 <= r < 32 -> exists row, d !! Z.to_nat r = Some row /\ length row = 64%nat.
Proof.
  intros [Hlen Hrows] Hr.
  destruct (lookup_lt_is_Some_2 d (Z.to_nat r)) as [row Hrow]; [lia |].
  exists row. split; [exact Hrow |].
  by apply (proj1 (Forall_lookup _ _) Hrows (Z.to_nat r)).
Qed.

Lemma cell_pixel d r c :
  grid d -> 0 <= r < 32 -> 0 <= c < 64 -> cell d r c = Some (pixel d r c).
Proof.
  intros Hg Hr Hc. destruct (grid_lookup d r Hg Hr) as (row & Hrow & Hlen).
  unfold pixel, cell. rewrite Hrow. simpl.
  destruct (lookup_lt_is_Some_2 row (Z.to_nat c)) as [v Hv]; [lia |].
  by rewrite Hv.
Qed.

Lemma grid_update d r c v : grid d -> grid (update d r c v).
Proof.
  intros [Hlen Hrows]. unfold update.
  destruct (d !! Z.to_nat r) as [row |] eqn:Hrow; [| by split].
  split; [by rewrite length_insert |].
  apply Forall_insert; [exact Hrows |]. rewrite length_insert.
  by apply (proj1 (Forall_lookup _ _) Hrows (Z.to_nat r)).
Qed.

Lemma pixel_update_eq d r c v :
  grid d -> 0 <= r < 32 -> 0 <= c < 64 -> pixel (update d r c v) r c = v.
Proof.
  intros Hg Hr Hc. destruct (grid_lookup d r Hg Hr) as (row & Hrow & Hlen).
  destruct Hg as [Hd _].
  unfold pixel, cell, update. rewrite Hrow.
  rewrite list_lookup_insert_eq by lia. simpl.
  rewrite list_lookup_insert_eq by lia. reflexivity.
Qed.

Lemma pixel_update_ne d r c v r' c' :
  0 <= r -> 0 <= c -> 0 <= r' -> 0 <= c' -> (r', c') <> (r, c) ->
  pixel (update d r c v) r' c' = pixel d r' c'.
Proof.
  intros Hr Hc Hr' Hc' Hne. unfold pixel, cell, update.
  destruct (d !! Z.to_nat r) as [row |] eqn:Hrow; [| reflexivity].
  destruct (decide (r' = r)) as [-> | Hrr].
  - assert (c' <> c) by congruence.
    destruct (decide (Z.to_nat r < length d)%nat).
    + rewrite list_lookup_insert_eq by lia. rewrite Hrow. simpl.
      rewrite list_lookup_insert_ne by lia. reflexivity.
    + rewrite list_insert_ge by lia. reflexivity.
  - rewrite list_lookup_insert_ne by lia. reflexivity.
Qed.

Lemma read_display_run s r c :
  grid (display s) -> 0 <= r < 32 -> 0 <= c < 64 ->
  read_display r c s = Done (pixel (display s) r c) s.
Proof.
  intros Hg Hr Hc. pose proof (cell_pixel _ r c Hg Hr Hc) as Hcell.
  unfold cell in Hcell. unfold read_display. unfold_m. simpl.
  destruct (display s !! Z.to_nat r) as [row |]; [| discriminate].
  simpl in *. by rewrite Hcell.
Qed.

Lemma write_display_run s r c v :
  grid (display s) -> 0 <= r < 32 -> 0 <= c < 64 ->
  write_display r c v s = Done tt (set_display (update (display s) r c v) s).
Proof.
  intros Hg Hr Hc. destruct (grid_lookup _ r Hg Hr) as (row & Hrow & Hlen).
  destruct Hg as [Hd _].
  unfold write_display, update. unfold_m. simpl. rewrite Hrow. simpl.
  in_range. simpl. in_range. reflexivity.
Qed.

(** The state after one pass of the inner loop body. *)
Lemma draw_pixel_run s sx sy y x :
  grid (display s) -> length (vx s) = 16%nat ->
  0 <= sx < 256 -> 0 <= sy < 256 -> 0 <= y < 16 -> 0 <= x < 8 ->
  length (memory s) = 4096%nat -> 0 <= i s -> i s + y < 4096 ->
  let r := (pos sx sy (y, x)).1 in
  let c := (pos sx sy (y, x)).2 in
  let new := Z.lxor (pixel (display s) r c)
               (sprite_bit (byte_at (memory s) (i s + y)) x) in
  let s1 := set_display (update (display s) r c new) s in
  draw_pixel sx sy y x s =
    Done tt (if collides (display s) (memory s) (i s) sx sy (y, x)
             then set_vx (<[Z.to_nat VF := 1]> (vx s)) s1 else s1).
Proof.
  intros Hg Hvx Hsx Hsy Hy Hx Hlen Hi Hmem r c new s1.
  assert (Hr : u8 (sy + y) mod DisplayHeight = r)
    by (unfold r, pos, DisplayHeight; simpl; dlia).
  assert (Hc : u8 (sx + x) mod DisplayWidth = c)
    by (unfold c, pos, DisplayWidth; simpl; dlia).
  assert (Hrr : 0 <= r < 32) by (unfold r, pos; simpl; dlia).
  assert (Hcr : 0 <= c < 64) by (unfold c, pos; simpl; dlia).
  assert (Ha : u16 (i s + y) = i s + y) by dlia.
  destruct (lookup_lt_is_Some_2 (memory s) (Z.to_nat (i s + y))) as [b Hb]; [lia |].
  assert (Hbyte : byte_at (memory s) (i s + y) = b) by (unfold byte_at; by rewrite Hb).
  unfold draw_pixel. rewrite Hr, Hc, !bind_run.
  rewrite read_display_run by assumption.
  unfold get at 1. rewrite !bind_run. unfold read_memory, get at 1. rewrite !bind_run.
  unfold index. rewrite Ha, Hb, bind_run.
  rewrite write_display_run by assumption.
  fold (sprite_bit b x). rewrite <- Hbyte. fold new. fold s1.
  assert (Hcol : (pixel (display s) r c =? 1) && (new =? 0) =
                 collides (display s) (memory s) (i s) sx sy (y, x)).
  { unfold collides. fold r c. simpl. unfold new.
    destruct (Z.eqb_spec (pixel (display s) r c) 1) as [-> | _]; [| reflexivity].
    destruct (sprite_bit_cases (byte_at (memory s) (i s + y)) x) as [-> | ->];
      reflexivity. }
  rewrite Hcol. destruct (collides _ _ _ _ _ _); [| reflexivity].
  unfold write_vx. unfold_m. simpl. in_range. reflexivity.
Qed.

Lemma existsb_agree {A : Type} (f g : A -> bool) (l : list A) :
  (forall a, a ∈ l -> f a = g a) -> existsb f l = existsb g l.
Proof.
  intros Hfg. induction l as [| a l IH]; [reflexivity |].
  simpl. rewrite Hfg by constructor. f_equal. apply IH.
  intros b Hb. apply Hfg. by constructor.
Qed.

Lemma pos_range sx sy p :
  0 <= (pos sx sy p).1 < 32 /\ 0 <= (pos sx sy p).2 < 64.
Proof. unfold pos. simpl. dlia. Qed.

(** The sprite loop over pixels that land on pairwise distinct cells: every
    such cell is XORed once with its sprite bit, all other cells keep their
    value, and VF is set iff one of the pixels erased a set cell. *)
Lemma draw_loop sx sy ps :
  0 <= sx < 256 -> 0 <= sy < 256 ->
  NoDup (pos sx sy <$> ps) ->
  forall s,
    grid (display s) -> length (vx s) = 16%nat ->
    length (memory s) = 4096%nat -> 0 <= i s ->
    (forall p, p ∈ ps -> 0 <= p.1 < 16 /\ 0 <= p.2 < 8 /\ i s + p.1 < 4096) ->
    exists s',
      for_each (fun p => draw_pixel sx sy p.1 p.2) ps s = Done tt s' /\
      s' = set_vx (vx s') (set_display (display s') s) /\
      grid (display s') /\
      vx s' = (if existsb (collides (display s) (memory s) (i s) sx sy) ps
               then <[Z.to_nat VF := 1]> (vx s) else vx s) /\
      (forall p, p ∈ ps ->
         pixel (display s') (pos sx sy p).1 (pos sx sy p).2 =
         Z.lxor (pixel (display s) (pos sx sy p).1 (pos sx sy p).2)
                (sprite_bit (byte_at (memory s) (i s + p.1)) p.2)) /\
      (forall r c, 0 <= r -> 0 <= c -> (r, c) ∉ pos sx sy <$> ps ->
         pixel (display s') r c = pixel (display s) r c).
Proof.
  intros Hsx Hsy. induction ps as [| p ps IH]; intros Hnd s Hg Hvx Hlen Hi Hps.
  - exists s. split; [reflexivity |]. split; [by destruct s |]. split; [exact Hg |].
    split; [reflexivity |]. split; [| reflexivity].
    intros p Hp. by apply elem_of_nil in Hp.
  - rewrite fmap_cons in Hnd. apply NoDup_cons in Hnd as [Hfresh Hnd].
    destruct p as [y x].
    destruct (Hps (y, x)) as (Hy & Hx & Hmem); [by constructor |]. simpl in Hy, Hx, Hmem.
    pose proof (draw_pixel_run s sx sy y x Hg Hvx Hsx Hsy Hy Hx Hlen Hi Hmem) as Hstep.
    cbv zeta in Hstep.
    pose proof (pos_range sx sy (y, x)) as [Hr Hc].
    set (r := (pos sx sy (y, x)).1) in *. set (c := (pos sx sy (y, x)).2) in *.
    set (new := Z.lxor (pixel (display s) r c)
                  (sprite_bit (byte_at (memory s) (i s + y)) x)) in *.
    set (hit := collides (display s) (memory s) (i s) sx sy (y, x)) in *.
    set (s1 := if hit
               then set_vx (<[Z.to_nat VF := 1]> (vx s))
                      (set_display (update (display s) r c new) s)
               else set_display (update (display s) r c new) s) in *.
    assert (Hd1 : display s1 = update (display s) r c new) by (unfold s1; by destruct hit).
    assert (Hv1 : vx s1 = if hit then <[Z.to_nat VF := 1]> (vx s) else vx s)
      by (unfold s1; by destruct hit).
    assert (Hm1 : memory s1 = memory s) by (unfold s1; by destruct hit).
    assert (Hi1 : i s1 = i s) by (unfold s1; by destruct hit).
    assert (Hf1 : forall V D, set_vx V (set_display D s1) = set_vx V (set_display D s))
      by (intros; unfold s1; by destruct hit).
    assert (Hother : forall q, q ∈ ps ->
              pixel (display s1) (pos sx sy q).1 (pos sx sy q).2 =
              pixel (display s) (pos sx sy q).1 (pos sx sy q).2).
    { intros q Hq. rewrite Hd1.
      pose proof (pos_range sx sy q) as [Hqr Hqc].
      apply pixel_update_ne; try lia.
      intros Heq. apply Hfresh. apply list_elem_of_fmap. exists q.
      split; [| exact Hq]. rewrite (surjective_pairing (pos sx sy q)).
      rewrite (surjective_pairing (pos sx sy (y, x))). fold r c. by symmetry. }
    destruct (IH Hnd s1) as (s' & Hrun & Hframe & Hg' & Hvx' & Hpix & Hrest).
    { rewrite Hd1. by apply grid_update. }
    { rewrite Hv1. destruct hit; [by rewrite length_insert | exact Hvx]. }
    { by rewrite Hm1. }
    { by rewrite Hi1. }
    { intros q Hq. rewrite Hi1. apply Hps. by constructor. }
    exists s'. split; [| split; [| split; [| split; [| split]]]].
    + simpl. rewrite bind_run, Hstep. exact Hrun.
    + rewrite Hframe at 1. apply Hf1.
    + exact Hg'.
    + rewrite Hvx', Hv1, Hm1, Hi1.
      rewrite (existsb_agree _ (collides (display s) (memory s) (i s) sx sy)).
      * simpl. fold hit. destruct hit; simpl; [| reflexivity].
        destruct (existsb (collides (display s) (memory s) (i s) sx sy) ps);
          [apply list_insert_insert_eq | reflexivity].
      * intros q Hq. unfold collides. by rewrite Hother.
    + intros q Hq. apply elem_of_cons in Hq as [-> | Hq].
      * fold r c. rewrite Hrest; [| lia | lia |].
        -- rewrite Hd1. by apply pixel_update_eq.
        -- intros Hin. apply Hfresh.
           by rewrite (surjective_pairing (pos sx sy (y, x))).
      * rewrite Hpix by exact Hq. by rewrite Hother, Hm1, Hi1.
    + intros r' c' Hr' Hc' Hnot. apply not_elem_of_cons in Hnot as [Hne Hnot].
      rewrite Hrest by assumption. rewrite Hd1.
      apply pixel_update_ne; try lia.
      intros Heq. apply Hne. rewrite Heq.
      by rewrite (surjective_pairing (pos sx sy (y, x))).
Qed.

Lemma elem_of_pixels n p : p ∈ pixels n <-> 0 <= p.1 < n /\ 0 <= p.2 < 8.
Proof.
  unfold pixels. rewrite list_elem_of_bind. split.
  - intros (row & Hp & Hrow). apply list_elem_of_fmap in Hp as (col & -> & Hcol).
    apply elem_of_seqZ in Hrow, Hcol. simpl. lia.
  - intros [Hrow Hcol]. exists p.1. split.
    + apply list_elem_of_fmap. exists p.2. split; [by destruct p |].
      apply elem_of_seqZ. lia.
    + apply elem_of_seqZ. lia.
Qed.

Lemma NoDup_pixels n : NoDup (pixels n).
Proof.
  unfold pixels. apply NoDup_bind.
  - intros r1 r2 p _ _ H1 H2.
    apply list_elem_of_fmap in H1 as (c1 & -> & _).
    apply list_elem_of_fmap in H2 as (c2 & Heq & _). congruence.
  - intros row _. apply NoDup_fmap_2_strong; [| apply NoDup_seqZ].
    intros c1 c2 _ _ Heq. congruence.
  - apply NoDup_seqZ.
Qed.

(** A sprite is at most 15 rows by 8 columns, the display 32 by 64: no two
    pixels of one sprite land on the same cell. *)
Lemma NoDup_pos_pixels sx sy n : n < 16 -> NoDup (pos sx sy <$> pixels n).
Proof.
  intros Hn. apply NoDup_fmap_2_strong; [| apply NoDup_pixels].
  intros [r1 c1] [r2 c2] H1 H2 Heq.
  apply elem_of_pixels in H1, H2. unfold pos in Heq. simpl in *.
  injection Heq as Hr Hc. f_equal; dlia.
Qed.

Lemma existsb_collides_true d mem base sx sy ps :
  existsb (collides d mem base sx sy) ps = true <->
  exists p, p ∈ ps /\
    pixel d (pos sx sy p).1 (pos sx sy p).2 = 1 /\
    sprite_bit (byte_at mem (base + p.1)) p.2 = 1.
Proof.
  rewrite existsb_exists. unfold collides.
  split; intros (p & Hp & Hc); exists p.
  - apply list_elem_of_In in Hp. apply andb_true_iff in Hc as [H1 H2].
    apply Z.eqb_eq in H1, H2. tauto.
  - split; [by apply list_elem_of_In |]. destruct Hc as [H1 H2].
    apply andb_true_iff. by rewrite !Z.eqb_eq.
Qed.

(** What [opHandlerD] does, in terms of pixels. *)
Lemma opHandlerD_run s x y n sx sy :
  wf s = true ->
  0 <= x < 16 -> 0 <= y < 16 -> 0 <= n < 16 ->
  opcode s = word 13 x y n ->
  vx s !! Z.to_nat x = Some sx -> vx s !! Z.to_nat y = Some sy ->
  0 <= sx < 256 -> 0 <= sy < 256 ->
  (forall row, 0 <= row < n -> i s + row < 4096) ->
  exists s',
    opHandlerD s = Done tt s' /\
    pc s' = u16 (pc s + 2) /\ memory s' = memory s /\ i s' = i s /\
    grid (display s') /\
    vx s' !! Z.to_nat VF =
      Some (if existsb (collides (display s) (memory s) (i s) sx sy) (pixels n)
            then 1 else 0) /\
    (forall p, p ∈ pixels n ->
       pixel (display s') (pos sx sy p).1 (pos sx sy p).2 =
       Z.lxor (pixel (display s) (pos sx sy p).1 (pos sx sy p).2)
              (sprite_bit (byte_at (memory s) (i s + p.1)) p.2)) /\
    (forall r c, 0 <= r -> 0 <= c -> (r, c) ∉ pos sx sy <$> pixels n ->
       pixel (display s') r c = pixel (display s) r c).
Proof.
  intros Hwf Hx Hy Hn Hop Hsx Hsy Hrx Hry Hmem.
  apply wf_elim in Hwf as (_ & _ & Hi & Hvx & _ & Hlen & _ & Hd & Hrows).
  assert (Hg : grid (display s)).
  { split; [exact Hd |]. apply Forall_lookup. exact Hrows. }
  set (s0 := set_vx (<[Z.to_nat VF := 0]> (vx s)) s).
  destruct (draw_loop sx sy (pixels n) Hrx Hry (NoDup_pos_pixels sx sy n ltac:(lia)) s0)
    as (s' & Hrun & Hframe & Hg' & Hvx' & Hpix & Hrest).
  { exact Hg. }
  { simpl. by rewrite length_insert. }
  { exact Hlen. }
  { simpl. lia. }
  { intros p Hp. apply elem_of_pixels in Hp. simpl.
    split; [lia |]. split; [lia |]. apply Hmem. lia. }
  simpl in Hvx', Hpix, Hrest.
  exists (set_pc (u16 (pc s' + 2)) s').
  split; [| split; [| split; [| split; [| split; [| split; [| split]]]]]].
  - unfold opHandlerD. rewrite bind_run. unfold get at 1.
    rewrite Hop, word_x, word_y, word_n by lia.
    rewrite bind_run. unfold read_vx at 1, get at 1. rewrite bind_run.
    unfold index at 1. rewrite Hsx.
    rewrite bind_run. unfold read_vx at 1, get at 1. rewrite bind_run.
    unfold index at 1. rewrite Hsy.
    rewrite bind_run.
    assert (Hw : write_vx VF 0 s = Done tt s0).
    { unfold write_vx. unfold_m. simpl. in_range. reflexivity. }
    rewrite Hw, bind_run. unfold for_range.
    rewrite (for_each_nested (draw_pixel sx sy) (seqZ 0 n) (seqZ 0 8) s0).
    fold (pixels n). rewrite Hrun. reflexivity.
  - simpl. rewrite Hframe. reflexivity.
  - simpl. rewrite Hframe. reflexivity.
  - simpl. rewrite Hframe. reflexivity.
  - exact Hg'.
  - simpl. rewrite Hvx'.
    destruct (existsb _ (pixels n)).
    + rewrite list_insert_insert_eq. apply list_lookup_insert_eq. unfold VF. lia.
    + apply list_lookup_insert_eq. unfold VF. lia.
  - exact Hpix.
  - exact Hrest.
Qed.

(** The pixels of a sprite, in the order of the loops: the rows before
    [row], then the first pixel of [row]. *)
Lemma pixels_split n row :
  0 <= row < n ->
  exists rest, pixels n = pixels row ++ (row, 0) :: rest.
Proof.
  intros Hrow. unfold pixels.
  assert (Hs : seqZ 0 n = seqZ 0 row ++ seqZ (0 + row) (n - row))
    by (rewrite <- seqZ_app by lia; f_equal; lia).
  rewrite Hs, bind_app.
  rewrite (seqZ_cons (0 + row)) by lia. rewrite bind_cons.
  rewrite (seqZ_cons 0 8) by lia. rewrite fmap_cons.
  simpl. eexists. reflexivity.
Qed.

(** The loop body panics at a sprite row that lies behind the memory. *)
Lemma draw_pixel_panics s sx sy y x :
  grid (display s) ->
  0 <= sx < 256 -> 0 <= sy < 256 -> 0 <= y < 16 -> 0 <= x < 8 ->
  length (memory s) = 4096%nat -> 4096 <= i s + y < 65536 ->
  draw_pixel sx sy y x s = Panic.
Proof.
  intros Hg Hsx Hsy Hy Hx Hlen Hmem.
  assert (Hr : 0 <= u8 (sy + y) mod DisplayHeight < 32) by (unfold DisplayHeight; dlia).
  assert (Hc : 0 <= u8 (sx + x) mod DisplayWidth < 64) by (unfold DisplayWidth; dlia).
  assert (Ha : u16 (i s + y) = i s + y) by dlia.
  unfold draw_pixel. rewrite !bind_run.
  rewrite read_display_run by assumption.
  unfold get at 1. rewrite !bind_run. unfold read_memory, get at 1. rewrite !bind_run.
  unfold index. rewrite Ha. rewrite (lookup_ge_None_2 (memory s)) by lia.
  reflexivity.
Qed.

(** A draw whose sprite does not lie inside the memory panics, at the first
    sprite row behind the memory, whatever it has drawn before. *)
Lemma opHandlerD_panics s x y n sx sy :
  wf s = true ->
  0 <= x < 16 -> 0 <= y < 16 -> 0 <= n < 16 ->
  opcode s = word 13 x y n ->
  vx s !! Z.to_nat x = Some sx -> vx s !! Z.to_nat y = Some sy ->
  0 <= sx < 256 -> 0 <= sy < 256 ->
  (exists row, 0 <= row < n /\ 4096 <= i s + row) ->
  opHandlerD s = Panic.
Proof.
  intros Hwf Hx Hy Hn Hop Hsx Hsy Hrx Hry (row & Hrow & Hout).
  apply wf_elim in Hwf as (_ & _ & Hi & Hvx & _ & Hlen & _ & Hd & Hrows).
  assert (Hg : grid (display s)).
  { split; [exact Hd |]. apply Forall_lookup. exact Hrows. }
  set (first := Z.max 0 (4096 - i s)).
  assert (Hfirst : 0 <= first < n) by lia.
  destruct (pixels_split n first Hfirst) as [rest Hsplit].
  set (s0 := set_vx (<[Z.to_nat VF := 0]> (vx s)) s).
  destruct (draw_loop sx sy (pixels first) Hrx Hry
              (NoDup_pos_pixels sx sy first ltac:(lia)) s0)
    as (s1 & Hrun & Hframe & Hg1 & _).
  { exact Hg. }
  { simpl. by rewrite length_insert. }
  { exact Hlen. }
  { simpl. lia. }
  { intros p Hp. apply elem_of_pixels in Hp. simpl.
    split; [lia |]. split; lia. }
  unfold opHandlerD. rewrite bind_run. unfold get at 1.
  rewrite Hop, word_x, word_y, word_n by lia.
  rewrite bind_run. unfold read_vx at 1, get at 1. rewrite bind_run.
  unfold index at 1. rewrite Hsx.
  rewrite bind_run. unfold read_vx at 1, get at 1. rewrite bind_run.
  unfold index at 1. rewrite Hsy.
  rewrite bind_run.
  assert (Hw : write_vx VF 0 s = Done tt s0).
  { unfold write_vx. unfold_m. simpl. in_range. reflexivity. }
  rewrite Hw, bind_run. unfold for_range.
  rewrite (for_each_nested (draw_pixel sx sy) (seqZ 0 n) (seqZ 0 8) s0).
  fold (pixels n). rewrite Hsplit, for_each_app, bind_run, Hrun.
  simpl. rewrite bind_run.
  rewrite (draw_pixel_panics s1 sx sy first 0); try assumption; try lia.
  - reflexivity.
  - by rewrite Hframe.
  - rewrite Hframe. simpl. lia.
Qed.

(** C4, as the code has it.  DRW Vx, Vy, n (Dxyn) with a sprite row behind
    the end of the memory (I+row >= 4096 for some row < n) ends in a run-time
    panic.  DRW whose n sprite bytes lie inside the memory returns normally:
    bit col of sprite row row is XORed into the display cell in row
    (startY+row) mod 32 and column (startX+col) mod 64, and no other cell
    changes.  At startX = 63 the leftmost bit stays in column 63, the second
    bit wraps to column 0 and the rightmost bit to column 6; at startY = 31 a
    sprite of height 2 has its second row in row 0.  VF ends as 1 if some
    pixel of the sprite went from set to unset, else as 0. *)
Theorem draw_xors_sprite_with_wraparound s x y n sx sy :
  wf s = true ->
  0 <= x < 16 -> 0 <= y < 16 -> 0 <= n < 16 ->
  opcode s = word 13 x y n ->
  vx s !! Z.to_nat x = Some sx -> vx s !! Z.to_nat y = Some sy ->
  0 <= sx < 256 -> 0 <= sy < 256 ->
  ((exists row, 0 <= row < n /\ 4096 <= i s + row) -> opHandlerD s = Panic) /\
  ((forall row, 0 <= row < n -> i s + row < 4096) ->
   exists s',
     opHandlerD s = Done tt s' /\
     (forall row col, 0 <= row < n -> 0 <= col < 8 ->
        xored s s' row col ((sy + row) mod 32) ((sx + col) mod 64)) /\
     (forall r c, 0 <= r < 32 -> 0 <= c < 64 ->
        (forall row col, 0 <= row < n -> 0 <= col < 8 ->
           (r, c) <> ((sy + row) mod 32, (sx + col) mod 64)) ->
        cell (display s') r c = cell (display s) r c) /\
     (sx = 63 -> forall row, 0 <= row < n ->
        xored s s' row 0 ((sy + row) mod 32) 63 /\
        xored s s' row 1 ((sy + row) mod 32) 0 /\
        xored s s' row 7 ((sy + row) mod 32) 6) /\
     (sy = 31 -> 2 <= n -> forall col, 0 <= col < 8 ->
        xored s s' 0 col 31 ((sx + col) mod 64) /\
        xored s s' 1 col 0 ((sx + col) mod 64)) /\
     (erases (display s) (display s') sx sy n -> vx s' !! Z.to_nat VF = Some 1) /\
     (~ erases (display s) (display s') sx sy n -> vx s' !! Z.to_nat VF = Some 0)).
Proof.
  intros Hwf Hx Hy Hn Hop Hsx Hsy Hrx Hry.
  split; [by apply (opHandlerD_panics s x y n sx sy) | intros Hmem].
  destruct (opHandlerD_run s x y n sx sy) as
    (s' & Hrun & _ & _ & _ & Hg' & Hflag & Hpix & Hrest); try assumption.
  apply wf_elim in Hwf as (_ & _ & Hi & Hvx & _ & Hlen & _ & Hd & Hrows).
  assert (Hg : grid (display s)).
  { split; [exact Hd |]. apply Forall_lookup. exact Hrows. }
  assert (Hxor : forall row col, 0 <= row < n -> 0 <= col < 8 ->
            xored s s' row col ((sy + row) mod 32) ((sx + col) mod 64)).
  { intros row col Hrow Hcol.
    pose proof (pos_range sx sy (row, col)) as [Hr Hc]. unfold pos in Hr, Hc.
    simpl in Hr, Hc.
    destruct (lookup_lt_is_Some_2 (memory s) (Z.to_nat (i s + row))) as [b Hb].
    { specialize (Hmem row Hrow). lia. }
    exists (pixel (display s) ((sy + row) mod 32) ((sx + col) mod 64)), b.
    split; [by apply cell_pixel |]. split; [exact Hb |].
    rewrite cell_pixel by assumption. f_equal.
    specialize (Hpix (row, col)). unfold pos in Hpix. simpl in Hpix.
    rewrite Hpix by (apply elem_of_pixels; simpl; lia).
    unfold byte_at. by rewrite Hb. }
  assert (Herase : erases (display s) (display s') sx sy n <->
            existsb (collides (display s) (memory s) (i s) sx sy) (pixels n) = true).
  { rewrite existsb_collides_true. split.
    - intros (row & col & Hrow & Hcol & Hold & Hnew).
      pose proof (pos_range sx sy (row, col)) as [Hr Hc]. unfold pos in Hr, Hc.
      simpl in Hr, Hc.
      rewrite cell_pixel in Hold, Hnew by assumption.
      injection Hold as Hold. injection Hnew as Hnew.
      exists (row, col). split; [apply elem_of_pixels; simpl; lia |].
      unfold pos. simpl. split; [exact Hold |].
      specialize (Hpix (row, col)). unfold pos in Hpix. simpl in Hpix.
      rewrite Hpix, Hold in Hnew by (apply elem_of_pixels; simpl; lia).
      destruct (sprite_bit_cases (byte_at (memory s) (i s + row)) col) as [H0 | H1];
        [rewrite H0 in Hnew; discriminate | exact H1].
    - intros ([row col] & Hp & Hold & Hbit).
      pose proof (pos_range sx sy (row, col)) as [Hr Hc].
      specialize (Hpix (row, col) Hp).
      apply elem_of_pixels in Hp. unfold pos in *. simpl in *.
      exists row, col. split; [lia |]. split; [lia |].
      rewrite !cell_pixel by assumption. rewrite Hpix, Hold, Hbit. by split. }
  exists s'. split; [exact Hrun |]. split; [exact Hxor |].
  split; [| split; [| split; [| split]]].
  - intros r c Hr Hc Hfree. rewrite !cell_pixel by assumption. f_equal.
    apply Hrest; try lia.
    intros Hin. apply list_elem_of_fmap in Hin as ([row col] & Heq & Hp).
    apply elem_of_pixels in Hp. simpl in Hp.
    apply (Hfree row col); [lia | lia | exact Heq].
  - intros -> row Hrow.
    split; [exact (Hxor row 0 Hrow ltac:(lia)) |].
    split; [exact (Hxor row 1 Hrow ltac:(lia)) | exact (Hxor row 7 Hrow ltac:(lia))].
  - intros -> Hn2 col Hcol.
    split; [exact (Hxor 0 col ltac:(lia) Hcol) | exact (Hxor 1 col ltac:(lia) Hcol)].
  - intros He. apply Herase in He. by rewrite Hflag, He.
  - intros He. rewrite Hflag.
    destruct (existsb _ (pixels n)) eqn:E; [| reflexivity].
    exfalso. apply He, Herase. reflexivity.
Qed.

Lemma draw_xors_sprite_with_wraparound_witness :
  exists s',
    opHandlerD draw_machine = Done tt s' /\
    xored draw_machine s' 0 1 31 0 /\
    xored draw_machine s' 1 0 0 63.
Proof.
  destruct (draw_xors_sprite_with_wraparound draw_machine 0 1 2 63 31)
    as (_ & Hdraw);
    [reflexivity | lia | lia | lia | reflexivity | reflexivity | reflexivity
    | lia | lia |].
  destruct Hdraw as (s' & Hrun & Hxor & _); [intros row Hrow; simpl; lia |].
  exists s'. split; [exact Hrun |].
  split; [exact (Hxor 0 1 ltac:(lia) ltac:(lia)) | exact (Hxor 1 0 ltac:(lia) ltac:(lia))].
Defined.

(** C4 as stated fails in two places.  In its example: a sprite row whose
    only set bit is the rightmost one, drawn at startX = 63 on the empty
    display, sets the pixel in column 6 = (63+7) mod 64 and leaves column 0
    unset.  And in "every sprite draw": after LD I, 0xFFF the draw
    DRW V0, V0, 2, fetched from the memory of a loaded machine, XORs nothing
    into the display for its second row but ends in a run-time panic,
    because that row would be read at 0x1000. *)
Lemma draw_misses_column_0_and_panics_past_memory :
  (exists s',
     Cycles [0; 0; 0] edge_machine = Done tt s' /\
     opcode s' = 0xD011 /\ vx s' !! 0%nat = Some 63 /\
     memory s' !! Z.to_nat (i s') = Some 0x01 /\
     cell (display edge_machine) 0 0 = Some 0 /\
     cell (display edge_machine) 0 6 = Some 0 /\
     cell (display s') 0 0 = Some 0 /\
     cell (display s') 0 6 = Some 1) /\
  (exists s',
     Cycle 0 past_end_machine = Done tt s' /\
     memory s' !! Z.to_nat (pc s') = Some 0xD0 /\
     memory s' !! Z.to_nat (pc s' + 1) = Some 0x02 /\
     i s' = 0xFFF /\
     Cycle 0 s' = Panic).
Proof.
  split; (eexists; split; [vm_compute; reflexivity |]); repeat split.
Qed.

(** ** Frame reasoning *)
Section Respects.
Variable R : Interpreter -> Interpreter -> Prop.
Hypothesis R_refl : forall s, R s s.
Hypothesis R_trans : forall s1 s2 s3, R s1 s2 -> R s2 s3 -> R s1 s3.

Lemma respects_ret {A : Type} (a : A) : respects R (mret a).
Proof. intros s. apply R_refl. Qed.

Lemma respects_bind {A B : Type} (m : M A) (k : A -> M B) :
  respects R m -> (forall a, respects R (k a)) -> respects R (m ≫= k).
Proof.
  intros Hm Hk s. rewrite bind_run. specialize (Hm s).
  destruct (m s) as [a s1 | e s1 |]; [| exact Hm | exact I].
  specialize (Hk a s1). destruct (k a s1); eauto.
Qed.

Lemma respects_get {A : Type} (f : Interpreter -> A) : respects R (get f).
Proof. intros s. apply R_refl. Qed.

Lemma respects_fail {A : Type} e : respects R (@fail A e).
Proof. intros s. apply R_refl. Qed.

Lemma respects_index {A : Type} (a : list A) k : respects R (index a k).
Proof. intros s. unfold index. destruct (a !! Z.to_nat k); [apply R_refl | exact I]. Qed.

Lemma respects_store {A : Type} (a : list A) k v : respects R (store a k v).
Proof. intros s. unfold store. case_bool_decide; [apply R_refl | exact I]. Qed.

Lemma respects_modify f : (forall s, R s (f s)) -> respects R (modify f).
Proof. intros Hf s. apply Hf. Qed.

Lemma respects_for_each {A : Type} (body : A -> M unit) ks :
  (forall k, respects R (body k)) -> respects R (for_each body ks).
Proof.
  intros Hbody. induction ks as [| k ks IH]; [apply respects_ret |].
  simpl. apply respects_bind; [apply Hbody | intros _; exact IH].
Qed.
End Respects.

(** Take a handler apart into the primitive operations of the monad. *)
Ltac respects_step refl trans field_tac :=
  first
    [ apply (respects_bind _ trans); [| intros ?]
    | apply (respects_ret _ refl)
    | apply (respects_get _ refl)
    | apply (respects_fail _ refl)
    | apply (respects_index _ refl)
    | apply (respects_store _ refl)
    | apply (respects_for_each _ refl trans); intros ?
    | apply respects_modify; intros ?; field_tac
    | match goal with
      | |- respects _ (if ?b then _ else _) => destruct b
      | |- respects _ (match ?o with Some _ => _ | None => _ end) => destruct o
      end ].

Ltac respects_steps refl trans field_tac :=
  cbv zeta; repeat respects_step refl trans field_tac.

Ltac unfold_handlers :=
  unfold opHandler0, opHandler1, opHandler2, opHandler3, opHandler4, opHandler5,
    opHandler6, opHandler7, opHandler8, opHandler9, opHandlerA, opHandlerB,
    opHandlerC, opHandlerD, opHandlerE, opHandlerF, draw_pixel, for_range,
    read_vx, write_vx, read_memory, write_memory, read_stack, write_stack,
    read_keys, write_keys, read_display, write_display, advance_pc.

(** ** Sound *)

Lemma quiet_refl s : quiet s s.
Proof. by split. Qed.

Lemma quiet_trans s1 s2 s3 : quiet s1 s2 -> quiet s2 s3 -> quiet s1 s3.
Proof. intros [? ?] [? ?]. split; congruence. Qed.

Lemma handlers_quiet rnd (handler : M unit) :
  handler ∈ dispatch rnd -> respects quiet handler.
Proof.
  intros Hin. unfold dispatch in Hin.
  repeat (apply elem_of_cons in Hin as [-> | Hin]);
    [.. | by apply elem_of_nil in Hin];
    unfold_handlers;
    respects_steps quiet_refl quiet_trans ltac:(split; reflexivity).
Qed.

Lemma dispatch_quiet rnd k :
  respects quiet (handler ← index (dispatch rnd) k; handler).
Proof.
  intros s. rewrite bind_run. unfold index.
  destruct (dispatch rnd !! Z.to_nat k) as [handler |] eqn:Hh; [| exact I].
  apply (handlers_quiet rnd). by apply list_elem_of_lookup_2 in Hh.
Qed.

Lemma fetch_execute_quiet rnd : respects quiet (fetch_execute rnd).
Proof.
  unfold fetch_execute, read_memory.
  repeat first
    [ apply dispatch_quiet
    | respects_step quiet_refl quiet_trans ltac:(split; reflexivity) ].
Qed.

(** The timer part makes exactly the calls [sound_calls], which reverse the
    status, and records the status reported last. *)
Lemma timers_sound s :
  exists s',
    timers s = Done tt s' /\
    beeps s' = beeps s ++ sound_calls s /\
    alternates (isSoundPlaying s) (sound_calls s) /\
    isSoundPlaying s' = status_after (isSoundPlaying s) (sound_calls s).
Proof.
  unfold timers, sound_calls, status_after. unfold_m. simpl.
  destruct (clockCycleCounter s =? CPUFrequency / ClockFrequency); simpl;
    [| eexists; split; [reflexivity |]; simpl; by rewrite app_nil_r].
  destruct (0 <? dt s); simpl;
    (destruct (0 <? st s); simpl;
     destruct (isSoundPlaying s) eqn:Hp; simpl;
     eexists; (split; [reflexivity |]); simpl; rewrite ?app_nil_r, ?Hp; auto).
Qed.

(** What one cycle does to the sound bookkeeping. *)
Lemma Cycle_sound rnd s :
  match Cycle rnd s with
  | Done _ s' =>
      exists s1,
        fetch_execute rnd s = Done tt s1 /\ quiet s s1 /\
        beeps s' = beeps s ++ sound_calls s1 /\
        alternates (isSoundPlaying s) (sound_calls s1) /\
        isSoundPlaying s' = status_after (isSoundPlaying s) (sound_calls s1)
  | Fault _ s' => quiet s s'
  | Panic => True
  end.
Proof.
  rewrite Cycle_split, bind_run.
  pose proof (fetch_execute_quiet rnd s) as Hq.
  destruct (fetch_execute rnd s) as [[] s1 | e s1 |]; [| exact Hq | exact I].
  destruct (timers_sound s1) as (s' & Hrun & Hb & Ha & Hp).
  rewrite Hrun. exists s1. destruct Hq as [Hq1 Hq2].
  rewrite <- Hq1, <- Hq2. by repeat split.
Qed.

Lemma last_cons {A : Type} (a : A) l d : List.last (a :: l) d = List.last l a.
Proof.
  revert a d. induction l as [| b l IH]; intros a d; [reflexivity |].
  change (List.last (a :: b :: l) d) with (List.last (b :: l) d).
  by rewrite !IH.
Qed.

Lemma alternates_app playing calls1 calls2 :
  alternates playing calls1 ->
  alternates (status_after playing calls1) calls2 ->
  alternates playing (calls1 ++ calls2) /\
  status_after playing (calls1 ++ calls2) =
    status_after (status_after playing calls1) calls2.
Proof.
  unfold status_after. revert playing.
  induction calls1 as [| on rest IH]; intros playing H1 H2; [by split |].
  destruct H1 as [Hon Hrest]. rewrite last_cons in H2.
  destruct (IH on Hrest H2) as [Ha Hs]. split.
  - simpl. by split.
  - rewrite <- app_comm_cons, !last_cons. exact Hs.
Qed.

Lemma sound_calls_length s : (length (sound_calls s) <= 1)%nat.
Proof. unfold sound_calls. repeat case_match; simpl; lia. Qed.

(** C9, as the code has it.  Over any sequence of cycles that does not end in
    a panic, the callback is called only by the timer part of a cycle that is
    a timer tick (at most once per cycle): with [true] when the tick finds the
    sound timer nonzero and no sound playing, with [false] when it finds the
    sound timer zero and sound playing.  The calls therefore alternate,
    starting opposite to the initial status: the callback is never called
    twice in a row with the same argument, however many ticks pass. *)
Theorem sound_callback_fires_on_tick_edges rnds s :
  Cycles rnds s <> Panic ->
  beeps (final (Cycles rnds s) s) = beeps s ++ run_calls rnds s /\
  alternates (isSoundPlaying s) (run_calls rnds s) /\
  isSoundPlaying (final (Cycles rnds s) s) =
    status_after (isSoundPlaying s) (run_calls rnds s) /\
  (length (run_calls rnds s) <= length rnds)%nat.
Proof.
  revert s. induction rnds as [| rnd rnds IH]; intros s Hrun.
  - simpl. rewrite app_nil_r. repeat split. lia.
  - simpl in *. rewrite bind_run, Cycle_split, bind_run in *.
    pose proof (fetch_execute_quiet rnd s) as Hq.
    destruct (fetch_execute rnd s) as [[] s1 | e s1 |]; [| | done].
    + destruct (timers_sound s1) as (s2 & Ht & Hb & Ha & Hp).
      rewrite Ht in *. simpl.
      destruct Hq as [Hq1 Hq2]. rewrite Hq1 in Hb. rewrite Hq2 in Ha, Hp.
      destruct (IH s2 Hrun) as (Hb2 & Ha2 & Hp2 & Hl2).
      rewrite Hp in Ha2, Hp2.
      destruct (alternates_app _ _ _ Ha Ha2) as [Hall Hstat].
      assert (Hfinal : final (Cycles rnds s2) s = final (Cycles rnds s2) s2)
        by (by destruct (Cycles rnds s2)).
      rewrite Hfinal, Hb2, Hb, Hp2, Hstat, <- app_assoc, length_app.
      pose proof (sound_calls_length s1). repeat split; [exact Hall | lia].
    + destruct Hq as [Hq1 Hq2]. simpl. rewrite app_nil_r.
      repeat split; [exact Hq1 | exact Hq2 | lia].
Qed.

Lemma sound_callback_fires_on_tick_edges_witness :
  beeps (final (Cycles (replicate 30 0) tone_machine) tone_machine) = [true; false] /\
  alternates false [true; false].
Proof.
  destruct (sound_callback_fires_on_tick_edges (replicate 30 0) tone_machine)
    as (Hb & Ha & _); [vm_compute; discriminate |].
  split; [exact Hb | exact Ha].
Defined.

(** C9 as stated fails: the program of [blip_machine] takes the sound timer
    from 0 to 5 in its second cycle and back to 0 in its fourth, between two
    timer ticks; over 100 cycles the callback is never called, neither with
    [true] for the start nor with [false] for the stop.  And in
    [tone_machine] the tick of cycle 15, which takes the sound timer from 1 to
    0, calls the callback with [true]; the call with [false] comes with the
    tick of cycle 30. *)
Lemma sound_edges_between_ticks_are_missed :
  (st blip_machine = 0 /\
   st (final (Cycles [0; 0] blip_machine) blip_machine) = 5 /\
   st (final (Cycles [0; 0; 0; 0] blip_machine) blip_machine) = 0 /\
   exists s', Cycles (replicate 100 0) blip_machine = Done tt s' /\ beeps s' = []) /\
  (exists s14 s15 s29 s30,
     Cycles (replicate 14 0) tone_machine = Done tt s14 /\
     st s14 = 1 /\ beeps s14 = [] /\
     Cycle 0 s14 = Done tt s15 /\
     st s15 = 0 /\ beeps s15 = [true] /\
     Cycles (replicate 14 0) s15 = Done tt s29 /\ beeps s29 = [true] /\
     Cycle 0 s29 = Done tt s30 /\ beeps s30 = [true; false]).
Proof.
  split.
  - split; [reflexivity |]. split; [reflexivity |]. split; [reflexivity |].
    eexists. split; [vm_compute; reflexivity | reflexivity].
  - do 4 eexists.
    split; [vm_compute; reflexivity |]. split; [reflexivity |]. split; [reflexivity |].
    split; [vm_compute; reflexivity |]. split; [reflexivity |]. split; [reflexivity |].
    split; [vm_compute; reflexivity |]. split; [reflexivity |].
    split; [vm_compute; reflexivity | reflexivity].
Qed.

(** ** Array bounds *)

Lemma opHandler2_panics s :
  wf s = true -> (opHandler2 s = Panic <-> 16 <= sp s).
Proof.
  intros Hwf. pose proof (wf_elim s Hwf) as (_ & Hsp & _ & _ & Hst & _).
  destruct (Z.lt_ge_cases (sp s) 16) as [Hlt | Hge].
  - rewrite opHandler2_run by assumption. split; [discriminate | lia].
  - split; [intros _; exact Hge | intros _].
    unfold opHandler2. unfold_m. simpl.
    rewrite bool_decide_eq_false_2 by lia. reflexivity.
Qed.

Lemma opHandler0_ret_panics s :
  wf s = true -> Z.land (opcode s) 0x00ff = 0x00ee ->
  (opHandler0 s = Panic <-> sp s = 0 \/ 16 < sp s).
Proof.
  intros Hwf Hop. pose proof (wf_elim s Hwf) as (_ & Hsp & _ & _ & Hst & _).
  destruct (decide (1 <= sp s <= 16)) as [Hin | Hout].
  - destruct (lookup_lt_is_Some_2 (stack s) (Z.to_nat (sp s - 1))) as [ra Hra]; [lia |].
    rewrite (opHandler0_ret_run s ra) by assumption. split; [discriminate | lia].
  - split; [intros _; lia | intros _].
    unfold opHandler0. unfold_m. simpl. rewrite Hop. simpl.
    rewrite (lookup_ge_None_2 (stack s)); [reflexivity |]. dlia.
Qed.

Lemma opHandlerF_bcd_panics s x :
  wf s = true -> 0 <= x < 16 -> opcode s = word 15 x 3 3 ->
  (opHandlerF s = Panic <-> 4096 <= i s + 2).
Proof.
  intros Hwf Hx Hop.
  pose proof (wf_elim s Hwf) as (_ & _ & Hi & Hvx & _ & Hmem & _).
  destruct (lookup_lt_is_Some_2 (vx s) (Z.to_nat x)) as [v Hv]; [lia |].
  unfold opHandlerF. unfold_m.
  rewrite Hop, word_low_byte, word_x by lia. simpl. rewrite Hv. simpl.
  destruct (Z.lt_ge_cases (i s) 4096) as [H0 | H0].
  2:{ rewrite bool_decide_eq_false_2 by lia. split; [lia | reflexivity]. }
  in_range. simpl.
  destruct (Z.lt_ge_cases (i s + 1) 4096) as [H1 | H1].
  2:{ rewrite bool_decide_eq_false_2 by (rewrite length_insert; dlia).
      split; [lia | reflexivity]. }
  rewrite bool_decide_eq_true_2 by (rewrite length_insert; dlia). simpl.
  destruct (Z.lt_ge_cases (i s + 2) 4096) as [H2 | H2].
  2:{ rewrite bool_decide_eq_false_2 by (rewrite !length_insert; dlia).
      split; [lia | reflexivity]. }
  rewrite bool_decide_eq_true_2 by (rewrite !length_insert; dlia). simpl.
  split; [discriminate | lia].
Qed.

(** Loops over register numbers that access memory at I + n. *)
Section IndexedLoop.
Variable body : Z -> M unit.

Hypothesis body_in_range : forall s n,
  loop_inv s -> 0 <= n < 16 -> i s + n < 4096 ->
  exists s', body n s = Done tt s' /\ loop_inv s' /\ i s' = i s.
Hypothesis body_out_of_range : forall s n,
  loop_inv s -> 0 <= n < 16 -> 4096 <= i s + n -> body n s = Panic.

Lemma indexed_loop_panics ks s :
  loop_inv s -> (forall n, n ∈ ks -> 0 <= n < 16) ->
  (for_each body ks s = Panic <-> exists n, n ∈ ks /\ 4096 <= i s + n) /\
  (forall e s', for_each body ks s <> Fault e s').
Proof.
  revert s. induction ks as [| k ks IH]; intros s Hinv Hks.
  - split; [| discriminate]. split; [discriminate |].
    intros (n & Hn & _). by apply elem_of_nil in Hn.
  - assert (Hk : 0 <= k < 16) by (apply Hks; constructor).
    simpl. rewrite bind_run.
    destruct (Z.lt_ge_cases (i s + k) 4096) as [Hin | Hout].
    + destruct (body_in_range s k Hinv Hk Hin) as (s1 & Hrun & Hinv1 & Hi1).
      rewrite Hrun.
      destruct (IH s1 Hinv1) as [Hp Hf];
        [intros n Hn; apply Hks; by constructor |].
      split; [| exact Hf]. rewrite Hp, Hi1. split.
      * intros (n & Hn & Hbad). exists n. split; [by constructor | exact Hbad].
      * intros (n & Hn & Hbad). apply elem_of_cons in Hn as [-> | Hn]; [lia |].
        by exists n.
    + rewrite (body_out_of_range s k Hinv Hk Hout). split; [| discriminate].
      split; [| reflexivity]. intros _. exists k. split; [constructor | exact Hout].
Qed.
End IndexedLoop.

Lemma opHandlerF_store_panics s x :
  wf s = true -> 0 <= x < 16 -> opcode s = word 15 x 5 5 ->
  (opHandlerF s = Panic <-> 4096 <= i s + x).
Proof.
  intros Hwf Hx Hop.
  pose proof (wf_elim s Hwf) as (_ & _ & Hi & Hvx & _ & Hmem & _).
  set (body := fun n : Z =>
                 base ← get i; a ← read_vx n; write_memory (u16 (base + n)) a).
  assert (Hrun : opHandlerF s =
            match for_each body (seqZ 0 (x + 1)) s with
            | Done _ s' => Done tt (set_pc (u16 (pc s' + 2)) s')
            | Fault e s' => Fault e s'
            | Panic => Panic
            end).
  { unfold opHandlerF. rewrite bind_run. unfold get at 1.
    rewrite Hop, word_low_byte, word_x by lia. simpl.
    rewrite bind_run. unfold for_range.
    replace (u8 (x + 1)) with (x + 1) by dlia. reflexivity. }
  rewrite Hrun. clear Hrun.
  destruct (Z.lt_ge_cases (i s) 4096) as [Hlow | Hhigh].
  - destruct (indexed_loop_panics body) with (ks := seqZ 0 (x + 1)) (s := s)
      as [Hp Hf].
    + intros s0 n (Hi0 & Hvx0 & Hm0) Hn Hin.
      destruct (lookup_lt_is_Some_2 (vx s0) (Z.to_nat n)) as [a Ha]; [lia |].
      unfold body. unfold_m. unfold read_vx, write_memory. unfold_m. simpl.
      rewrite Ha. simpl.
      rewrite bool_decide_eq_true_2 by dlia. simpl.
      eexists. split; [reflexivity |]. unfold loop_inv. simpl.
      rewrite length_insert. repeat split; (lia || assumption).
    + intros s0 n (Hi0 & Hvx0 & Hm0) Hn Hout.
      destruct (lookup_lt_is_Some_2 (vx s0) (Z.to_nat n)) as [a Ha]; [lia |].
      unfold body. unfold_m. unfold read_vx, write_memory. unfold_m. simpl.
      rewrite Ha. simpl.
      rewrite bool_decide_eq_false_2 by dlia. reflexivity.
    + repeat split; (lia || assumption).
    + intros n Hn. apply elem_of_seqZ in Hn. lia.
    + destruct (for_each body (seqZ 0 (x + 1)) s) as [[] s' | e s' |] eqn:Hloop.
      * split; [discriminate |]. intros Hbad.
        assert (Hex : exists n, n ∈ seqZ 0 (x + 1) /\ 4096 <= i s + n).
        { exists x. split; [apply elem_of_seqZ; lia | exact Hbad]. }
        apply Hp in Hex. discriminate.
      * by destruct (Hf e s').
      * split; [| reflexivity]. intros _.
        destruct (proj1 Hp eq_refl) as (n & Hn & Hbad).
        apply elem_of_seqZ in Hn. lia.
  - rewrite seqZ_cons by lia. simpl. rewrite bind_run.
    destruct (lookup_lt_is_Some_2 (vx s) (Z.to_nat 0)) as [a Ha]; [lia |].
    unfold body at 1. unfold read_vx, write_memory. unfold_m. simpl.
    rewrite Ha. cbn beta iota.
    rewrite bool_decide_eq_false_2 by dlia. split; [lia | reflexivity].
Qed.

Lemma opHandlerF_load_panics s x :
  wf s = true -> 0 <= x < 16 -> opcode s = word 15 x 6 5 ->
  (opHandlerF s = Panic <-> 4096 <= i s + x).
Proof.
  intros Hwf Hx Hop.
  pose proof (wf_elim s Hwf) as (_ & _ & Hi & Hvx & _ & Hmem & _).
  set (body := fun n : Z =>
                 base ← get i; b ← read_memory (u16 (base + n)); write_vx n b).
  assert (Hrun : opHandlerF s =
            match for_each body (seqZ 0 (x + 1)) s with
            | Done _ s' => Done tt (set_pc (u16 (pc s' + 2)) s')
            | Fault e s' => Fault e s'
            | Panic => Panic
            end).
  { unfold opHandlerF. rewrite bind_run. unfold get at 1.
    rewrite Hop, word_low_byte, word_x by lia. simpl.
    rewrite bind_run. unfold for_range.
    replace (u8 (x + 1)) with (x + 1) by dlia. reflexivity. }
  rewrite Hrun. clear Hrun.
  destruct (Z.lt_ge_cases (i s) 4096) as [Hlow | Hhigh].
  - destruct (indexed_loop_panics body) with (ks := seqZ 0 (x + 1)) (s := s)
      as [Hp Hf].
    + intros s0 n (Hi0 & Hvx0 & Hm0) Hn Hin.
      destruct (lookup_lt_is_Some_2 (memory s0) (Z.to_nat (u16 (i s0 + n))))
        as [b Hb]; [dlia |].
      unfold body. unfold_m. unfold read_memory, write_vx. unfold_m. simpl.
      rewrite Hb. simpl. in_range. simpl.
      eexists. split; [reflexivity |]. unfold loop_inv. simpl.
      rewrite length_insert. repeat split; (lia || assumption).
    + intros s0 n (Hi0 & Hvx0 & Hm0) Hn Hout.
      unfold body. unfold_m. unfold read_memory, write_vx. unfold_m. simpl.
      rewrite (lookup_ge_None_2 (memory s0)) by dlia. reflexivity.
    + repeat split; (lia || assumption).
    + intros n Hn. apply elem_of_seqZ in Hn. lia.
    + destruct (for_each body (seqZ 0 (x + 1)) s) as [[] s' | e s' |] eqn:Hloop.
      * split; [discriminate |]. intros Hbad.
        assert (Hex : exists n, n ∈ seqZ 0 (x + 1) /\ 4096 <= i s + n).
        { exists x. split; [apply elem_of_seqZ; lia | exact Hbad]. }
        apply Hp in Hex. discriminate.
      * by destruct (Hf e s').
      * split; [| reflexivity]. intros _.
        destruct (proj1 Hp eq_refl) as (n & Hn & Hbad).
        apply elem_of_seqZ in Hn. lia.
  - rewrite seqZ_cons by lia. simpl. rewrite bind_run.
    unfold body at 1. unfold read_memory, write_vx. unfold_m. simpl.
    rewrite (lookup_ge_None_2 (memory s)) by dlia. split; [lia | reflexivity].
Qed.

Lemma same_shape_refl s : same_shape s s.
Proof. by repeat split. Qed.

Lemma same_shape_trans s1 s2 s3 :
  same_shape s1 s2 -> same_shape s2 s3 -> same_shape s1 s3.
Proof.
  intros (? & ? & ? & ? & ?) (? & ? & ? & ? & ?). repeat split; congruence.
Qed.

Lemma write_vx_shape k v : respects same_shape (write_vx k v).
Proof.
  intros s. unfold write_vx. unfold_m. simpl. case_bool_decide; [| exact I].
  unfold same_shape. simpl. by rewrite length_insert.
Qed.

Lemma write_memory_shape k v : respects same_shape (write_memory k v).
Proof.
  intros s. unfold write_memory. unfold_m. simpl. case_bool_decide; [| exact I].
  unfold same_shape. simpl. by rewrite length_insert.
Qed.

Lemma write_stack_shape k v : respects same_shape (write_stack k v).
Proof.
  intros s. unfold write_stack. unfold_m. simpl. case_bool_decide; [| exact I].
  unfold same_shape. simpl. by rewrite length_insert.
Qed.

Lemma write_display_shape r c v : respects same_shape (write_display r c v).
Proof.
  intros s. unfold write_display. unfold_m. simpl.
  destruct (display s !! Z.to_nat r) as [row |] eqn:Hrow; [| exact I]. simpl.
  case_bool_decide; [| exact I]. simpl. case_bool_decide; [| exact I].
  unfold same_shape. simpl. repeat split.
  rewrite list_fmap_insert, length_insert. apply list_insert_id.
  by rewrite list_lookup_fmap, Hrow.
Qed.

Lemma clear_shape d : length <$> clear d = length <$> d.
Proof.
  unfold clear. induction d as [| row d IH]; [reflexivity |].
  simpl. rewrite length_map. f_equal. exact IH.
Qed.

Ltac shape_step :=
  first
    [ apply write_vx_shape
    | apply write_memory_shape
    | apply write_stack_shape
    | apply write_display_shape
    | respects_step same_shape_refl same_shape_trans
        ltac:(unfold same_shape; simpl; rewrite ?clear_shape; by repeat split) ].

Lemma handlers_keep_shape rnd (handler : M unit) :
  handler ∈ dispatch rnd -> respects same_shape handler.
Proof.
  intros Hin. unfold dispatch in Hin.
  repeat (apply elem_of_cons in Hin as [-> | Hin]);
    [.. | by apply elem_of_nil in Hin];
    unfold opHandler0, opHandler1, opHandler2, opHandler3, opHandler4, opHandler5,
      opHandler6, opHandler7, opHandler8, opHandler9, opHandlerA, opHandlerB,
      opHandlerC, opHandlerD, opHandlerE, opHandlerF, draw_pixel, for_range,
      read_vx, read_memory, read_stack, read_keys, read_display, advance_pc;
    cbv zeta; repeat shape_step.
Qed.

Lemma reachable_Cycles rnds s s' :
  reachable s -> Forall (fun rnd => 0 <= rnd < 256) rnds ->
  Cycles rnds s = Done tt s' -> reachable s'.
Proof.
  revert s. induction rnds as [| rnd rnds IH]; intros s Hs Hrnds Hrun.
  - simpl in Hrun. injection Hrun as <-. exact Hs.
  - apply Forall_cons in Hrnds as [Hrnd Hrnds].
    simpl in Hrun. rewrite bind_run in Hrun.
    destruct (Cycle rnd s) as [[] s1 | |] eqn:Hstep; try discriminate.
    apply (IH s1); try assumption. by apply (reach_cycle rnd s).
Qed.

(** C10, as the code has it.  The interpreter itself checks no index; the
    accesses are bounds-checked by the Go run time.  In a well-formed state
    CALL panics exactly when the stack pointer is 16 or more, RET exactly
    when it is 0 (or above 16), Fx33 exactly when I+2 is outside the memory,
    Fx55 and Fx65 exactly when I+x is; in every other case the handler
    completes.  Whatever a handler does before it returns, every array keeps
    its extent: nothing outside the arrays is written. *)
Theorem array_accesses_are_bounds_checked s x :
  wf s = true -> 0 <= x < 16 ->
  (opHandler2 s = Panic <-> 16 <= sp s) /\
  (Z.land (opcode s) 0x00ff = 0x00ee ->
     (opHandler0 s = Panic <-> sp s = 0 \/ 16 < sp s)) /\
  (opcode s = word 15 x 3 3 -> (opHandlerF s = Panic <-> 4096 <= i s + 2)) /\
  (opcode s = word 15 x 5 5 -> (opHandlerF s = Panic <-> 4096 <= i s + x)) /\
  (opcode s = word 15 x 6 5 -> (opHandlerF s = Panic <-> 4096 <= i s + x)) /\
  (forall rnd (handler : M unit), handler ∈ dispatch rnd ->
     match handler s with
     | Done _ s' => same_shape s s'
     | Fault _ s' => same_shape s s'
     | Panic => True
     end).
Proof.
  intros Hwf Hx.
  split; [by apply opHandler2_panics |].
  split; [by apply opHandler0_ret_panics |].
  split; [by apply opHandlerF_bcd_panics |].
  split; [by apply opHandlerF_store_panics |].
  split; [by apply opHandlerF_load_panics |].
  intros rnd handler Hin. by apply (handlers_keep_shape rnd).
Qed.

Lemma array_accesses_are_bounds_checked_witness :
  opHandler2 (set_sp 16 NewInterpreter) = Panic /\
  opHandler2 (set_sp 15 NewInterpreter) <> Panic.
Proof.
  split.
  - destruct (array_accesses_are_bounds_checked (set_sp 16 NewInterpreter) 0)
      as [Hcall _]; [reflexivity | lia |].
    apply Hcall. simpl. lia.
  - destruct (array_accesses_are_bounds_checked (set_sp 15 NewInterpreter) 0)
      as [Hcall _]; [reflexivity | lia |].
    intros Hp. apply Hcall in Hp. simpl in Hp. lia.
Defined.

(** C10 as stated fails: states in which an access is out of bounds are
    reachable.  A RET as first instruction indexes the stack at 65535; the
    seventeenth nested CALL indexes it at 16; Fx33 with I = 0xFFF indexes the
    memory at 4096.  Each time the cycle ends in a run-time panic. *)
Lemma out_of_bounds_accesses_are_reachable :
  (reachable bare_ret_machine /\ sp bare_ret_machine = 0 /\
   Cycle 0 bare_ret_machine = Panic) /\
  (exists s16,
     Cycles (replicate 16 0) deep_machine = Done tt s16 /\
     reachable s16 /\ sp s16 = 16 /\ Cycle 0 s16 = Panic) /\
  (exists s1,
     Cycle 0 bcd_machine = Done tt s1 /\
     reachable s1 /\ i s1 = 0xFFF /\ Cycle 0 s1 = Panic).
Proof.
  assert (Hload : forall image, Forall (fun b => 0 <= b < 256) image ->
            reachable (Load image NewInterpreter)) by (intros; by constructor).
  split; [| split].
  - split; [apply Hload; repeat constructor; lia |].
    split; [reflexivity | vm_compute; reflexivity].
  - eexists. split; [vm_compute; reflexivity |]. split.
    + apply (reachable_Cycles (replicate 16 0) deep_machine).
      * apply Hload. repeat constructor; lia.
      * repeat constructor; lia.
      * vm_compute. reflexivity.
    + split; [reflexivity | vm_compute; reflexivity].
  - eexists. split; [vm_compute; reflexivity |]. split.
    + apply (reach_cycle 0 bcd_machine); [| lia | vm_compute; reflexivity].
      apply Hload. repeat constructor; lia.
    + split; [reflexivity | vm_compute; reflexivity].
Qed.

(** * Further properties of the handlers *)

(** ** Bytes *)

Lemma byte_bits v :
  0 <= v < 256 <-> 0 <= v /\ (forall k, 8 <= k -> Z.testbit v k = false).
Proof.
  split.
  - intros Hv. split; [lia |]. intros k Hk.
    replace v with (v mod 2 ^ 8) by (apply Z.mod_small; lia).
    apply Z.mod_pow2_bits_high. lia.
  - intros [Hpos Hhigh].
    assert (Heq : v = v mod 2 ^ 8).
    { apply Z.bits_inj'. intros k Hk.
      destruct (Z.lt_ge_cases k 8).
      - by rewrite Z.mod_pow2_bits_low by lia.
      - rewrite Z.mod_pow2_bits_high by lia. by apply Hhigh. }
    rewrite Heq. apply Z.mod_pos_bound. lia.
Qed.

Lemma lor_byte a b : 0 <= a < 256 -> 0 <= b < 256 -> 0 <= Z.lor a b < 256.
Proof.
  rewrite !byte_bits. intros [Ha Ha'] [Hb Hb']. split; [by apply Z.lor_nonneg |].
  intros k Hk. by rewrite Z.lor_spec, Ha', Hb'.
Qed.

Lemma land_byte a b : 0 <= a < 256 -> 0 <= Z.land a b < 256.
Proof.
  rewrite !byte_bits. intros [Ha Ha']. split; [apply Z.land_nonneg; by left |].
  intros k Hk. by rewrite Z.land_spec, Ha'.
Qed.

Lemma lxor_byte a b : 0 <= a < 256 -> 0 <= b < 256 -> 0 <= Z.lxor a b < 256.
Proof.
  rewrite !byte_bits. intros [Ha Ha'] [Hb Hb']. split; [by apply Z.lxor_nonneg |].
  intros k Hk. by rewrite Z.lxor_spec, Ha', Hb'.
Qed.

(** ** The ALU family, continued *)

(** X1.  OR, AND and XOR (8xy1, 8xy2, 8xy3) change register Vx and nothing
    else: the flag register keeps its value, the result is again a byte, and
    the program counter moves on by 2. *)
Theorem logic_ops_leave_flag s x y a b :
  wf s = true -> 0 <= x < 16 -> 0 <= y < 16 ->
  vx s !! Z.to_nat x = Some a -> vx s !! Z.to_nat y = Some b ->
  0 <= a < 256 -> 0 <= b < 256 ->
  forall k f,
    (k = 1 /\ f = Z.lor) \/ (k = 2 /\ f = Z.land) \/ (k = 3 /\ f = Z.lxor) ->
    opcode s = word 8 x y k ->
    opHandler8 s =
      Done tt (set_pc (u16 (pc s + 2)) (set_vx (<[Z.to_nat x := f a b]> (vx s)) s)) /\
    0 <= f a b < 256 /\
    (x <> VF -> (<[Z.to_nat x := f a b]> (vx s)) !! Z.to_nat VF = vx s !! Z.to_nat VF).
Proof.
  intros Hwf Hx Hy Ha Hb Hra Hrb k f Hk Hop.
  apply wf_elim in Hwf as (_ & _ & _ & Hvx & _).
  split; [| split].
  - unfold opHandler8. unfold_m.
    destruct Hk as [[-> ->] | [[-> ->] | [-> ->]]];
      rewrite Hop, word_low_nibble, word_x, word_y by lia; simpl;
      rewrite Ha, Hb; simpl; in_range; reflexivity.
  - destruct Hk as [[_ ->] | [[_ ->] | [_ ->]]];
      [by apply lor_byte | by apply land_byte | by apply lxor_byte].
  - intros Hne. apply list_lookup_insert_ne. unfold VF in *. lia.
Qed.

Lemma logic_ops_leave_flag_witness :
  opHandler8 (with_regs 0x8013 [12; 10; 0; 0; 0; 0; 0; 0; 0; 0; 0; 0; 0; 0; 0; 7]) =
    Done tt (set_pc 0x202
      (set_vx [6; 10; 0; 0; 0; 0; 0; 0; 0; 0; 0; 0; 0; 0; 0; 7]
        (with_regs 0x8013 [12; 10; 0; 0; 0; 0; 0; 0; 0; 0; 0; 0; 0; 0; 0; 7]))).
Proof.
  destruct (logic_ops_leave_flag
              (with_regs 0x8013 [12; 10; 0; 0; 0; 0; 0; 0; 0; 0; 0; 0; 0; 0; 0; 7])
              0 1 12 10) with (k := 3) (f := Z.lxor) as [Hrun _];
    [reflexivity | lia | lia | reflexivity | reflexivity | lia | lia
    | right; right; split; reflexivity | reflexivity |].
  exact Hrun.
Defined.



(** X3.  SUBN Vx, Vy (8xy7): Vx becomes (Vy - Vx) mod 256 and VF, written
    last, becomes 1 iff Vy >= Vx as they were before (so also when they are
    equal), else 0. *)
Theorem op8xy7_subn_not_borrow s x y a b :
  wf s = true -> 0 <= x < 16 -> 0 <= y < 16 ->
  opcode s = word 8 x y 7 ->
  vx s !! Z.to_nat x = Some a -> vx s !! Z.to_nat y = Some b ->
  0 <= a < 256 -> 0 <= b < 256 ->
  exists s',
    opHandler8 s = Done tt s' /\
    vx s' = <[Z.to_nat VF := not_borrow b a]> (<[Z.to_nat x := (b - a) mod 256]> (vx s)) /\
    vx s' !! Z.to_nat VF = Some (not_borrow b a) /\
    (not_borrow b a = 1 <-> b >= a) /\
    (not_borrow b a = 0 <-> b < a) /\
    (x <> VF -> vx s' !! Z.to_nat x = Some ((b - a) mod 256)).
Proof.
  intros Hwf Hx Hy Hop Ha Hb Hra Hrb.
  apply wf_elim in Hwf as (_ & _ & _ & Hvx & _).
  exists (set_pc (u16 (pc s + 2))
    (set_vx (<[Z.to_nat VF := not_borrow b a]>
              (<[Z.to_nat x := (b - a) mod 256]> (vx s))) s)).
  split; [| split; [reflexivity | split; [| split; [| split]]]].
  - unfold opHandler8. unfold_m.
    rewrite Hop, word_low_nibble, word_x, word_y by lia. simpl.
    rewrite Hb. simpl. rewrite Ha. simpl. in_range. simpl. in_range. reflexivity.
  - simpl. apply list_lookup_insert_eq. rewrite length_insert. unfold VF. lia.
  - unfold not_borrow. destruct (Z.leb_spec a b); split; (lia || discriminate).
  - unfold not_borrow. destruct (Z.leb_spec a b); split; (lia || discriminate).
  - intros Hne. simpl. rewrite list_lookup_insert_ne by (unfold VF in *; lia).
    apply list_lookup_insert_eq. lia.
Qed.

Lemma op8xy7_subn_not_borrow_witness :
  exists s',
    opHandler8 (with_regs 0x8127 [0; 5; 5; 0; 0; 0; 0; 0; 0; 0; 0; 0; 0; 0; 0; 9])
      = Done tt s' /\
    vx s' !! Z.to_nat VF = Some 1 /\ vx s' !! 1%nat = Some 0.
Proof.
  destruct (op8xy7_subn_not_borrow
              (with_regs 0x8127 [0; 5; 5; 0; 0; 0; 0; 0; 0; 0; 0; 0; 0; 0; 0; 9])
              1 2 5 5) as (s' & Hrun & _ & Hflag & _ & _ & Hres);
    [reflexivity | lia | lia | reflexivity | reflexivity | reflexivity | lia | lia |].
  exists s'. split; [exact Hrun | split; [exact Hflag |]].
  apply Hres. unfold VF. lia.
Defined.

(** ** Skips *)

Lemma Op_x_range w : 0 <= Op.x w < 16.
Proof. rewrite Op_x_spec. dlia. Qed.

Lemma Op_y_range w : 0 <= Op.y w < 16.
Proof. rewrite Op_y_spec. dlia. Qed.

Lemma read_reg s k :
  wf s = true -> 0 <= k < 16 -> exists a, vx s !! Z.to_nat k = Some a.
Proof.
  intros Hwf Hk. apply wf_elim in Hwf as (_ & _ & _ & Hvx & _).
  apply lookup_lt_is_Some_2. lia.
Qed.

Lemma pc_plus_4 v : u16 (u16 (v + 2) + 2) = u16 (v + 4).
Proof. dlia. Qed.

(** X4.  The skips on an immediate, SE Vx, kk (3xkk) and SNE Vx, kk (4xkk),
    never fail in a well-formed state and change the program counter only:
    on the same state one of the two advances it by 4 and the other by 2,
    SE skipping exactly when Vx = kk. *)
Theorem skip_immediate_complementary s :
  wf s = true ->
  exists a,
    vx s !! Z.to_nat (Op.x (opcode s)) = Some a /\
    opHandler3 s =
      Done tt (set_pc (u16 (pc s + (if a =? Op.byte (opcode s) then 4 else 2))) s) /\
    opHandler4 s =
      Done tt (set_pc (u16 (pc s + (if a =? Op.byte (opcode s) then 2 else 4))) s).
Proof.
  intros Hwf.
  destruct (read_reg s (Op.x (opcode s)) Hwf (Op_x_range _)) as [a Ha].
  exists a. split; [exact Ha |].
  split; [unfold opHandler3 | unfold opHandler4]; unfold_m; simpl; rewrite Ha; simpl;
    destruct (a =? Op.byte (opcode s)); simpl; unfold set_pc; simpl;
    rewrite ?pc_plus_4; reflexivity.
Qed.

Lemma skip_immediate_complementary_witness :
  opHandler3 (with_regs 0x3107 (0 :: 7 :: replicate 14 0)) =
    Done tt (set_pc 0x204 (with_regs 0x3107 (0 :: 7 :: replicate 14 0))) /\
  opHandler4 (with_regs 0x3107 (0 :: 7 :: replicate 14 0)) =
    Done tt (set_pc 0x202 (with_regs 0x3107 (0 :: 7 :: replicate 14 0))).
Proof.
  destruct (skip_immediate_complementary (with_regs 0x3107 (0 :: 7 :: replicate 14 0)))
    as (a & Ha & H3 & H4); [reflexivity |].
  change (Some 7 = Some a) in Ha. injection Ha as <-.
  split; [exact H3 | exact H4].
Defined.

(** X5.  The skips on two registers.  SNE Vx, Vy (family 9) looks at no bit
    of the low nibble: every word 9xyn runs as the skip and none is rejected.
    SE Vx, Vy (family 5) runs only for the low nibble 0 and rejects every
    other word with the state untouched.  Where both run, one advances the
    program counter by 4 and the other by 2, SE skipping exactly when
    Vx = Vy. *)
Theorem skip_registers_complementary s :
  wf s = true ->
  exists a b,
    vx s !! Z.to_nat (Op.x (opcode s)) = Some a /\
    vx s !! Z.to_nat (Op.y (opcode s)) = Some b /\
    opHandler9 s = Done tt (set_pc (u16 (pc s + (if a =? b then 2 else 4))) s) /\
    (Z.land (opcode s) 0x000f = 0 ->
     opHandler5 s = Done tt (set_pc (u16 (pc s + (if a =? b then 4 else 2))) s)) /\
    (Z.land (opcode s) 0x000f <> 0 ->
     opHandler5 s = Fault ErrUnknownOpcode s).
Proof.
  intros Hwf.
  destruct (read_reg s (Op.x (opcode s)) Hwf (Op_x_range _)) as [a Ha].
  destruct (read_reg s (Op.y (opcode s)) Hwf (Op_y_range _)) as [b Hb].
  exists a, b. split; [exact Ha |]. split; [exact Hb |].
  split; [| split].
  - unfold opHandler9. unfold_m. simpl. rewrite Ha. simpl. rewrite Hb. simpl.
    destruct (a =? b); simpl; unfold set_pc; simpl; rewrite ?pc_plus_4; reflexivity.
  - intros Hlow. unfold opHandler5. unfold_m. simpl. rewrite Hlow. simpl.
    rewrite Ha. simpl. rewrite Hb. simpl.
    destruct (a =? b); simpl; unfold set_pc; simpl; rewrite ?pc_plus_4; reflexivity.
  - apply opHandler5_unknown.
Qed.

Lemma skip_registers_complementary_witness :
  opHandler9 (with_regs 0x9017 (4 :: 4 :: replicate 14 0)) =
    Done tt (set_pc 0x202 (with_regs 0x9017 (4 :: 4 :: replicate 14 0))) /\
  opHandler5 (with_regs 0x9017 (4 :: 4 :: replicate 14 0)) =
    Fault ErrUnknownOpcode (with_regs 0x9017 (4 :: 4 :: replicate 14 0)).
Proof.
  destruct (skip_registers_complementary (with_regs 0x9017 (4 :: 4 :: replicate 14 0)))
    as (a & b & Ha & Hb & H9 & _ & H5); [reflexivity |].
  change (Some 4 = Some a) in Ha. injection Ha as <-.
  change (Some 4 = Some b) in Hb. injection Hb as <-.
  split; [exact H9 | apply H5; discriminate].
Defined.

(** X6.  The key skips SKP Vx (Ex9E) and SKNP Vx (ExA1) look up the key
    numbered by the low four bits of Vx, so every value of Vx names a key and
    the lookup never leaves the keypad.  On the same state one of the two
    advances the program counter by 4 and the other by 2, SKP skipping
    exactly when the key is down; nothing else changes. *)
Theorem key_skips_mask_and_complement s :
  wf s = true ->
  exists (a : Z) (down : bool),
    vx s !! Z.to_nat (Op.x (opcode s)) = Some a /\
    keys s !! Z.to_nat (a mod 16) = Some down /\
    (Z.land (opcode s) 0x00ff = 0x009e ->
     opHandlerE s = Done tt (set_pc (u16 (pc s + (if down then 4 else 2))) s)) /\
    (Z.land (opcode s) 0x00ff = 0x00a1 ->
     opHandlerE s = Done tt (set_pc (u16 (pc s + (if down then 2 else 4))) s)).
Proof.
  intros Hwf.
  destruct (read_reg s (Op.x (opcode s)) Hwf (Op_x_range _)) as [a Ha].
  apply wf_elim in Hwf as (_ & _ & _ & _ & _ & _ & Hk & _).
  destruct (lookup_lt_is_Some_2 (keys s) (Z.to_nat (a mod 16))) as [down Hd]; [dlia |].
  exists a, down. split; [exact Ha |]. split; [exact Hd |].
  split; intros Hlow; unfold opHandlerE; unfold_m; simpl;
    rewrite Hlow; simpl; rewrite Ha; simpl;
    change (Z.land a 15) with (Z.land a 0x0f); rewrite land_15, Hd; simpl;
    destruct down; simpl; unfold set_pc; simpl; rewrite ?pc_plus_4; reflexivity.
Qed.

Lemma key_skips_mask_and_complement_witness :
  opHandlerE (set_keys (<[10%nat := true]> (replicate 16 false))
                (with_regs 0xE09E (0x1A :: replicate 15 0))) =
    Done tt (set_pc 0x204
      (set_keys (<[10%nat := true]> (replicate 16 false))
                (with_regs 0xE09E (0x1A :: replicate 15 0)))).
Proof.
  destruct (key_skips_mask_and_complement
              (set_keys (<[10%nat := true]> (replicate 16 false))
                 (with_regs 0xE09E (0x1A :: replicate 15 0))))
    as (a & down & Ha & Hd & Hskp & _); [reflexivity |].
  change (Some 0x1A = Some a) in Ha. injection Ha as <-.
  change (Some true = Some down) in Hd. injection Hd as <-.
  apply Hskp. reflexivity.
Defined.

(** ** Memory transfers *)

(** X7.  LD B, Vx (Fx33) with I+2 inside the memory writes the three decimal
    digits of Vx, hundreds first, to the cells I, I+1 and I+2: each is a
    decimal digit and together they give Vx back.  No other memory cell, no
    register and not I changes. *)
Theorem fx33_stores_decimal_digits s x v :
  wf s = true -> 0 <= x < 16 -> opcode s = word 15 x 3 3 ->
  vx s !! Z.to_nat x = Some v -> 0 <= v < 256 -> i s + 2 < 4096 ->
  exists s' h t o,
    opHandlerF s = Done tt s' /\
    memory s' !! Z.to_nat (i s) = Some h /\
    memory s' !! Z.to_nat (i s + 1) = Some t /\
    memory s' !! Z.to_nat (i s + 2) = Some o /\
    0 <= h <= 2 /\ 0 <= t <= 9 /\ 0 <= o <= 9 /\
    v = 100 * h + 10 * t + o /\
    (forall k : nat,
       k <> Z.to_nat (i s) -> k <> Z.to_nat (i s + 1) -> k <> Z.to_nat (i s + 2) ->
       memory s' !! k = memory s !! k) /\
    vx s' = vx s /\ i s' = i s /\ pc s' = u16 (pc s + 2).
Proof.
  intros Hwf Hx Hop Hv Hrv Hin.
  apply wf_elim in Hwf as (_ & _ & Hi & Hvx & _ & Hmem & _).
  assert (H1 : u16 (i s + 1) = i s + 1) by dlia.
  assert (H2 : u16 (i s + 2) = i s + 2) by dlia.
  exists (set_pc (u16 (pc s + 2))
            (set_memory (<[Z.to_nat (i s + 2) := v mod 10]>
                          (<[Z.to_nat (i s + 1) := (v / 10) mod 10]>
                            (<[Z.to_nat (i s) := v / 100]> (memory s)))) s)),
    (v / 100), ((v / 10) mod 10), (v mod 10).
  split; [| split; [| split; [| split]]].
  - unfold opHandlerF. unfold_m.
    rewrite Hop, word_low_byte, word_x by lia. simpl. rewrite Hv. simpl.
    rewrite H1, H2. in_range. simpl. in_range. simpl. in_range. reflexivity.
  - simpl. rewrite !list_lookup_insert_ne by lia. apply list_lookup_insert_eq. lia.
  - simpl. rewrite list_lookup_insert_ne by lia.
    apply list_lookup_insert_eq. rewrite length_insert. lia.
  - simpl. apply list_lookup_insert_eq. rewrite !length_insert. lia.
  - split; [dlia |]. split; [dlia |]. split; [dlia |]. split; [dlia |].
    split; [| by repeat split].
    intros k Hk0 Hk1 Hk2. simpl. by rewrite !list_lookup_insert_ne by lia.
Qed.

Lemma fx33_stores_decimal_digits_witness :
  exists s' h t o,
    opHandlerF (set_i 0x300 (with_regs 0xF233 (0 :: 0 :: 157 :: replicate 13 0)))
      = Done tt s' /\
    memory s' !! 0x300%nat = Some h /\ memory s' !! 0x301%nat = Some t /\
    memory s' !! 0x302%nat = Some o /\ 157 = 100 * h + 10 * t + o.
Proof.
  destruct (fx33_stores_decimal_digits
              (set_i 0x300 (with_regs 0xF233 (0 :: 0 :: 157 :: replicate 13 0))) 2 157)
    as (s' & h & t & o & Hrun & Hh & Ht & Ho & _ & _ & _ & Hsum & _);
    [reflexivity | lia | reflexivity | reflexivity | lia | simpl; lia |].
  exists s', h, t, o.
  split; [exact Hrun | split; [exact Hh | split; [exact Ht | split; [exact Ho | exact Hsum]]]].
Defined.

(** The loop of Fx55 over any register numbers: each named register is
    copied to its cell behind I, the other cells keep their content. *)
Lemma store_loop ks :
  forall s,
    loop_inv s -> (forall n, n ∈ ks -> 0 <= n < 16 /\ i s + n < 4096) ->
    exists s',
      for_each (fun n => base ← get i; a ← read_vx n; write_memory (u16 (base + n)) a)
        ks s = Done tt s' /\
      s' = set_memory (memory s') s /\
      length (memory s') = 4096%nat /\
      (forall n, n ∈ ks -> memory s' !! Z.to_nat (i s + n) = vx s !! Z.to_nat n) /\
      (forall k : nat, (forall n, n ∈ ks -> k <> Z.to_nat (i s + n)) ->
         memory s' !! k = memory s !! k).
Proof.
  induction ks as [| m ks IH]; intros s Hinv Hks.
  - exists s. split; [reflexivity |]. split; [by destruct s |].
    destruct Hinv as (_ & _ & Hm). split; [exact Hm |].
    split; [| reflexivity]. intros n Hn. by apply elem_of_nil in Hn.
  - destruct Hinv as (Hi & Hvx & Hmem).
    destruct (Hks m) as [Hm Hin]; [by constructor |].
    destruct (lookup_lt_is_Some_2 (vx s) (Z.to_nat m)) as [a Ha]; [lia |].
    set (s1 := set_memory (<[Z.to_nat (i s + m) := a]> (memory s)) s).
    assert (Hstep : (base ← get i; a ← read_vx m; write_memory (u16 (base + m)) a) s
                    = Done tt s1).
    { unfold_m. simpl. rewrite Ha. simpl.
      replace (u16 (i s + m)) with (i s + m) by dlia. in_range. reflexivity. }
    destruct (IH s1) as (s' & Hrun & Hframe & Hlen & Hset & Hrest).
    { unfold loop_inv, s1. simpl. rewrite length_insert.
      repeat split; (lia || assumption). }
    { intros n Hn. apply Hks. by constructor. }
    exists s'. split; [| split; [| split; [exact Hlen | split]]].
    + simpl. rewrite bind_run, Hstep. exact Hrun.
    + rewrite Hframe at 1. reflexivity.
    + intros n Hn. destruct (decide (n ∈ ks)) as [Hnk | Hnk]; [by apply Hset |].
      apply elem_of_cons in Hn as [-> | Hn]; [| done].
      rewrite Hrest.
      * simpl. rewrite Ha. apply list_lookup_insert_eq. lia.
      * intros n Hn Heq. destruct (Hks n) as [Hn0 Hn1]; [by constructor |].
        simpl in Heq. assert (n = m) by lia. by subst.
    + intros k Hk. rewrite Hrest.
      * simpl. apply list_lookup_insert_ne. intros Heq. apply (Hk m); [constructor | done].
      * intros n Hn. apply Hk. by constructor.
Qed.

(** The loop of Fx65 over any register numbers: each named register receives
    the content of its cell behind I, the other registers keep their value. *)
Lemma load_loop ks :
  forall s,
    loop_inv s -> (forall n, n ∈ ks -> 0 <= n < 16 /\ i s + n < 4096) ->
    exists s',
      for_each (fun n => base ← get i; b ← read_memory (u16 (base + n)); write_vx n b)
        ks s = Done tt s' /\
      s' = set_vx (vx s') s /\
      length (vx s') = 16%nat /\
      (forall n, n ∈ ks -> vx s' !! Z.to_nat n = memory s !! Z.to_nat (i s + n)) /\
      (forall k : nat, (forall n, n ∈ ks -> k <> Z.to_nat n) ->
         vx s' !! k = vx s !! k).
Proof.
  induction ks as [| m ks IH]; intros s Hinv Hks.
  - exists s. split; [reflexivity |]. split; [by destruct s |].
    destruct Hinv as (_ & Hv & _). split; [exact Hv |].
    split; [| reflexivity]. intros n Hn. by apply elem_of_nil in Hn.
  - destruct Hinv as (Hi & Hvx & Hmem).
    destruct (Hks m) as [Hm Hin]; [by constructor |].
    destruct (lookup_lt_is_Some_2 (memory s) (Z.to_nat (i s + m))) as [b Hb]; [lia |].
    set (s1 := set_vx (<[Z.to_nat m := b]> (vx s)) s).
    assert (Hstep : (base ← get i; b ← read_memory (u16 (base + m)); write_vx m b) s
                    = Done tt s1).
    { unfold_m. simpl. replace (u16 (i s + m)) with (i s + m) by dlia.
      rewrite Hb. simpl. in_range. reflexivity. }
    destruct (IH s1) as (s' & Hrun & Hframe & Hlen & Hset & Hrest).
    { unfold loop_inv, s1. simpl. rewrite length_insert.
      repeat split; (lia || assumption). }
    { intros n Hn. apply Hks. by constructor. }
    exists s'. split; [| split; [| split; [exact Hlen | split]]].
    + simpl. rewrite bind_run, Hstep. exact Hrun.
    + rewrite Hframe at 1. reflexivity.
    + intros n Hn. destruct (decide (n ∈ ks)) as [Hnk | Hnk]; [by apply Hset |].
      apply elem_of_cons in Hn as [-> | Hn]; [| done].
      rewrite Hrest.
      * simpl. rewrite Hb. apply list_lookup_insert_eq. lia.
      * intros n Hn Heq. destruct (Hks n) as [Hn0 Hn1]; [by constructor |].
        assert (n = m) by lia. by subst.
    + intros k Hk. rewrite Hrest.
      * simpl. apply list_lookup_insert_ne. intros Heq. apply (Hk m); [constructor | done].
      * intros n Hn. apply Hk. by constructor.
Qed.

Lemma opHandlerF_store_run s x :
  wf s = true -> 0 <= x < 16 -> opcode s = word 15 x 5 5 -> i s + x < 4096 ->
  exists s',
    opHandlerF s = Done tt s' /\
    s' = set_pc (u16 (pc s + 2)) (set_memory (memory s') s) /\
    length (memory s') = 4096%nat /\
    (forall n, 0 <= n <= x -> memory s' !! Z.to_nat (i s + n) = vx s !! Z.to_nat n) /\
    (forall k : nat, (k < Z.to_nat (i s) \/ Z.to_nat (i s + x) < k)%nat ->
       memory s' !! k = memory s !! k).
Proof.
  intros Hwf Hx Hop Hin.
  apply wf_elim in Hwf as (_ & _ & Hi & Hvx & _ & Hmem & _).
  destruct (store_loop (seqZ 0 (x + 1)) s) as (s1 & Hrun & Hframe & Hlen & Hset & Hrest).
  { repeat split; (lia || assumption). }
  { intros n Hn. apply elem_of_seqZ in Hn. lia. }
  exists (set_pc (u16 (pc s1 + 2)) s1).
  split; [| split; [| split; [exact Hlen | split]]].
  - unfold opHandlerF. rewrite bind_run. unfold get at 1.
    rewrite Hop, word_low_byte, word_x by lia. simpl.
    rewrite bind_run. unfold for_range.
    replace (u8 (x + 1)) with (x + 1) by dlia. by rewrite Hrun.
  - rewrite Hframe at 1 2. reflexivity.
  - intros n Hn. simpl. apply Hset. apply elem_of_seqZ. lia.
  - intros k Hk. simpl. apply Hrest. intros n Hn. apply elem_of_seqZ in Hn. lia.
Qed.

Lemma opHandlerF_load_run s x :
  wf s = true -> 0 <= x < 16 -> opcode s = word 15 x 6 5 -> i s + x < 4096 ->
  exists s',
    opHandlerF s = Done tt s' /\
    s' = set_pc (u16 (pc s + 2)) (set_vx (vx s') s) /\
    length (vx s') = 16%nat /\
    (forall n, 0 <= n <= x -> vx s' !! Z.to_nat n = memory s !! Z.to_nat (i s + n)) /\
    (forall k : nat, (Z.to_nat x < k)%nat -> vx s' !! k = vx s !! k).
Proof.
  intros Hwf Hx Hop Hin.
  apply wf_elim in Hwf as (_ & _ & Hi & Hvx & _ & Hmem & _).
  destruct (load_loop (seqZ 0 (x + 1)) s) as (s1 & Hrun & Hframe & Hlen & Hset & Hrest).
  { repeat split; (lia || assumption). }
  { intros n Hn. apply elem_of_seqZ in Hn. lia. }
  exists (set_pc (u16 (pc s1 + 2)) s1).
  split; [| split; [| split; [exact Hlen | split]]].
  - unfold opHandlerF. rewrite bind_run. unfold get at 1.
    rewrite Hop, word_low_byte, word_x by lia. simpl.
    rewrite bind_run. unfold for_range.
    replace (u8 (x + 1)) with (x + 1) by dlia. by rewrite Hrun.
  - rewrite Hframe at 1 2. reflexivity.
  - intros n Hn. simpl. apply Hset. apply elem_of_seqZ. lia.
  - intros k Hk. simpl. apply Hrest. intros n Hn. apply elem_of_seqZ in Hn. lia.
Qed.

(** X8.  LD [I], Vx (Fx55) with I+x inside the memory copies the registers
    V0..Vx to the cells I..I+x and changes no other cell; the registers and I
    itself keep their values (I is not advanced). *)
Theorem fx55_stores_registers s x :
  wf s = true -> 0 <= x < 16 -> opcode s = word 15 x 5 5 -> i s + x < 4096 ->
  exists s',
    opHandlerF s = Done tt s' /\
    (forall n, 0 <= n <= x -> memory s' !! Z.to_nat (i s + n) = vx s !! Z.to_nat n) /\
    (forall k : nat, (k < Z.to_nat (i s) \/ Z.to_nat (i s + x) < k)%nat ->
       memory s' !! k = memory s !! k) /\
    vx s' = vx s /\ i s' = i s /\ pc s' = u16 (pc s + 2).
Proof.
  intros Hwf Hx Hop Hin.
  destruct (opHandlerF_store_run s x Hwf Hx Hop Hin)
    as (s' & Hrun & Hframe & _ & Hset & Hrest).
  exists s'. split; [exact Hrun |]. split; [exact Hset |]. split; [exact Hrest |].
  rewrite Hframe. by repeat split.
Qed.

Lemma fx55_stores_registers_witness :
  exists s',
    opHandlerF (set_i 0x300 (with_regs 0xF255 (11 :: 22 :: 33 :: replicate 13 0)))
      = Done tt s' /\
    memory s' !! 0x302%nat = Some 33 /\ i s' = 0x300.
Proof.
  destruct (fx55_stores_registers
              (set_i 0x300 (with_regs 0xF255 (11 :: 22 :: 33 :: replicate 13 0))) 2)
    as (s' & Hrun & Hset & _ & _ & Hi & _);
    [reflexivity | lia | reflexivity | simpl; lia |].
  exists s'. split; [exact Hrun |]. split; [| exact Hi].
  exact (Hset 2 ltac:(lia)).
Defined.

(** X9.  LD Vx, [I] (Fx65) with I+x inside the memory copies the cells
    I..I+x to the registers V0..Vx and changes no other register; the memory
    and I itself keep their values. *)
Theorem fx65_loads_registers s x :
  wf s = true -> 0 <= x < 16 -> opcode s = word 15 x 6 5 -> i s + x < 4096 ->
  exists s',
    opHandlerF s = Done tt s' /\
    (forall n, 0 <= n <= x -> vx s' !! Z.to_nat n = memory s !! Z.to_nat (i s + n)) /\
    (forall k : nat, (Z.to_nat x < k)%nat -> vx s' !! k = vx s !! k) /\
    memory s' = memory s /\ i s' = i s /\ pc s' = u16 (pc s + 2).
Proof.
  intros Hwf Hx Hop Hin.
  destruct (opHandlerF_load_run s x Hwf Hx Hop Hin)
    as (s' & Hrun & Hframe & _ & Hset & Hrest).
  exists s'. split; [exact Hrun |]. split; [exact Hset |]. split; [exact Hrest |].
  rewrite Hframe. by repeat split.
Qed.

Lemma fx65_loads_registers_witness :
  exists s',
    opHandlerF (Load [] (set_i 1 (with_regs 0xF165 (replicate 16 9))))
      = Done tt s' /\
    vx s' !! 0%nat = Some 0x90 /\ vx s' !! 1%nat = Some 0x90 /\ vx s' !! 2%nat = Some 9.
Proof.
  destruct (fx65_loads_registers
              (Load [] (set_i 1 (with_regs 0xF165 (replicate 16 9)))) 1)
    as (s' & Hrun & Hset & Hrest & _);
    [reflexivity | lia | reflexivity | simpl; lia |].
  exists s'. split; [exact Hrun |].
  split; [exact (Hset 0 ltac:(lia)) |].
  split; [exact (Hset 1 ltac:(lia)) | exact (Hrest 2%nat ltac:(simpl; lia))].
Defined.

(** X10.  Round trip: Fx55 followed by Fx65 with the same x and the same I
    gives every register the value it had before the store. *)
Theorem store_then_load_round_trip s x :
  wf s = true -> 0 <= x < 16 -> opcode s = word 15 x 5 5 -> i s + x < 4096 ->
  exists s1 s2,
    opHandlerF s = Done tt s1 /\
    opHandlerF (set_opcode (word 15 x 6 5) s1) = Done tt s2 /\
    vx s2 = vx s /\ memory s2 = memory s1 /\ i s2 = i s.
Proof.
  intros Hwf Hx Hop Hin.
  destruct (opHandlerF_store_run s x Hwf Hx Hop Hin)
    as (s1 & Hrun1 & Hframe1 & Hlen1 & Hset1 & _).
  pose proof (wf_elim s Hwf) as (Hpc & Hsp & Hi & Hvx & Hst & Hmem & Hk & Hd & Hrows).
  assert (Hv1 : vx s1 = vx s) by (by rewrite Hframe1).
  assert (Hi1 : i s1 = i s) by (by rewrite Hframe1).
  assert (Hwf1 : wf (set_opcode (word 15 x 6 5) s1) = true).
  { rewrite wf_set_opcode. apply wf_intro; rewrite Hframe1; simpl;
      try assumption; try dlia. }
  destruct (opHandlerF_load_run (set_opcode (word 15 x 6 5) s1) x Hwf1 Hx eq_refl)
    as (s2 & Hrun2 & Hframe2 & Hlen2 & Hset2 & Hrest2).
  { simpl. by rewrite Hi1. }
  simpl in Hset2, Hrest2. rewrite Hi1 in Hset2. rewrite Hv1 in Hrest2.
  exists s1, s2. split; [exact Hrun1 |]. split; [exact Hrun2 |].
  split; [| split; [by rewrite Hframe2 | by rewrite Hframe2]].
  apply list_eq. intros k.
  destruct (decide (Z.to_nat x < k)%nat) as [Hhigh | Hlow]; [by apply Hrest2 |].
  specialize (Hset2 (Z.of_nat k) ltac:(lia)). specialize (Hset1 (Z.of_nat k) ltac:(lia)).
  rewrite Nat2Z.id in Hset2, Hset1. by rewrite Hset2, Hset1.
Qed.

Lemma store_then_load_round_trip_witness :
  exists s1 s2,
    opHandlerF (set_i 0x300 (with_regs 0xF255 (11 :: 22 :: 33 :: replicate 13 0)))
      = Done tt s1 /\
    opHandlerF (set_opcode 0xF265 s1) = Done tt s2 /\
    vx s2 = 11 :: 22 :: 33 :: replicate 13 0.
Proof.
  destruct (store_then_load_round_trip
              (set_i 0x300 (with_regs 0xF255 (11 :: 22 :: 33 :: replicate 13 0))) 2)
    as (s1 & s2 & Hrun1 & Hrun2 & Hvx & _);
    [reflexivity | lia | reflexivity | simpl; lia |].
  exists s1, s2. split; [exact Hrun1 | split; [exact Hrun2 | exact Hvx]].
Defined.

(** ** Loading *)

Lemma copy_length dst src : length (copy dst src) = length dst.
Proof. unfold copy. rewrite length_app, length_take, length_drop. lia. Qed.

Lemma copy_lookup_lt dst src (k : nat) :
  (k < length src)%nat -> (k < length dst)%nat -> copy dst src !! k = src !! k.
Proof.
  intros Hs Hd. unfold copy.
  rewrite lookup_app_l by (rewrite length_take; lia).
  by apply lookup_take_lt.
Qed.

Lemma copy_lookup_ge dst src (k : nat) :
  (length src <= k)%nat -> copy dst src !! k = dst !! k.
Proof.
  intros Hs. unfold copy.
  destruct (decide (length src <= length dst)%nat) as [Hle | Hgt].
  - rewrite lookup_app_r by (rewrite length_take; lia).
    rewrite length_take, lookup_drop. f_equal. lia.
  - rewrite drop_ge by lia. rewrite app_nil_r.
    rewrite lookup_take_ge by lia. symmetry. apply lookup_ge_None_2. lia.
Qed.

(** [Load] keeps the size of the memory and installs the font table. *)
Lemma Load_length image s :
  length (memory s) = 4096%nat -> length (memory (Load image s)) = 4096%nat.
Proof.
  intros Hlen. unfold Load. cbn [memory set_memory].
  rewrite length_app, length_take, !copy_length, length_drop, copy_length. lia.
Qed.

Lemma Load_font image s :
  length (memory s) = 4096%nat ->
  forall k : nat, (k < 80)%nat -> memory (Load image s) !! k = digitSprites !! k.
Proof.
  intros Hlen k Hk. unfold Load. cbn [memory set_memory].
  assert (Hfont : length digitSprites = 80%nat) by reflexivity.
  rewrite lookup_app_l by (rewrite length_take, copy_length; lia).
  rewrite lookup_take_lt by lia. apply copy_lookup_lt; lia.
Qed.

(** X11.  [Load] on a machine whose memory has its 4096 cells, for a reader
    that delivers [image] in one read: the memory keeps its size whatever the
    length of the image; the font table fills the cells 0..79; the image
    fills the cells from 0x200 on, cut off after 3584 bytes at the end of the
    memory; the cells 80..0x1FF and the cells behind the image keep their
    content, and nothing but the memory changes. *)
Theorem Load_layout image s :
  length (memory s) = 4096%nat ->
  length (memory (Load image s)) = 4096%nat /\
  (forall k : nat, (k < 80)%nat -> memory (Load image s) !! k = digitSprites !! k) /\
  (forall k : nat, (k < length image)%nat -> (k < 3584)%nat ->
     memory (Load image s) !! (512 + k)%nat = image !! k) /\
  (forall k : nat, (80 <= k < 512)%nat -> memory (Load image s) !! k = memory s !! k) /\
  (forall k : nat, (512 + length image <= k)%nat ->
     memory (Load image s) !! k = memory s !! k) /\
  Load image s = set_memory (memory (Load image s)) s.
Proof.
  intros Hlen. unfold Load. cbn [memory set_memory].
  set (m := copy (memory s) digitSprites).
  assert (Hm : length m = 4096%nat) by (unfold m; by rewrite copy_length).
  assert (Htake : length (take 512 m) = 512%nat)
    by (rewrite length_take; lia).
  assert (Hfont : length digitSprites = 80%nat) by reflexivity.
  split; [| split; [| split; [| split; [| split]]]].
  - rewrite length_app, Htake, copy_length, length_drop. lia.
  - intros k Hk. rewrite lookup_app_l by lia. rewrite lookup_take_lt by lia.
    unfold m. apply copy_lookup_lt; lia.
  - intros k Hk Hk'. rewrite lookup_app_r by lia. rewrite Htake.
    replace (512 + k - 512)%nat with k by lia.
    apply copy_lookup_lt; [lia |]. rewrite length_drop. lia.
  - intros k Hk. rewrite lookup_app_l by lia. rewrite lookup_take_lt by lia.
    unfold m. apply copy_lookup_ge. lia.
  - intros k Hk. rewrite lookup_app_r by lia. rewrite Htake.
    rewrite copy_lookup_ge by lia. rewrite lookup_drop.
    replace (512 + (k - 512))%nat with k by lia.
    unfold m. apply copy_lookup_ge. lia.
  - reflexivity.
Qed.

Lemma Load_layout_witness :
  length (memory (Load (replicate 5000 7) NewInterpreter)) = 4096%nat /\
  memory (Load (replicate 5000 7) NewInterpreter) !! (512 + 3583)%nat = Some 7 /\
  memory (Load (replicate 5000 7) NewInterpreter) !! 0%nat = Some 0xf0.
Proof.
  destruct (Load_layout (replicate 5000 7) NewInterpreter) as (Hlen & Hfont & Himg & _);
    [reflexivity |].
  split; [exact Hlen |]. split.
  - rewrite (Himg 3583%nat); [| rewrite length_replicate; lia | lia].
    apply lookup_replicate_2. lia.
  - exact (Hfont 0%nat ltac:(lia)).
Defined.

(** X12.  A cycle started with the program counter at 0xFFF or beyond cannot
    fetch its two-byte instruction word and ends in a run-time panic: the
    last cell of the memory cannot hold the first byte of an instruction. *)
Theorem fetch_at_end_of_memory_panics rnd s :
  wf s = true -> 4095 <= pc s -> Cycle rnd s = Panic.
Proof.
  intros Hwf Hpc. apply wf_elim in Hwf as (Hpc' & _ & _ & _ & _ & Hmem & _).
  unfold Cycle. unfold_m. cbn beta iota.
  destruct (memory s !! Z.to_nat (pc s)) as [hi |] eqn:Hhi; [| reflexivity].
  apply lookup_lt_Some in Hhi.
  rewrite (lookup_ge_None_2 (memory s)) by dlia. reflexivity.
Qed.

Lemma fetch_at_end_of_memory_panics_witness :
  pc (final (Cycle 0 jump_end_machine) jump_end_machine) = 0xFFF /\
  Cycle 0 (final (Cycle 0 jump_end_machine) jump_end_machine) = Panic.
Proof.
  split; [reflexivity |].
  apply fetch_at_end_of_memory_panics; [reflexivity |].
  change (4095 <= 4095). lia.
Defined.

(** X13.  LD F, Vx (Fx29) sets I to 5 times the low four bits of Vx, which
    is inside the font table; with the font table in place, as [Load] leaves
    it, the five cells from I on hold the sprite rows of that hexadecimal
    digit.  Nothing but I and the program counter changes. *)
Theorem fx29_points_to_digit_sprite s x a :
  wf s = true -> 0 <= x < 16 -> opcode s = word 15 x 2 9 ->
  vx s !! Z.to_nat x = Some a -> font_installed s ->
  exists s',
    opHandlerF s = Done tt s' /\
    s' = set_pc (u16 (pc s + 2)) (set_i (5 * (a mod 16)) s) /\
    0 <= i s' /\ i s' + 4 < 80 /\
    (forall r, 0 <= r < 5 ->
       memory s' !! Z.to_nat (i s' + r) =
       digitSprites !! Z.to_nat (5 * (a mod 16) + r)).
Proof.
  intros Hwf Hx Hop Ha Hfont.
  exists (set_pc (u16 (pc s + 2)) (set_i (5 * (a mod 16)) s)).
  split; [| split; [reflexivity |]].
  - unfold opHandlerF. unfold_m.
    rewrite Hop, word_low_byte, word_x by lia. simpl. rewrite Ha. simpl.
    change (Z.land a 15) with (Z.land a 0x0f). rewrite land_15.
    replace (u8 (a mod 16 * 5)) with (5 * (a mod 16)) by dlia. reflexivity.
  - simpl. split; [dlia |]. split; [dlia |].
    intros r Hr. apply Hfont. dlia.
Qed.

Lemma fx29_points_to_digit_sprite_witness :
  exists s',
    opHandlerF (Load [] (with_regs 0xF329 (0 :: 0 :: 0 :: 0x1A :: replicate 12 0)))
      = Done tt s' /\
    i s' = 50 /\
    memory s' !! 50%nat = Some 0xf0 /\ memory s' !! 54%nat = Some 0x90.
Proof.
  destruct (fx29_points_to_digit_sprite
              (Load [] (with_regs 0xF329 (0 :: 0 :: 0 :: 0x1A :: replicate 12 0))) 3 0x1A)
    as (s' & Hrun & Hs' & _ & _ & Hrows);
    [reflexivity | lia | reflexivity | reflexivity | |].
  - exact (Load_font [] (with_regs 0xF329 (0 :: 0 :: 0 :: 0x1A :: replicate 12 0))
             eq_refl).
  - exists s'. split; [exact Hrun |]. split; [by rewrite Hs' |].
    assert (Hi : i s' = 50) by (by rewrite Hs').
    split.
    + specialize (Hrows 0 ltac:(lia)). rewrite Hi in Hrows. exact Hrows.
    + specialize (Hrows 4 ltac:(lia)). rewrite Hi in Hrows. exact Hrows.
Defined.

(** ** The cycle counter *)

Lemma same_clock_refl s : same_clock s s.
Proof. reflexivity. Qed.

Lemma same_clock_trans s1 s2 s3 :
  same_clock s1 s2 -> same_clock s2 s3 -> same_clock s1 s3.
Proof. unfold same_clock. congruence. Qed.

Lemma handlers_same_clock rnd (handler : M unit) :
  handler ∈ dispatch rnd -> respects same_clock handler.
Proof.
  intros Hin. unfold dispatch in Hin.
  repeat (apply elem_of_cons in Hin as [-> | Hin]);
    [.. | by apply elem_of_nil in Hin];
    unfold_handlers;
    respects_steps same_clock_refl same_clock_trans ltac:(reflexivity).
Qed.

Lemma fetch_execute_same_clock rnd : respects same_clock (fetch_execute rnd).
Proof.
  assert (Hd : forall k,
            respects same_clock (handler ← index (dispatch rnd) k; handler)).
  { intros k s. rewrite bind_run. unfold index.
    destruct (dispatch rnd !! Z.to_nat k) as [handler |] eqn:Hh; [| exact I].
    apply (handlers_same_clock rnd). by apply list_elem_of_lookup_2 in Hh. }
  unfold fetch_execute, read_memory.
  repeat first
    [ apply Hd
    | respects_step same_clock_refl same_clock_trans ltac:(reflexivity) ].
Qed.

Lemma timers_clock s :
  0 <= clockCycleCounter s <= 14 ->
  exists s',
    timers s = Done tt s' /\
    clockCycleCounter s' = (clockCycleCounter s + 1) mod 15.
Proof.
  intros Hc. unfold timers. unfold_m. simpl.
  change (CPUFrequency / ClockFrequency) with 14.
  destruct (Z.eqb_spec (clockCycleCounter s) 14) as [Heq | Hne]; simpl.
  - repeat match goal with
           | |- context [if ?b then _ else _] => destruct b; simpl
           end;
      eexists; (split; [reflexivity |]); simpl; rewrite Heq; reflexivity.
  - eexists. split; [reflexivity |]. simpl. dlia.
Qed.

(** X14.  The cycle counter runs through 0..14: after any number of cycles
    that return normally it has advanced by that number modulo 15.  The timer
    part therefore decrements the timers on every 15th cycle (when the
    counter stands at 14 = 850/60), not on every 14th. *)
Theorem cycle_counter_has_period_15 rnds s s' :
  0 <= clockCycleCounter s <= 14 ->
  Cycles rnds s = Done tt s' ->
  clockCycleCounter s' = (clockCycleCounter s + Z.of_nat (length rnds)) mod 15.
Proof.
  revert s. induction rnds as [| rnd rnds IH]; intros s Hc Hrun.
  - simpl in *. injection Hrun as <-. dlia.
  - simpl in Hrun. rewrite bind_run, Cycle_split, bind_run in Hrun.
    pose proof (fetch_execute_same_clock rnd s) as Hsame.
    destruct (fetch_execute rnd s) as [[] s0 | e s0 |]; try discriminate.
    unfold same_clock in Hsame.
    destruct (timers_clock s0) as (s1 & Ht & Hc1); [by rewrite Hsame |].
    rewrite Ht in Hrun. rewrite (IH s1); [| rewrite Hc1; dlia | exact Hrun].
    rewrite Hc1, Hsame. simpl length. rewrite Nat2Z.inj_succ. dlia.
Qed.

Lemma cycle_counter_has_period_15_witness :
  clockCycleCounter (final (Cycles (replicate 15 0) tone_machine) tone_machine) = 0 /\
  clockCycleCounter (final (Cycles (replicate 14 0) tone_machine) tone_machine) = 14.
Proof.
  split.
  - apply (cycle_counter_has_period_15 (replicate 15 0) tone_machine);
      [simpl; lia | vm_compute; reflexivity].
  - apply (cycle_counter_has_period_15 (replicate 14 0) tone_machine);
      [simpl; lia | vm_compute; reflexivity].
Defined.

(** ** Drawing, continued *)

(** [opHandlerD] with all it leaves unchanged. *)
Lemma opHandlerD_effect s x y n sx sy :
  wf s = true ->
  0 <= x < 16 -> 0 <= y < 16 -> 0 <= n < 16 ->
  opcode s = word 13 x y n ->
  vx s !! Z.to_nat x = Some sx -> vx s !! Z.to_nat y = Some sy ->
  0 <= sx < 256 -> 0 <= sy < 256 ->
  (forall row, 0 <= row < n -> i s + row < 4096) ->
  exists s',
    opHandlerD s = Done tt s' /\
    s' = set_pc (u16 (pc s + 2)) (set_vx (vx s') (set_display (display s') s)) /\
    grid (display s') /\
    vx s' = <[Z.to_nat VF :=
                if existsb (collides (display s) (memory s) (i s) sx sy) (pixels n)
                then 1 else 0]> (vx s) /\
    (forall p, p ∈ pixels n ->
       pixel (display s') (pos sx sy p).1 (pos sx sy p).2 =
       Z.lxor (pixel (display s) (pos sx sy p).1 (pos sx sy p).2)
              (sprite_bit (byte_at (memory s) (i s + p.1)) p.2)) /\
    (forall r c, 0 <= r -> 0 <= c -> (r, c) ∉ pos sx sy <$> pixels n ->
       pixel (display s') r c = pixel (display s) r c).
Proof.
  intros Hwf Hx Hy Hn Hop Hsx Hsy Hrx Hry Hmem.
  apply wf_elim in Hwf as (_ & _ & Hi & Hvx & _ & Hlen & _ & Hd & Hrows).
  assert (Hg : grid (display s)).
  { split; [exact Hd |]. apply Forall_lookup. exact Hrows. }
  set (s0 := set_vx (<[Z.to_nat VF := 0]> (vx s)) s).
  destruct (draw_loop sx sy (pixels n) Hrx Hry (NoDup_pos_pixels sx sy n ltac:(lia)) s0)
    as (s' & Hrun & Hframe & Hg' & Hvx' & Hpix & Hrest).
  { exact Hg. }
  { simpl. by rewrite length_insert. }
  { exact Hlen. }
  { simpl. lia. }
  { intros p Hp. apply elem_of_pixels in Hp. simpl.
    split; [lia |]. split; [lia |]. apply Hmem. lia. }
  simpl in Hvx', Hpix, Hrest.
  exists (set_pc (u16 (pc s' + 2)) s').
  split; [| split; [| split; [exact Hg' | split; [| split; [exact Hpix | exact Hrest]]]]].
  - unfold opHandlerD. rewrite bind_run. unfold get at 1.
    rewrite Hop, word_x, word_y, word_n by lia.
    rewrite bind_run. unfold read_vx at 1, get at 1. rewrite bind_run.
    unfold index at 1. rewrite Hsx.
    rewrite bind_run. unfold read_vx at 1, get at 1. rewrite bind_run.
    unfold index at 1. rewrite Hsy.
    rewrite bind_run.
    assert (Hw : write_vx VF 0 s = Done tt s0).
    { unfold write_vx. unfold_m. simpl. in_range. reflexivity. }
    rewrite Hw, bind_run. unfold for_range.
    rewrite (for_each_nested (draw_pixel sx sy) (seqZ 0 n) (seqZ 0 8) s0).
    fold (pixels n). rewrite Hrun. reflexivity.
  - simpl. rewrite Hframe at 1 2. reflexivity.
  - simpl. rewrite Hvx'.
    destruct (existsb _ (pixels n)); [apply list_insert_insert_eq | reflexivity].
Qed.

Lemma grid_rows d : grid d -> forall r row, d !! r = Some row -> length row = 64%nat.
Proof. intros [_ Hrows] r row Hr. by apply (proj1 (Forall_lookup _ _) Hrows r). Qed.

(** Two grids with the same pixels are the same display. *)
Lemma grid_ext d d' :
  grid d -> grid d' ->
  (forall r c, 0 <= r < 32 -> 0 <= c < 64 -> pixel d r c = pixel d' r c) ->
  d = d'.
Proof.
  intros Hg Hg' Hpix. apply list_eq. intros k.
  destruct (decide (k < 32)%nat) as [Hk | Hk].
  2:{ destruct Hg as [Hl _], Hg' as [Hl' _].
      rewrite !lookup_ge_None_2 by lia. reflexivity. }
  destruct (grid_lookup d (Z.of_nat k) Hg ltac:(lia)) as (row & Hrow & Hlen).
  destruct (grid_lookup d' (Z.of_nat k) Hg' ltac:(lia)) as (row' & Hrow' & Hlen').
  rewrite Nat2Z.id in Hrow, Hrow'. rewrite Hrow, Hrow'. f_equal.
  apply list_eq. intros j.
  destruct (decide (j < 64)%nat) as [Hj | Hj].
  2:{ rewrite !lookup_ge_None_2 by lia. reflexivity. }
  specialize (Hpix (Z.of_nat k) (Z.of_nat j) ltac:(lia) ltac:(lia)).
  unfold pixel, cell in Hpix. rewrite !Nat2Z.id, Hrow, Hrow' in Hpix. simpl in Hpix.
  destruct (lookup_lt_is_Some_2 row j) as [v Hv]; [lia |].
  destruct (lookup_lt_is_Some_2 row' j) as [v' Hv']; [lia |].
  rewrite Hv, Hv' in *. simpl in Hpix. by subst.
Qed.

(** X15.  Drawing is an involution: the same DRW instruction executed twice
    in a row (with neither coordinate taken from VF) leaves the display
    exactly as it was before the first draw. *)
Theorem draw_twice_restores_display s x y n sx sy :
  wf s = true ->
  0 <= x < 16 -> 0 <= y < 16 -> 0 <= n < 16 -> x <> VF -> y <> VF ->
  opcode s = word 13 x y n ->
  vx s !! Z.to_nat x = Some sx -> vx s !! Z.to_nat y = Some sy ->
  0 <= sx < 256 -> 0 <= sy < 256 ->
  (forall row, 0 <= row < n -> i s + row < 4096) ->
  exists s1 s2,
    opHandlerD s = Done tt s1 /\
    opHandlerD s1 = Done tt s2 /\
    display s2 = display s.
Proof.
  intros Hwf Hx Hy Hn Hxf Hyf Hop Hsx Hsy Hrx Hry Hmem.
  destruct (opHandlerD_effect s x y n sx sy)
    as (s1 & Hrun1 & Hf1 & Hg1 & Hv1 & Hpix1 & Hrest1); try assumption.
  pose proof (wf_elim s Hwf) as (Hpc & Hsp & Hi & Hvx & Hst & Hlen & Hk & Hd & Hrows).
  assert (Hg : grid (display s)).
  { split; [exact Hd |]. apply Forall_lookup. exact Hrows. }
  assert (Hm1 : memory s1 = memory s) by (by rewrite Hf1).
  assert (Hi1 : i s1 = i s) by (by rewrite Hf1).
  assert (Hwf1 : wf s1 = true).
  { apply wf_intro; rewrite Hf1; simpl; try assumption; try dlia.
    - rewrite Hv1, length_insert. exact Hvx.
    - by destruct Hg1.
    - by apply grid_rows. }
  destruct (opHandlerD_effect s1 x y n sx sy)
    as (s2 & Hrun2 & Hf2 & Hg2 & Hv2 & Hpix2 & Hrest2); try assumption.
  { by rewrite Hf1. }
  { rewrite Hv1. rewrite list_lookup_insert_ne by (unfold VF in *; lia). exact Hsx. }
  { rewrite Hv1. rewrite list_lookup_insert_ne by (unfold VF in *; lia). exact Hsy. }
  { by rewrite Hi1. }
  exists s1, s2. split; [exact Hrun1 |]. split; [exact Hrun2 |].
  apply grid_ext; try assumption.
  intros r c Hr Hc.
  destruct (decide ((r, c) ∈ pos sx sy <$> pixels n)) as [Hin | Hout].
  - apply list_elem_of_fmap in Hin as (p & Heq & Hp).
    assert (Hr' : r = (pos sx sy p).1) by (by rewrite <- Heq).
    assert (Hc' : c = (pos sx sy p).2) by (by rewrite <- Heq).
    rewrite Hr', Hc', Hpix2, Hpix1, Hm1, Hi1 by exact Hp.
    by rewrite Z.lxor_assoc, Z.lxor_nilpotent, Z.lxor_0_r.
  - rewrite Hrest2, Hrest1 by (lia || assumption). reflexivity.
Qed.

Lemma draw_twice_restores_display_witness :
  exists s1 s2,
    opHandlerD draw_machine = Done tt s1 /\
    opHandlerD s1 = Done tt s2 /\
    display s2 = display draw_machine.
Proof.
  apply (draw_twice_restores_display draw_machine 0 1 2 63 31);
    first [reflexivity | lia | unfold VF; lia | intros row Hrow; simpl; lia].
Defined.

Lemma opHandler0_cls_run s :
  Z.land (opcode s) 0x00ff = 0x00e0 ->
  opHandler0 s = Done tt (set_pc (u16 (pc s + 2)) (set_display (clear (display s)) s)).
Proof.
  intros Hop. unfold opHandler0. unfold_m. simpl. rewrite Hop. reflexivity.
Qed.

Lemma clear_lookup d (r : nat) :
  clear d !! r = (fun row : list Z => (fun _ : Z => 0) <$> row) <$> d !! r.
Proof.
  unfold clear. revert r. induction d as [| row d IH]; intros [| r]; try reflexivity.
  simpl. apply IH.
Qed.

Lemma pixel_clear d r c : pixel (clear d) r c = 0.
Proof.
  unfold pixel, cell. rewrite clear_lookup.
  destruct (d !! Z.to_nat r) as [row |]; [| reflexivity]. simpl.
  rewrite list_lookup_fmap. by destruct (row !! Z.to_nat c).
Qed.

Lemma grid_clear d : grid d -> grid (clear d).
Proof.
  intros [Hlen Hrows]. split.
  - unfold clear. by rewrite length_map.
  - apply Forall_lookup. intros r row Hr. rewrite clear_lookup in Hr.
    destruct (d !! r) as [row0 |] eqn:Hrow0; [| discriminate].
    simpl in Hr. injection Hr as <-. rewrite length_fmap.
    by apply (proj1 (Forall_lookup _ _) Hrows r).
Qed.

Lemma existsb_none {A : Type} (f : A -> bool) (l : list A) :
  (forall a, a ∈ l -> f a = false) -> existsb f l = false.
Proof.
  intros Hf. induction l as [| a l IH]; [reflexivity |].
  simpl. rewrite Hf by constructor. apply IH. intros b Hb. apply Hf. by constructor.
Qed.

(** X16.  CLS (00E0) sets every pixel to 0, and a DRW whose sprite bytes
    lie inside the memory, executed on the cleared display, shows exactly the
    sprite: each cell the sprite lands on holds its sprite bit, every other
    cell holds 0, and VF reports no collision. *)
Theorem draw_after_clear_shows_sprite s x y n sx sy :
  wf s = true ->
  0 <= x < 16 -> 0 <= y < 16 -> 0 <= n < 16 ->
  Z.land (opcode s) 0x00ff = 0x00e0 ->
  vx s !! Z.to_nat x = Some sx -> vx s !! Z.to_nat y = Some sy ->
  0 <= sx < 256 -> 0 <= sy < 256 ->
  (forall row, 0 <= row < n -> i s + row < 4096) ->
  exists s1 s2,
    opHandler0 s = Done tt s1 /\
    (forall r c, 0 <= r < 32 -> 0 <= c < 64 -> cell (display s1) r c = Some 0) /\
    opHandlerD (set_opcode (word 13 x y n) s1) = Done tt s2 /\
    (forall row col, 0 <= row < n -> 0 <= col < 8 ->
       cell (display s2) ((sy + row) mod 32) ((sx + col) mod 64) =
       Some (sprite_bit (byte_at (memory s) (i s + row)) col)) /\
    (forall r c, 0 <= r < 32 -> 0 <= c < 64 ->
       (forall row col, 0 <= row < n -> 0 <= col < 8 ->
          (r, c) <> ((sy + row) mod 32, (sx + col) mod 64)) ->
       cell (display s2) r c = Some 0) /\
    vx s2 !! Z.to_nat VF = Some 0.
Proof.
  intros Hwf Hx Hy Hn Hop Hsx Hsy Hrx Hry Hmem.
  pose proof (wf_elim s Hwf) as (Hpc & Hsp & Hi & Hvx & Hst & Hlen & Hk & Hd & Hrows).
  assert (Hg : grid (display s)).
  { split; [exact Hd |]. apply Forall_lookup. exact Hrows. }
  set (s1 := set_pc (u16 (pc s + 2)) (set_display (clear (display s)) s)).
  assert (Hg1 : grid (display s1)) by (by apply grid_clear).
  assert (Hwf1 : wf (set_opcode (word 13 x y n) s1) = true).
  { apply wf_intro; simpl; try assumption; try dlia.
    - by destruct Hg1.
    - by apply grid_rows. }
  destruct (opHandlerD_effect (set_opcode (word 13 x y n) s1) x y n sx sy)
    as (s2 & Hrun2 & Hf2 & Hg2 & Hv2 & Hpix2 & Hrest2); try assumption; try reflexivity.
  simpl in Hv2, Hpix2, Hrest2.
  exists s1, s2. split; [by apply opHandler0_cls_run |].
  split; [| split; [exact Hrun2 | split; [| split]]].
  - intros r c Hr Hc. rewrite cell_pixel by assumption. simpl. by rewrite pixel_clear.
  - intros row col Hrow Hcol.
    pose proof (pos_range sx sy (row, col)) as [Hr Hc]. unfold pos in Hr, Hc.
    simpl in Hr, Hc. rewrite cell_pixel by assumption. f_equal.
    specialize (Hpix2 (row, col)). unfold pos in Hpix2. simpl in Hpix2.
    rewrite Hpix2 by (apply elem_of_pixels; simpl; lia).
    by rewrite pixel_clear, Z.lxor_0_l.
  - intros r c Hr Hc Hfree. rewrite cell_pixel by assumption. f_equal.
    rewrite Hrest2; [apply pixel_clear | lia | lia |].
    intros Hin. apply list_elem_of_fmap in Hin as ([row col] & Heq & Hp).
    apply elem_of_pixels in Hp. simpl in Hp.
    apply (Hfree row col); [lia | lia | exact Heq].
  - rewrite Hv2. rewrite existsb_none.
    + apply list_lookup_insert_eq. unfold VF. lia.
    + intros p _. unfold collides. by rewrite pixel_clear.
Qed.

Lemma draw_after_clear_shows_sprite_witness :
  exists s1 s2,
    opHandler0 (set_opcode 0x00E0 draw_machine) = Done tt s1 /\
    opHandlerD (set_opcode 0xD012 s1) = Done tt s2 /\
    cell (display s2) 31 63 = Some 1 /\ cell (display s2) 0 1 = Some 0 /\
    vx s2 !! Z.to_nat VF = Some 0.
Proof.
  destruct (draw_after_clear_shows_sprite (set_opcode 0x00E0 draw_machine) 0 1 2 63 31)
    as (s1 & s2 & Hrun1 & _ & Hrun2 & Hdraw & _ & Hflag);
    [reflexivity | lia | lia | lia | reflexivity | reflexivity | reflexivity
    | lia | lia | intros row Hrow; simpl; lia |].
  exists s1, s2. split; [exact Hrun1 |]. split; [exact Hrun2 |].
  split; [exact (Hdraw 0 0 ltac:(lia) ltac:(lia)) |].
  split; [exact (Hdraw 1 2 ltac:(lia) ltac:(lia)) | exact Hflag].
Defined.

(** ** The state stays well typed *)

Section WP.
Context {A : Type} (Q : A -> Interpreter -> Prop) (E : Interpreter -> Prop).

Lemma wp_ret (a : A) s : Q a s -> wp (mret a) Q E s.
Proof. exact id. Qed.

Lemma wp_bind {B : Type} (m : M B) (k : B -> M A) s :
  wp m (fun b s' => wp (k b) Q E s') E s -> wp (m ≫= k) Q E s.
Proof. unfold wp. rewrite bind_run. by destruct (m s). Qed.

Lemma wp_get (f : Interpreter -> A) s : Q (f s) s -> wp (get f) Q E s.
Proof. exact id. Qed.

Lemma wp_fail e s : E s -> wp (fail e) Q E s.
Proof. exact id. Qed.

Lemma wp_index (a : list A) k s :
  (forall v, a !! Z.to_nat k = Some v -> Q v s) -> wp (index a k) Q E s.
Proof. intros H. unfold wp, index. destruct (a !! Z.to_nat k); auto. Qed.
End WP.

Lemma wp_store {A : Type} (Q : list A -> Interpreter -> Prop) E (a : list A) k v s :
  ((Z.to_nat k < length a)%nat -> Q (<[Z.to_nat k := v]> a) s) ->
  wp (store a k v) Q E s.
Proof. intros H. unfold wp, store. case_bool_decide; auto. Qed.

Lemma wp_modify (Q : unit -> Interpreter -> Prop) E f s :
  Q tt (f s) -> wp (modify f) Q E s.
Proof. exact id. Qed.

Lemma wp_for_each {A : Type} (Inv : Interpreter -> Prop)
    (Q : unit -> Interpreter -> Prop) E (body : A -> M unit) ks s :
  Inv s ->
  (forall k s0, Inv s0 -> wp (body k) (fun _ => Inv) E s0) ->
  (forall s0, Inv s0 -> Q tt s0) ->
  wp (for_each body ks) Q E s.
Proof.
  intros Hs Hbody HQ. revert s Hs.
  induction ks as [| k ks IH]; intros s Hs; [by apply HQ |].
  simpl. apply wp_bind. specialize (Hbody k s Hs). unfold wp in *.
  destruct (body k s); auto. by apply IH.
Qed.

Lemma shiftr_byte v k : 0 <= k -> byte v -> byte (Z.shiftr v k).
Proof.
  unfold byte. rewrite !byte_bits. intros Hk [Hv Hhigh].
  split; [by apply Z.shiftr_nonneg |].
  intros j Hj. rewrite Z.shiftr_spec by lia. apply Hhigh. lia.
Qed.

Lemma lxor_bit a c : bit a -> bit (Z.lxor a (Z.land c 1)).
Proof.
  intros Ha. destruct (sprite_bit_cases c 7) as [H | H];
    unfold sprite_bit in H; change (7 - 7) with 0 in H; rewrite Z.shiftr_0_r in H;
    rewrite H; destruct Ha as [-> | ->]; unfold bit; simpl; auto.
Qed.

Lemma typed_wf s : typed s -> wf s = true.
Proof.
  intros Ht. destruct Ht as [Hpc Hsp _ _ Hvx _ Hi Hst _ Hm _ Hg _ Hk _ _ _].
  apply wf_intro; unfold word16 in *; try assumption; try lia.
  - by destruct Hg.
  - by apply grid_rows.
Qed.

Lemma clear_bits d : Forall (Forall bit) (clear d).
Proof.
  apply Forall_lookup. intros r row Hr. rewrite clear_lookup in Hr.
  destruct (d !! r) as [row0 |]; [| discriminate]. simpl in Hr. injection Hr as <-.
  apply Forall_lookup. intros c v Hv. rewrite list_lookup_fmap in Hv.
  destruct (row0 !! c); [| discriminate]. simpl in Hv. injection Hv as <-. by left.
Qed.

Ltac wp_step :=
  lazymatch goal with
  | |- wp (_ ≫= _) _ _ _ => apply wp_bind
  | |- wp (mret _) _ _ _ => apply wp_ret
  | |- wp (get _) _ _ _ => apply wp_get
  | |- wp (fail _) _ _ _ => apply wp_fail
  | |- wp (modify _) _ _ _ => apply wp_modify
  | |- wp (index _ _) _ _ _ => apply wp_index; intros ? ?
  | |- wp (store _ _ _) _ _ _ => apply wp_store; intros ?
  | |- wp (for_each _ _) _ _ _ =>
      apply (wp_for_each typed); [| intros ? ? ? | intros ? ?]
  | |- wp (if ?b then _ else _) _ _ _ => destruct b eqn:?
  | |- wp (match ?o with Some _ => _ | None => _ end) _ _ _ => destruct o eqn:?
  end;
  cbv beta.

(** Facts about the values read from a well-typed state. *)
Ltac typed_facts :=
  repeat match goal with
         | H : typed ?s |- _ => destruct H
         end;
  simpl in *;
  repeat match goal with
         | Hall : Forall ?P ?l, H : ?l !! ?k = Some ?v |- _ =>
             lazymatch goal with
             | _ : P v |- _ => fail
             | _ => pose proof (Forall_lookup_1 P l k v Hall H)
             end
         | Hg : grid ?d, H : ?d !! ?k = Some ?row |- _ =>
             lazymatch goal with
             | _ : length row = 64%nat |- _ => fail
             | _ => pose proof (grid_rows d Hg k row H)
             end
         | H : ?l !! ?k = Some ?v |- _ =>
             lazymatch goal with
             | _ : (k < length l)%nat |- _ => fail
             | _ => pose proof (lookup_lt_Some l k v H)
             end
         | Hk : forall key, ?o = Some key -> _, H : ?o = Some ?k |- _ =>
             lazymatch goal with
             | _ : 0 <= k < 16 |- _ => fail
             | _ => pose proof (Hk k H)
             end
         end;
  unfold byte, word16 in *.

Ltac value_tac :=
  first
    [ assumption
    | lia
    | apply lor_byte; value_tac
    | apply lxor_byte; value_tac
    | apply land_byte; value_tac
    | apply shiftr_byte; [lia | unfold byte; value_tac]
    | match goal with
      | |- context [if ?b then _ else _] => destruct b; value_tac
      end
    | apply lxor_bit; assumption
    | rewrite Op_byte_spec; dlia
    | rewrite Op_addr_spec; dlia
    | (left; reflexivity)
    | dlia ].

Ltac field_tac :=
  lazymatch goal with
  | |- length _ = _ => rewrite ?length_insert; assumption
  | |- Forall _ (<[_ := _]> _) => apply Forall_insert; [field_tac | field_tac]
  | |- Forall _ (clear _) => apply clear_bits
  | |- Forall _ _ => assumption
  | |- grid (<[_ := _]> ?d) =>
      match goal with
      | Hg : grid d |- _ =>
          destruct Hg as [? ?]; split;
          [ rewrite length_insert; assumption
          | apply Forall_insert; [assumption | rewrite ?length_insert; assumption] ]
      end
  | |- grid (clear _) => by apply grid_clear
  | |- grid _ => assumption
  | |- forall key, _ = Some key -> _ =>
      let H := fresh in intros ? H; first [discriminate H | injection H as <-; value_tac | eauto]
  | |- _ => cbv beta; unfold byte, word16, bit; value_tac
  end.

Ltac typed_solve := typed_facts; constructor; simpl; field_tac.

Lemma handlers_typed rnd (handler : M unit) :
  handler ∈ dispatch rnd -> forall s, typed s -> wp handler (fun _ => typed) typed s.
Proof.
  intros Hin s Hs. unfold dispatch in Hin.
  repeat (apply elem_of_cons in Hin as [-> | Hin]);
    [.. | by apply elem_of_nil in Hin];
    unfold_handlers; cbv zeta; repeat wp_step;
    typed_facts; constructor; simpl; field_tac.
Qed.

Ltac bool_facts :=
  change (CPUFrequency / ClockFrequency) with 14 in *;
  repeat match goal with
         | H : (_ =? _) = true |- _ => apply Z.eqb_eq in H
         | H : (_ =? _) = false |- _ => apply Z.eqb_neq in H
         | H : (_ <? _) = true |- _ => apply Z.ltb_lt in H
         | H : (_ <? _) = false |- _ => apply Z.ltb_ge in H
         end.

Lemma timers_typed s : typed s -> wp timers (fun _ => typed) typed s.
Proof.
  intros Hs. unfold timers, beep. repeat wp_step;
    bool_facts; typed_facts; constructor; simpl; field_tac.
Qed.

Lemma fetch_execute_typed rnd s :
  typed s -> wp (fetch_execute rnd) (fun _ => typed) typed s.
Proof.
  intros Hs. unfold fetch_execute, read_memory.
  repeat wp_step.
  match goal with
  | Hh : dispatch rnd !! _ = Some ?h |- _ =>
      apply (handlers_typed rnd h); [by apply list_elem_of_lookup_2 in Hh |]
  end.
  typed_facts. constructor; simpl; try field_tac.
  unfold word16. rewrite lor_bytes by assumption. lia.
Qed.

Lemma Cycle_typed rnd s s' : typed s -> Cycle rnd s = Done tt s' -> typed s'.
Proof.
  intros Hs Hrun. rewrite Cycle_split, bind_run in Hrun.
  pose proof (fetch_execute_typed rnd s Hs) as Hfetch. unfold wp in Hfetch.
  destruct (fetch_execute rnd s) as [[] s1 | |]; try discriminate.
  pose proof (timers_typed s1 Hfetch) as Ht. unfold wp in Ht.
  by rewrite Hrun in Ht.
Qed.

Lemma SetKeyState_typed key pressed s s' :
  typed s -> 0 <= key < 16 -> SetKeyState key pressed s = Done tt s' -> typed s'.
Proof.
  intros Hs Hkey Hrun.
  assert (Hwp : wp (SetKeyState key pressed) (fun _ => typed) typed s).
  { unfold SetKeyState, write_keys. repeat wp_step;
      typed_facts; constructor; simpl; field_tac. }
  unfold wp in Hwp. by rewrite Hrun in Hwp.
Qed.

Lemma digitSprites_bytes : Forall byte digitSprites.
Proof. unfold digitSprites, byte. repeat constructor; lia. Qed.

Lemma copy_Forall (P : Z -> Prop) dst src :
  Forall P dst -> Forall P src -> Forall P (copy dst src).
Proof.
  intros Hd Hs. unfold copy. apply Forall_app. split.
  - by apply Forall_take.
  - by apply Forall_drop.
Qed.

Lemma Forall_replicate_intro {A : Type} (P : A -> Prop) n a : P a -> Forall P (replicate n a).
Proof. intros Ha. induction n; simpl; by constructor. Qed.

Lemma NewInterpreter_typed : typed NewInterpreter.
Proof.
  constructor; unfold NewInterpreter, word16, byte;
    cbn [pc sp dt st vx i stack memory display keys lastReleasedKey opcode
         clockCycleCounter];
    try lia; try apply length_replicate;
    try (apply Forall_replicate_intro; unfold byte, word16; lia).
  - split; [apply length_replicate |].
    apply Forall_replicate_intro, length_replicate.
  - apply Forall_replicate_intro, Forall_replicate_intro. by left.
  - intros key Hk. discriminate.
Qed.

Lemma Load_typed image s :
  typed s -> Forall byte image -> typed (Load image s).
Proof.
  intros Hs Himg.
  pose proof (Load_length image s (ty_memory_len s Hs)) as Hlen.
  destruct Hs. constructor; try assumption.
  unfold Load. cbn [memory set_memory].
  apply Forall_app. split.
  - apply Forall_take, copy_Forall; [assumption | apply digitSprites_bytes].
  - apply copy_Forall; [| exact Himg].
    apply Forall_drop, copy_Forall; [assumption | apply digitSprites_bytes].
Qed.

(** X17.  Every state a caller can reach (load an image of bytes into a new
    machine, then run cycles that return normally and report events of the
    keys 0..15) is well typed: every field holds a value of its Go type, so
    no wrap-around is ever silently lost; the arrays have their sizes; the
    stack pointer never exceeds 16 and the cycle counter never exceeds 14;
    every display cell is 0 or 1; the last released key is a key of the
    keypad.  In particular every reachable state is well-formed. *)
Theorem reachable_states_are_typed s :
  reachable s -> typed s /\ wf s = true.
Proof.
  intros Hr. assert (Ht : typed s); [| split; [exact Ht | by apply typed_wf]].
  induction Hr as [image Himg | rnd s s' _ IH _ Hrun | key pressed s s' _ IH Hkey Hrun].
  - apply Load_typed; [apply NewInterpreter_typed | exact Himg].
  - by apply (Cycle_typed rnd s).
  - by apply (SetKeyState_typed key pressed s).
Qed.

Lemma reachable_states_are_typed_witness :
  typed (final (Cycles (replicate 16 0) deep_machine) deep_machine) /\
  sp (final (Cycles (replicate 16 0) deep_machine) deep_machine) = 16.
Proof.
  split; [| reflexivity].
  apply reachable_states_are_typed.
  apply (reachable_Cycles (replicate 16 0) deep_machine).
  - apply reach_load. repeat constructor; lia.
  - repeat constructor; lia.
  - vm_compute. reflexivity.
Defined.

(** ** Words outside the encodings *)




(** ** Immediates *)

(** X19.  LD Vx, kk (6xkk) and ADD Vx, kk (7xkk) never fail in a well-formed
    state.  The addition wraps modulo 256 and, unlike ADD Vx, Vy, writes no
    carry: register x and the program counter are all that changes, so VF
    keeps its value unless x = 0xF.  A load followed by an addition to the
    same register leaves the sum of the two immediates modulo 256. *)
Theorem add_immediate_wraps_without_flag s :
  wf s = true -> 0 <= opcode s ->
  exists a,
    vx s !! Z.to_nat (Op.x (opcode s)) = Some a /\
    opHandler6 s =
      Done tt (set_pc (u16 (pc s + 2))
                 (set_vx (<[Z.to_nat (Op.x (opcode s)) := opcode s mod 256]> (vx s)) s)) /\
    opHandler7 s =
      Done tt (set_pc (u16 (pc s + 2))
                 (set_vx (<[Z.to_nat (Op.x (opcode s)) :=
                              (a + opcode s mod 256) mod 256]> (vx s)) s)) /\
    (Op.x (opcode s) <> VF ->
     forall s', opHandler7 s = Done tt s' ->
                vx s' !! Z.to_nat VF = vx s !! Z.to_nat VF).
Proof.
  intros Hwf Hop.
  destruct (read_reg s (Op.x (opcode s)) Hwf (Op_x_range _)) as [a Ha].
  pose proof (Op_x_range (opcode s)) as Hx.
  assert (Hlen : length (vx s) = 16%nat)
    by (apply wf_elim in Hwf as (_ & _ & _ & Hvx & _); exact Hvx).
  assert (H7 : opHandler7 s =
      Done tt (set_pc (u16 (pc s + 2))
                 (set_vx (<[Z.to_nat (Op.x (opcode s)) :=
                              (a + opcode s mod 256) mod 256]> (vx s)) s))).
  { unfold opHandler7. unfold_m. cbn beta iota. rewrite Ha. cbn beta iota.
    rewrite bool_decide_eq_true_2 by lia. by rewrite Op_byte_spec. }
  exists a. split; [exact Ha |]. split; [| split; [exact H7 |]].
  - unfold opHandler6. unfold_m. cbn beta iota.
    rewrite bool_decide_eq_true_2 by lia. by rewrite Op_byte_spec.
  - intros Hne s' Hrun. rewrite H7 in Hrun. injection Hrun as <-. simpl.
    apply list_lookup_insert_ne. unfold VF in *. lia.
Qed.

Lemma add_immediate_wraps_without_flag_witness :
  opHandler7 (with_regs 0x7105 (0 :: 0xFE :: replicate 14 0)) =
    Done tt (set_pc 0x202 (set_vx (0 :: 3 :: replicate 14 0)
                             (with_regs 0x7105 (0 :: 0xFE :: replicate 14 0)))).
Proof.
  destruct (add_immediate_wraps_without_flag (with_regs 0x7105 (0 :: 0xFE :: replicate 14 0)))
    as (a & Ha & _ & H7 & _); [reflexivity | simpl; lia |].
  change (Some 0xFE = Some a) in Ha. injection Ha as <-.
  exact H7.
Defined.

(** ** The random byte *)

Lemma land_le_r a b : 0 <= a -> 0 <= b -> Z.land a b <= b.
Proof.
  intros Ha Hb.
  assert (Hsplit : b = Z.land a b + Z.ldiff b a).
  { rewrite Z.add_nocarry_lxor.
    - apply Z.bits_inj'. intros k Hk.
      rewrite Z.lxor_spec, Z.land_spec, Z.ldiff_spec.
      destruct (Z.testbit a k), (Z.testbit b k); reflexivity.
    - apply Z.bits_inj'. intros k Hk.
      rewrite !Z.land_spec, Z.ldiff_spec, Z.bits_0.
      destruct (Z.testbit a k), (Z.testbit b k); reflexivity. }
  assert (0 <= Z.ldiff b a) by (apply Z.ldiff_nonneg; by left).
  lia.
Qed.

(** X20.  RND Vx, kk (Cxkk) stores the random number, cut to a byte, masked
    with kk: for every value the generator returns the register receives a
    value between 0 and kk that has no bit outside kk (so kk = 0 always gives
    0), and nothing but that register and the program counter changes. *)
Theorem random_byte_is_masked rnd s :
  wf s = true -> 0 <= opcode s ->
  exists v,
    opHandlerC rnd s =
      Done tt (set_pc (u16 (pc s + 2))
                 (set_vx (<[Z.to_nat (Op.x (opcode s)) := v]> (vx s)) s)) /\
    v = Z.land (rnd mod 256) (opcode s mod 256) /\
    0 <= v <= opcode s mod 256 /\
    (forall k, Z.testbit v k = true -> Z.testbit (opcode s mod 256) k = true).
Proof.
  intros Hwf Hop.
  pose proof (Op_x_range (opcode s)) as Hx.
  assert (Hlen : length (vx s) = 16%nat)
    by (apply wf_elim in Hwf as (_ & _ & _ & Hvx & _); exact Hvx).
  exists (Z.land (rnd mod 256) (opcode s mod 256)).
  split; [| split; [reflexivity | split]].
  - unfold opHandlerC. unfold_m. cbn beta iota.
    rewrite bool_decide_eq_true_2 by lia. by rewrite Op_byte_spec.
  - split; [apply Z.land_nonneg; left; dlia | apply land_le_r; dlia].
  - intros k Hk. rewrite Z.land_spec in Hk. by apply andb_true_iff in Hk as [_ ?].
Qed.

Lemma random_byte_is_masked_witness :
  opHandlerC 0x1AB (with_regs 0xC20F (replicate 16 0)) =
    Done tt (set_pc 0x202 (set_vx (0 :: 0 :: 0x0B :: replicate 13 0)
                             (with_regs 0xC20F (replicate 16 0)))).
Proof.
  destruct (random_byte_is_masked 0x1AB (with_regs 0xC20F (replicate 16 0)))
    as (v & Hrun & -> & _); [reflexivity | simpl; lia |].
  exact Hrun.
Defined.

(** ** Jumps *)

(** X21.  JP nnn (1nnn) always lands inside the memory.  JP V0, nnn (Bnnn)
    jumps to nnn + V0 as a 16-bit sum that is not reduced to the 12 bits of
    an address: the target can lie up to 0x10FE, and when it is 0xFFF or
    beyond, the next cycle ends in a run-time panic at the fetch.  Neither
    jump changes anything but the program counter. *)
Theorem jump_with_offset_can_leave_memory rnd s a :
  wf s = true -> vx s !! Z.to_nat V0 = Some a -> 0 <= a < 256 ->
  opHandler1 s = Done tt (set_pc (opcode s mod 4096) s) /\
  opHandlerB s = Done tt (set_pc (opcode s mod 4096 + a) s) /\
  (4095 <= opcode s mod 4096 + a ->
   Cycle rnd (set_pc (opcode s mod 4096 + a) s) = Panic).
Proof.
  intros Hwf Ha Hbyte. split; [| split].
  - unfold opHandler1. unfold_m. cbn beta iota. by rewrite Op_addr_spec.
  - unfold opHandlerB. unfold_m. cbn beta iota. rewrite Ha. cbn beta iota.
    rewrite Op_addr_spec. do 2 f_equal. dlia.
  - intros Hend. apply wf_elim in Hwf as (_ & _ & _ & _ & _ & Hmem & _).
    unfold Cycle. unfold_m. cbn beta iota.
    change (pc (set_pc ?v s)) with v. change (memory (set_pc ?v s)) with (memory s).
    destruct (memory s !! Z.to_nat (opcode s mod 4096 + a)) as [hi |] eqn:Hhi;
      [| reflexivity].
    apply lookup_lt_Some in Hhi.
    rewrite (lookup_ge_None_2 (memory s)) by dlia. reflexivity.
Qed.

Lemma jump_with_offset_can_leave_memory_witness :
  opHandlerB (with_regs 0xBFF0 (0x20 :: replicate 15 0)) =
    Done tt (set_pc 0x1010 (with_regs 0xBFF0 (0x20 :: replicate 15 0))) /\
  Cycle 0 (set_pc 0x1010 (with_regs 0xBFF0 (0x20 :: replicate 15 0))) = Panic.
Proof.
  destruct (jump_with_offset_can_leave_memory 0
              (with_regs 0xBFF0 (0x20 :: replicate 15 0)) 0x20)
    as (_ & HB & Hnext); [reflexivity | reflexivity | lia |].
  split; [exact HB |]. apply Hnext. change (4095 <= 4112). lia.
Defined.

(** ** The delay timer *)

Lemma same_timer_refl s : same_timer s s.
Proof. by split. Qed.

Lemma same_timer_trans s1 s2 s3 :
  same_timer s1 s2 -> same_timer s2 s3 -> same_timer s1 s3.
Proof. unfold same_timer. intros [? ?] [? ?]. split; congruence. Qed.

Lemma respects_at R {A : Type} (m : M A) s :
  respects R m ->
  match m s with
  | Done _ s' => R s s'
  | Fault _ s' => R s s'
  | Panic => True
  end.
Proof. intros H. apply H. Qed.

(** No handler of the families 0 to E writes the delay timer. *)
Lemma handlers_same_timer rnd (handler : M unit) :
  handler ∈ take 15 (dispatch rnd) -> respects same_timer handler.
Proof.
  intros Hin. unfold dispatch in Hin. cbn [take] in Hin.
  repeat (apply elem_of_cons in Hin as [-> | Hin]);
    [.. | by apply elem_of_nil in Hin];
    unfold_handlers;
    respects_steps same_timer_refl same_timer_trans ltac:(by split).
Qed.

(** In family F only LD DT, Vx (Fx15) does. *)
Lemma opHandlerF_same_timer s :
  Z.land (opcode s) 0x00ff <> 0x15 ->
  match opHandlerF s with
  | Done _ s' => same_timer s s'
  | Fault _ s' => same_timer s s'
  | Panic => True
  end.
Proof.
  intros Hne. unfold opHandlerF. rewrite bind_run.
  change (get opcode s) with (Done (opcode s) s). cbv zeta. cbn beta iota.
  repeat match goal with
         | |- context [if ?b then _ else _] => destruct b eqn:?
         end;
    try match goal with
        | H : (_ =? 21) = true |- _ => apply Z.eqb_eq in H; contradiction
        end;
    apply (respects_at same_timer); unfold_handlers;
    respects_steps same_timer_refl same_timer_trans ltac:(by split).
Qed.

Lemma timers_delay s :
  0 <= dt s < 256 ->
  exists s',
    timers s = Done tt s' /\
    dt s' = if clockCycleCounter s =? 14 then Z.max 0 (dt s - 1) else dt s.
Proof.
  intros Hd. unfold timers. unfold_m. simpl.
  change (CPUFrequency / ClockFrequency) with 14.
  destruct (Z.eqb_spec (clockCycleCounter s) 14) as [Heq | Hne]; simpl.
  - destruct (Z.ltb_spec 0 (dt s)); simpl;
      repeat match goal with
             | |- context [if ?b then _ else _] => destruct b; simpl
             end;
      eexists; (split; [reflexivity |]); simpl; dlia.
  - eexists. split; [reflexivity |]. reflexivity.
Qed.

(** X22.  The delay timer is written by LD DT, Vx (Fx15) and the timer part
    of the cycle only.  A cycle that executes any other word and returns
    normally leaves the timer as it was while the cycle counter is below 14,
    and on the cycle on which the counter stands at 14 counts it down by one,
    stopping at 0. *)
Theorem only_fx15_writes_delay_timer rnd s s' t x y n :
  wf s = true -> 0 <= dt s < 256 ->
  0 <= t < 16 -> 0 <= x < 16 -> 0 <= y < 16 -> 0 <= n < 16 ->
  memory s !! Z.to_nat (pc s) = Some (16 * t + x) ->
  memory s !! Z.to_nat (pc s + 1) = Some (16 * y + n) ->
  t <> 15 \/ 16 * y + n <> 0x15 ->
  Cycle rnd s = Done tt s' ->
  dt s' = if clockCycleCounter s =? 14 then Z.max 0 (dt s - 1) else dt s.
Proof.
  intros Hwf Hd Ht Hx Hy Hn Hhi Hlo Hword Hrun.
  destruct (lookup_lt_is_Some_2 (dispatch rnd) (Z.to_nat t)) as [handler Hh];
    [change (length (dispatch rnd)) with 16%nat; lia |].
  rewrite Cycle_split, bind_run in Hrun.
  rewrite (fetch_execute_word rnd s t x y n handler) in Hrun by assumption.
  assert (Hsame : match handler (set_opcode (word t x y n) s) with
                  | Done _ s0 => same_timer (set_opcode (word t x y n) s) s0
                  | Fault _ s0 => same_timer (set_opcode (word t x y n) s) s0
                  | Panic => True
                  end).
  { destruct (decide (t = 15)) as [-> | Hne].
    - change (Some opHandlerF = Some handler) in Hh. injection Hh as <-.
      apply opHandlerF_same_timer.
      change (opcode (set_opcode ?w s)) with w.
      rewrite word_low_byte by lia. destruct Hword; [congruence | assumption].
    - apply (respects_at same_timer), (handlers_same_timer rnd).
      apply elem_of_take. exists (Z.to_nat t). split; [exact Hh | lia]. }
  destruct (handler (set_opcode (word t x y n) s)) as [[] s0 | e s0 |];
    try discriminate.
  destruct Hsame as [Hdt Hclock]. simpl in Hdt, Hclock.
  destruct (timers_delay s0) as (s1 & Ht1 & Hd1); [by rewrite Hdt |].
  rewrite Ht1 in Hrun. injection Hrun as <-.
  by rewrite Hd1, Hdt, Hclock.
Qed.

Lemma only_fx15_writes_delay_timer_witness :
  dt (final (Cycle 0 (set_dt 5 (set_clockCycleCounter 14 wait_machine)))
        wait_machine) = 4.
Proof.
  apply (only_fx15_writes_delay_timer 0
           (set_dt 5 (set_clockCycleCounter 14 wait_machine)) _ 15 3 0 10);
    [reflexivity | simpl; lia | lia | lia | lia | lia | reflexivity | reflexivity
    | right; lia | vm_compute; reflexivity].
Defined.
